(** * Content extraction core of trafilatura ([trafilatura/core.py])

  A shallow embedding of the extraction core and the properties that
  its specification states about it.

  Conventions of the embedding:
  - a Python [str] is a [string]; a value that may be [None] is an
    [option]; truthiness ([if x], [not x]) is written out by [truthy];
  - an lxml element is a rose tree carrying tag, text, tail, the
    attributes in document order and the children;
  - functions of other modules of the package ([htmlprocessing],
    [external], [utils], [xpaths], [settings], ...) are variables of
    the section that uses them. *)

From Stdlib Require Import List Bool Arith ZArith Lia String Ascii.
Import ListNotations.
Open Scope string_scope.

Set Implicit Arguments.

(** ** Python values used by the core *)

Module Py.

(** [if x:] for an optional string: [None] and [''] are false. *)
Definition truthy (x : option string) : bool :=
  match x with
  | None => false
  | Some EmptyString => false
  | Some _ => true
  end.

(** [x[0]] of a non-empty string. *)
Definition first_char (s : string) : option ascii :=
  match s with
  | EmptyString => None
  | String c _ => Some c
  end.

(** [x[-1]] of a non-empty string. *)
Fixpoint last_char (s : string) : option ascii :=
  match s with
  | EmptyString => None
  | String c EmptyString => Some c
  | String _ rest => last_char rest
  end.

(** [c in chars], for a one character string [c]. *)
Definition char_in (c : ascii) (chars : list ascii) : bool :=
  existsb (Ascii.eqb c) chars.

(** [s.startswith(p)] *)
Fixpoint startswith (p s : string) : bool :=
  match p, s with
  | EmptyString, _ => true
  | String _ _, EmptyString => false
  | String a p', String b s' => Ascii.eqb a b && startswith p' s'
  end.

Fixpoint reverse (s : string) : string :=
  match s with
  | EmptyString => EmptyString
  | String c rest => reverse rest ++ String c EmptyString
  end.

(** [s.endswith(p)] *)
Definition endswith (p s : string) : bool :=
  startswith (reverse p) (reverse s).

(** The double quote character. *)
Definition dquote : ascii := "034"%char.

(** The line feed character. *)
Definition newline : ascii := "010"%char.

(** A string of one character. *)
Definition char (c : ascii) : string := String c EmptyString.

(** [sub in s] *)
Fixpoint contains (sub s : string) : bool :=
  startswith sub s
  || match s with
     | EmptyString => false
     | String _ rest => contains sub rest
     end.

(** [s[n:]] *)
Fixpoint drop (n : nat) (s : string) : string :=
  match n, s with
  | O, _ => s
  | S _, EmptyString => EmptyString
  | S m, String _ rest => drop m rest
  end.

(** [s.replace(old, new)] for a non-empty [old]: leftmost occurrences,
    not overlapping. *)
Fixpoint replace_fuel (fuel : nat) (old new s : string) : string :=
  match fuel with
  | O => s
  | S fuel' =>
      match s with
      | EmptyString => EmptyString
      | String c rest =>
          if startswith old s
          then new ++ replace_fuel fuel' old new (drop (String.length old) s)
          else String c (replace_fuel fuel' old new rest)
      end
  end.

Definition replace (old new s : string) : string :=
  replace_fuel (String.length s) old new s.

(** [sep.join(parts)] *)
Fixpoint join (sep : string) (parts : list string) : string :=
  match parts with
  | [] => EmptyString
  | [x] => x
  | x :: rest => x ++ sep ++ join sep rest
  end.

(** Lower case of an ASCII letter, as used by [re.I]. *)
Definition lower (c : ascii) : ascii :=
  let n := Ascii.nat_of_ascii c in
  if Nat.leb 65 n && Nat.leb n 90 then Ascii.ascii_of_nat (n + 32) else c.

(** [s.startswith(p)] up to letter case. *)
Fixpoint istartswith (p s : string) : bool :=
  match p, s with
  | EmptyString, _ => true
  | String _ _, EmptyString => false
  | String a p', String b s' =>
      Ascii.eqb (lower a) (lower b) && istartswith p' s'
  end.

(** [c.isspace()] for an 8-bit character. *)
Definition isspace (c : ascii) : bool :=
  let n := Ascii.nat_of_ascii c in
  (Nat.leb 9 n && Nat.leb n 13) || (Nat.leb 28 n && Nat.leb n 32).

(** [bool(s.strip())]: some character of [s] is not white space. *)
Fixpoint strip_truthy (s : string) : bool :=
  match s with
  | EmptyString => false
  | String c rest => negb (isspace c) || strip_truthy rest
  end.

(** [s.lstrip()] and [s.strip()] *)
Fixpoint lstrip (s : string) : string :=
  match s with
  | EmptyString => EmptyString
  | String c rest => if isspace c then lstrip rest else s
  end.

Definition strip (s : string) : string :=
  reverse (lstrip (reverse (lstrip s))).

(** [a or b] on optional strings. *)
Definition or_else (a b : option string) : option string :=
  if truthy a then a else b.

(** [(x or '')] *)
Definition or_empty (x : option string) : string :=
  match x with
  | Some s => s
  | None => EmptyString
  end.

(** [c not in s] *)
Fixpoint char_free (c : ascii) (s : string) : bool :=
  match s with
  | EmptyString => true
  | String d rest => negb (Ascii.eqb d c) && char_free c rest
  end.

(** A value that is an [int] or a [str]. *)
Inductive value : Type :=
  | Int (n : Z)
  | Str (s : string).

(** [re.sub(r'^//', 'http://', url)] *)
Definition sub_leading_slashes (url : string) : string :=
  match url with
  | String a (String b rest) =>
      if Ascii.eqb a "/" && Ascii.eqb b "/" then "http://" ++ rest
      else url
  | _ => url
  end.

End Py.

(** ** Whitespace reconstruction predicates (core.py, l.177-196) *)

Module Spacing.

(** The character class [[\.\?\!\,\:\;\)]]. *)
Definition no_space_before : list ascii :=
  ["."; "?"; "!"; ","; ":"; ";"; ")"]%char.

(** The character class [[\[\(]]. *)
Definition no_space_after : list ascii := ["["; "("]%char.

Definition should_have_space_prior (x : option string) : bool :=
  if negb (Py.truthy x) then true
  else
    match x with
    | Some (String c _) =>
        if Ascii.eqb c " " then false
        else if Py.char_in c no_space_before then false
        else true
    | _ => true
    end.

Definition should_have_space_next (x : option string) : bool :=
  if negb (Py.truthy x) then true
  else
    match x with
    | Some s =>
        match Py.last_char s with
        | Some c =>
            if Ascii.eqb c " " then false
            else if Py.char_in c no_space_after then false
            else true
        | None => true
        end
    | None => true
    end.

End Spacing.

(** ** Generators (core.py, l.211-226) *)

Module Generators.

(** What the loop of [enumerate_now_next] yields from the index [i] on,
    [now] being the value in hand and [rest] what the iterator still
    holds; a value is [None] or [Some x].  When the iterator is
    exhausted, the last item is yielded [if _now is not None]. *)
Fixpoint now_next_from {A} (i : nat) (now : option A)
  (rest : list (option A)) : list (nat * (option A * option A)) :=
  match rest with
  | [] =>
      match now with
      | Some _ => [(i, (now, None))]
      | None => []
      end
  | next :: rest' => (i, (now, next)) :: now_next_from (S i) next rest'
  end.

(** [list(enumerate_now_next(l))] for a list [l] of values, [None]
    among them. *)
Definition enumerate_now_next {A} (l : list (option A))
  : list (nat * (option A * option A)) :=
  match l with
  | [] => []
  | now :: rest => now_next_from 0 now rest
  end.

End Generators.

(** ** Elements (lxml [etree._Element]) *)

Module Dom.

(** An element: tag, text before the first child, tail after the
    closing tag, attributes in document order, children. *)
#[warnings="-register-all"]
Inductive element : Type :=
  Element {
    tag : string;
    text : option string;
    tail : option string;
    attrib : list (string * string);
    children : list element
  }.

(** [etree.Element(tag)] *)
Definition new_element (t : string) : element :=
  Element t None None [] [].

(** [element.get(key)] on the attribute list. *)
Fixpoint lookup (key : string) (attrs : list (string * string))
  : option string :=
  match attrs with
  | [] => None
  | (k, v) :: rest => if String.eqb k key then Some v else lookup key rest
  end.

Definition get (e : element) (key : string) : option string :=
  lookup key (attrib e).

(** [element.set(key, value)]: overwrite in place, or append. *)
Fixpoint assign (key value : string) (attrs : list (string * string))
  : list (string * string) :=
  match attrs with
  | [] => [(key, value)]
  | (k, v) :: rest =>
      if String.eqb k key then (k, value) :: rest
      else (k, v) :: assign key value rest
  end.

Definition set (e : element) (key value : string) : element :=
  Element (tag e) (text e) (tail e) (assign key value (attrib e))
          (children e).

Definition set_tag (e : element) (t : string) : element :=
  Element t (text e) (tail e) (attrib e) (children e).

Definition set_text (e : element) (x : option string) : element :=
  Element (tag e) x (tail e) (attrib e) (children e).

Definition set_tail (e : element) (x : option string) : element :=
  Element (tag e) (text e) x (attrib e) (children e).

Definition set_children (e : element) (l : list element) : element :=
  Element (tag e) (text e) (tail e) (attrib e) l.

(** [len(element)] *)
Definition len (e : element) : nat := List.length (children e).

(** [parent.append(child)] for a child that has no parent yet. *)
Definition append (parent child : element) : element :=
  set_children parent (children parent ++ [child])%list.

Definition opt_to_list (x : option string) : list string :=
  match x with
  | Some s => [s]
  | None => []
  end.

(** [element.itertext()]: the text, then for every child its own
    [itertext()] followed by its tail. *)
Fixpoint itertext (e : element) : list string :=
  (opt_to_list (text e)
   ++ flat_map (fun c => itertext c ++ opt_to_list (tail c)) (children e))%list.

(** [element.text_content()] *)
Definition text_content (e : element) : string :=
  String.concat "" (itertext e).

(** [element.iter()]: the element and its descendants in document
    order. *)
Fixpoint iter (e : element) : list element :=
  e :: flat_map iter (children e).

(** The descendants of [e] in document order ([.//*]). *)
Definition descendants (e : element) : list element :=
  flat_map iter (children e).

(** [element.iter(tag1, tag2, ...)] *)
Definition iter_tags (tags : list string) (e : element) : list element :=
  filter (fun x => existsb (String.eqb (tag x)) tags) (iter e).

End Dom.

(** ** Images (core.py, l.468-495) *)

Module Image.
Import Dom.

Section WithImageTest.

(** [utils.is_image_file] on a string; the function answers [False]
    on [None]. *)
Variable is_image_file : string -> bool.

Definition is_image_file_opt (x : option string) : bool :=
  match x with
  | Some s => is_image_file s
  | None => false
  end.

(** The loop [for attr in element.attrib: if attr.startswith('data-src')
    and is_image_file(element.get(attr)): ...; break], run over the
    attributes [attrs] of [element]: the value found, if any. *)
Fixpoint first_data_src (elem : element)
  (attrs : list (string * string)) : option string :=
  match attrs with
  | [] => None
  | (attr, _) :: rest =>
      if Py.startswith "data-src" attr
         && is_image_file_opt (get elem attr)
      then get elem attr
      else first_data_src elem rest
  end.

(** [processed_element.set(key, element.get(key))] under
    [if element.get(key) is not None]. *)
Definition copy_attr (elem : element) (key : string)
  (processed_element : Dom.element) : Dom.element :=
  match get elem key with
  | Some v => set processed_element key v
  | None => processed_element
  end.

Definition handle_image (elem : element) : option Dom.element :=
  let processed_element := new_element (tag elem) in
  let processed_element :=
    if is_image_file_opt (get elem "data-src") then
      match get elem "data-src" with
      | Some v => set processed_element "src" v
      | None => processed_element
      end
    else if is_image_file_opt (get elem "src") then
      match get elem "src" with
      | Some v => set processed_element "src" v
      | None => processed_element
      end
    else
      match first_data_src elem (attrib elem) with
      | Some v => set processed_element "src" v
      | None => processed_element
      end in
  let processed_element := copy_attr elem "alt" processed_element in
  let processed_element := copy_attr elem "class" processed_element in
  let processed_element := copy_attr elem "title" processed_element in
  if Nat.eqb (List.length (attrib processed_element)) 0
     || negb (Py.truthy (get processed_element "src"))
  then None
  else
    match get processed_element "src" with
    | Some url =>
        Some (set processed_element "src" (Py.sub_leading_slashes url))
    | None => None
    end.

(** The order of preference for the source, stated on its own:
    [data-src] when it names an image file; otherwise [src] when it
    does; otherwise the first attribute, in document order, whose name
    starts with [data-src] and whose value names an image file. *)
Definition src_by_priority (elem : element) (url : string) : Prop :=
  (is_image_file_opt (get elem "data-src") = true /\
   get elem "data-src" = Some url)
  \/
  (is_image_file_opt (get elem "data-src") = false /\
   is_image_file_opt (get elem "src") = true /\
   get elem "src" = Some url)
  \/
  (is_image_file_opt (get elem "data-src") = false /\
   is_image_file_opt (get elem "src") = false /\
   exists before attr value after,
     attrib elem = (before ++ (attr, value) :: after)%list /\
     Py.startswith "data-src" attr = true /\
     get elem attr = Some url /\
     is_image_file url = true /\
     forall attr' value', In (attr', value') before ->
       Py.startswith "data-src" attr'
       && is_image_file_opt (get elem attr') = false).

End WithImageTest.

End Image.

(** ** Settings read by the core ([config.getint('DEFAULT', ...)]) *)

Record config : Type :=
  Config {
    MIN_EXTRACTED_SIZE : Z;
    MIN_EXTRACTED_COMM_SIZE : Z;
    MIN_OUTPUT_SIZE : Z;
    MIN_OUTPUT_COMM_SIZE : Z
  }.

(** ** Exceptions and the record of what a run did *)

Module Eff.

Inductive exn : Type :=
  | ValueError
  | TypeError
  | AttributeError
  | OutOfFuel.

Inductive result (A : Type) : Type :=
  | Ok (a : A)
  | Raise (e : exn).
Arguments Ok {A} a.
Arguments Raise {A} e.

(** What a run leaves behind: the functions it called and the records
    it logged. *)
Inductive event : Type :=
  | Call (function : string)
  | Log (message : string).

(** A computation that may raise and that appends to the record. *)
Definition P (A : Type) : Type := list event -> result A * list event.

Definition ret {A} (a : A) : P A := fun tr => (Ok a, tr).

Definition bind {A B} (m : P A) (k : A -> P B) : P B :=
  fun tr =>
    match m tr with
    | (Ok a, tr') => k a tr'
    | (Raise e, tr') => (Raise e, tr')
    end.

Definition raise {A} (e : exn) : P A := fun tr => (Raise e, tr).

Definition emit (ev : event) : P unit := fun tr => (Ok tt, (tr ++ [ev])%list).

(** The call of a function of another module: recorded, then its
    value. *)
Definition call {A} (function : string) (value : A) : P A :=
  bind (emit (Call function)) (fun _ => ret value).

(** [try: body except ValueError: handler] *)
Definition except_ValueError {A} (body : P A) (handler : P A) : P A :=
  fun tr =>
    match body tr with
    | (Raise ValueError, tr') => handler tr'
    | other => other
    end.

Definition run {A} (m : P A) : result A * list event := m [].

(** A computation that leaves the record it is given in place and only
    appends to it. *)
Definition appends {A} (m : P A) : Prop :=
  forall tr, exists suffix, snd (m tr) = (tr ++ suffix)%list.

End Eff.

Declare Scope eff_scope.
Delimit Scope eff_scope with eff.
Notation "x <- m ;; k" := (Eff.bind m (fun x => k))
  (at level 61, m at next level, right associativity) : eff_scope.
Notation "' pat <- m ;; k" := (Eff.bind m (fun x => match x with pat => k end))
  (at level 61, pat pattern, m at next level, right associativity)
  : eff_scope.
Notation "m ;;; k" := (Eff.bind m (fun _ => k))
  (at level 61, right associativity) : eff_scope.

(** ** The element store

    The rewriting functions work on elements by reference: they change
    tags in place, move elements from one parent to another and walk a
    tree while it changes.  The store keeps every tree of a run; an
    element is named by its reference, and each lxml operation of the
    core is a function on the store. *)

Module Lx.

Definition ref : Type := nat.

(** An element of the store: an element with its reference. *)
#[warnings="-register-all"]
Inductive node : Type :=
  Node {
    id : ref;
    ntag : string;
    ntext : option string;
    ntail : option string;
    nattrib : list (string * string);
    kids : list node
  }.

(** The trees of the run (attached or not) and the next free
    reference. *)
Record store : Type :=
  Store {
    roots : list node;
    fresh : ref
  }.

Definition empty : store := Store [] 0.

(** *** Reading *)

(** A node and its descendants in document order. *)
Fixpoint subnodes (n : node) : list node :=
  n :: flat_map subnodes (kids n).

Definition all_nodes (st : store) : list node :=
  flat_map subnodes (roots st).

Definition has_id (r : ref) (n : node) : bool := Nat.eqb (id n) r.

Definition node_of (st : store) (r : ref) : option node :=
  find (has_id r) (all_nodes st).

(** [element.getparent()] *)
Definition parent_node (st : store) (r : ref) : option node :=
  find (fun p => existsb (has_id r) (kids p)) (all_nodes st).

Definition getparent (st : store) (r : ref) : option ref :=
  option_map id (parent_node st r).

(** The root of the tree that holds [r]. *)
Definition root_of (st : store) (r : ref) : option node :=
  find (fun n => existsb (has_id r) (subnodes n)) (roots st).

(** The element that follows [r] in the list [l]. *)
Fixpoint after (r : ref) (l : list node) : option node :=
  match l with
  | [] => None
  | n :: rest => if has_id r n then hd_error rest else after r rest
  end.

(** The element that precedes [r] in the list [l]. *)
Fixpoint before (r : ref) (l : list node) : option node :=
  match l with
  | [] => None
  | [_] => None
  | n :: (m :: _) as rest => if has_id r m then Some n else before r rest
  end.

(** [element.getnext()] and [element.getprevious()] *)
Definition getnext (st : store) (r : ref) : option ref :=
  match parent_node st r with
  | Some p => option_map id (after r (kids p))
  | None => None
  end.

Definition getprevious (st : store) (r : ref) : option ref :=
  match parent_node st r with
  | Some p => option_map id (before r (kids p))
  | None => None
  end.

(** The elements that follow [r] in the list [l]. *)
Fixpoint following (r : ref) (l : list node) : list node :=
  match l with
  | [] => []
  | n :: rest => if has_id r n then rest else following r rest
  end.

(** The element without its references. *)
Fixpoint reify (n : node) : Dom.element :=
  Dom.Element (ntag n) (ntext n) (ntail n) (nattrib n) (map reify (kids n)).

(** *** Changing *)

(** Apply [f] to the element [r] inside [n]. *)
Fixpoint map_node (f : node -> node) (r : ref) (n : node) {struct n}
  : node :=
  if has_id r n then f n
  else Node (id n) (ntag n) (ntext n) (ntail n) (nattrib n)
            (map (map_node f r) (kids n)).

Definition update (f : node -> node) (r : ref) (st : store) : store :=
  Store (map (map_node f r) (roots st)) (fresh st).

(** Remove the element [r] (with its subtree and its tail) from the
    children lists inside [n]. *)
Fixpoint delete_node (r : ref) (n : node) : node :=
  Node (id n) (ntag n) (ntext n) (ntail n) (nattrib n)
       (flat_map (fun k => if has_id r k then [] else [delete_node r k])
                 (kids n)).

(** Take [r] out of the store altogether. *)
Definition unlink (r : ref) (st : store) : store :=
  Store (map (delete_node r) (filter (fun k => negb (has_id r k)) (roots st)))
        (fresh st).

(** [parent.remove(r)]: [r] leaves its parent, with its tail, and is a
    tree of its own from then on. *)
Definition detach (r : ref) (st : store) : store :=
  match node_of st r with
  | Some n => let st' := unlink r st in
              Store (roots st' ++ [n]) (fresh st')
  | None => st
  end.

Definition with_kids (l : list node) (n : node) : node :=
  Node (id n) (ntag n) (ntext n) (ntail n) (nattrib n) l.

(** [parent.append(child)]: the child leaves the place where it is. *)
Definition append (parent child : ref) (st : store) : store :=
  match node_of st child with
  | Some c =>
      update (fun p => with_kids (kids p ++ [c]) p) parent (unlink child st)
  | None => st
  end.

(** [parent.insert(0, child)] *)
Definition insert_first (parent child : ref) (st : store) : store :=
  match node_of st child with
  | Some c =>
      update (fun p => with_kids (c :: kids p) p) parent (unlink child st)
  | None => st
  end.

Definition set_tag (t : string) (r : ref) : store -> store :=
  update (fun n => Node (id n) t (ntext n) (ntail n) (nattrib n) (kids n)) r.

Definition set_text (x : option string) (r : ref) : store -> store :=
  update (fun n => Node (id n) (ntag n) x (ntail n) (nattrib n) (kids n)) r.

Definition set_tail (x : option string) (r : ref) : store -> store :=
  update (fun n => Node (id n) (ntag n) (ntext n) x (nattrib n) (kids n)) r.

Definition set_attr (key value : string) (r : ref) : store -> store :=
  update (fun n => Node (id n) (ntag n) (ntext n) (ntail n)
                        (Dom.assign key value (nattrib n)) (kids n)) r.

(** [element.attrib.clear()] *)
Definition clear_attrib (r : ref) : store -> store :=
  update (fun n => Node (id n) (ntag n) (ntext n) (ntail n) [] (kids n)) r.

(** [etree.Element(tag)] *)
Definition new_element (t : string) (st : store) : ref * store :=
  (fresh st,
   Store (roots st ++ [Node (fresh st) t None None [] []]) (S (fresh st))).

(** Give references to the elements of [e], in document order, from
    [next] on. *)
Fixpoint number (e : Dom.element) (next : ref) : node * ref :=
  let fix number_all (l : list Dom.element) (next : ref)
        : list node * ref :=
    match l with
    | [] => ([], next)
    | c :: rest =>
        let (c', next') := number c next in
        let (rest', next'') := number_all rest next' in
        (c' :: rest', next'')
    end in
  let (children', next') := number_all (Dom.children e) (S next) in
  (Node next (Dom.tag e) (Dom.text e) (Dom.tail e) (Dom.attrib e) children',
   next').

(** Put the tree [e] into the store. *)
Definition alloc (e : Dom.element) (st : store) : ref * store :=
  let (n, next') := number e (fresh st) in
  (fresh st, Store (roots st ++ [n]) next').

(** [copy.deepcopy(element)]: a copy of the tree of [r], tail
    included, under new references. *)
Definition deepcopy (r : ref) (st : store) : option ref * store :=
  match node_of st r with
  | Some n => let (c, st') := alloc (reify n) st in (Some c, st')
  | None => (None, st)
  end.

(** *** Stripping *)

Definition mem (t : string) (tags : list string) : bool :=
  existsb (String.eqb t) tags.

(** The concatenation of two pieces of text of which either may be
    missing. *)
Definition add_text (a b : option string) : option string :=
  match a, b with
  | None, None => None
  | Some x, None => Some x
  | None, Some y => Some y
  | Some x, Some y => Some (x ++ y)
  end.

Definition with_tail (x : option string) (n : node) : node :=
  Node (id n) (ntag n) (ntext n) x (nattrib n) (kids n).

(** The text [x] lands behind what stands so far under a parent: on the
    tail of the last child in [acc], or on the text of the parent when
    there is none. *)
Definition push_text (x : option string)
  (state : option string * list node) : option string * list node :=
  let (parent_text, acc) := state in
  match rev acc with
  | [] => (add_text parent_text x, acc)
  | last :: before =>
      (parent_text,
       (rev before ++ [with_tail (add_text (ntail last) x) last])%list)
  end.

(** One child [k'] of an element under [etree.strip_tags], its own
    descendants being done: with one of the tags it goes, and its text,
    its children and its tail take its place. *)
Definition strip_step (tags : list string)
  (state : option string * list node) (k' : node)
  : option string * list node :=
  if mem (ntag k') tags then
    let state := push_text (ntext k') state in
    let state := (fst state, (snd state ++ kids k')%list) in
    push_text (ntail k') state
  else (fst state, (snd state ++ [k'])%list).

(** [etree.strip_tags(n, *tags)]: every descendant with one of the tags
    goes, its text, children and tail take its place. *)
Fixpoint strip_tags_node (tags : list string) (n : node) : node :=
  let (t, ks) :=
    fold_left (fun state k => strip_step tags state (strip_tags_node tags k))
              (kids n) (ntext n, []) in
  Node (id n) (ntag n) t (ntail n) (nattrib n) ks.

(** [etree.strip_elements(n, *tags)]: every descendant with one of the
    tags goes, with its subtree and its tail. *)
Fixpoint strip_elements_node (tags : list string) (n : node) : node :=
  Node (id n) (ntag n) (ntext n) (ntail n) (nattrib n)
       (flat_map (fun k => if mem (ntag k) tags then []
                           else [strip_elements_node tags k])
                 (kids n)).

Definition strip_tags (tags : list string) (r : ref) : store -> store :=
  update (strip_tags_node tags) r.

Definition strip_elements (tags : list string) (r : ref) : store -> store :=
  update (strip_elements_node tags) r.

(** *** Walking

    [element.iter(...)] walks the tree as it is at the moment of each
    step: the element handed out next is looked up when the current one
    is handed out, from the current one onwards and inside [top] (or up
    to the root of the tree the current one sits in, when it has left
    [top]). *)

(** [tags = []] stands for [iter('*')]. *)
Definition matches (tags : list string) (n : node) : bool :=
  match tags with
  | [] => true
  | _ => mem (ntag n) tags
  end.

Definition iter_next (top : ref) (tags : list string) (cur : ref)
  (st : store) : option ref :=
  let scope :=
    match node_of st top with
    | Some t =>
        if existsb (has_id cur) (subnodes t) then subnodes t
        else match root_of st cur with
             | Some root => subnodes root
             | None => []
             end
    | None => match root_of st cur with
              | Some root => subnodes root
              | None => []
              end
    end in
  option_map id (find (matches tags) (following cur scope)).

Definition iter_first (top : ref) (tags : list string) (st : store)
  : option ref :=
  match node_of st top with
  | Some t => if matches tags t then Some top else iter_next top tags top st
  | None => None
  end.

(** The elements that a walk hands out on a tree that stays as it is:
    [cur], then the element that [next] finds after it, and so on. *)
Fixpoint steps_from (fuel : nat) (next : ref -> store -> option ref)
  (cur : option ref) (st : store) : list ref :=
  match cur, fuel with
  | Some c, S fuel' => c :: steps_from fuel' next (next c st) st
  | _, _ => []
  end.

(** [list(top.iter(tags...))] *)
Definition iter_list (fuel : nat) (top : ref) (tags : list string)
  (st : store) : list ref :=
  steps_from fuel (iter_next top tags) (iter_first top tags st) st.

(** Every element in the subtree of [n] has a tag with the property
    [R]. *)
Definition all_tags (R : string -> Prop) (n : node) : Prop :=
  Forall (fun d => R (ntag d)) (subnodes n).

(** [new] is [old], or [old] after [map_node f p]: what an update at
    [p] makes of an element of the store. *)
Definition touched (f : node -> node) (p : ref) (new old : node) : Prop :=
  new = old \/ new = map_node f p old.

(** The store has the element [pn] under [pe] and the element [cn]
    under [child]; the two are different elements and neither has
    children. *)
Definition holds (st : store) (pe child : ref) (pn cn : node) : Prop :=
  node_of st pe = Some pn /\ node_of st child = Some cn /\
  kids pn = [] /\ kids cn = [] /\ pe <> child.

End Lx.

(** ** Computations on the store *)

Module StM.

Definition St (A : Type) : Type := Lx.store -> Eff.result A * Lx.store.

Definition ret {A} (a : A) : St A := fun st => (Eff.Ok a, st).

Definition bind {A B} (m : St A) (k : A -> St B) : St B :=
  fun st =>
    match m st with
    | (Eff.Ok a, st') => k a st'
    | (Eff.Raise e, st') => (Eff.Raise e, st')
    end.

Definition raise {A} (e : Eff.exn) : St A := fun st => (Eff.Raise e, st).

(** Read the store. *)
Definition gets {A} (f : Lx.store -> A) : St A := fun st => (Eff.Ok (f st), st).

(** Change the store. *)
Definition modify (f : Lx.store -> Lx.store) : St unit :=
  fun st => (Eff.Ok tt, f st).

(** Change the store and hand out a value. *)
Definition state {A} (f : Lx.store -> A * Lx.store) : St A :=
  fun st => let (a, st') := f st in (Eff.Ok a, st').

End StM.

Declare Scope st_scope.
Delimit Scope st_scope with st.
Notation "x <- m ;; k" := (StM.bind m (fun x => k))
  (at level 61, m at next level, right associativity) : st_scope.
Notation "' pat <- m ;; k" := (StM.bind m (fun x => match x with pat => k end))
  (at level 61, pat pattern, m at next level, right associativity)
  : st_scope.
Notation "m ;;; k" := (StM.bind m (fun _ => k))
  (at level 61, right associativity) : st_scope.

(** ** Loops over the store *)

Module Loop.
Import Lx StM.
Local Open Scope st_scope.

(** The element [r], which the store must hold. *)
Definition the_node (r : ref) : St node :=
  fun st =>
    match node_of st r with
    | Some n => (Eff.Ok n, st)
    | None => (Eff.Raise Eff.AttributeError, st)
    end.

(** [list(element)]: the children as they are now. *)
Definition children_of (r : ref) : St (list ref) :=
  n <- the_node r ;; ret (map id (kids n)).

(** [len(element)] *)
Definition len (r : ref) : St nat :=
  n <- the_node r ;; ret (List.length (kids n)).

(** [for x in l: body(x)] over a list made beforehand. *)
Fixpoint for_each {A} (l : list A) (body : A -> St unit) : St unit :=
  match l with
  | [] => ret tt
  | x :: rest => body x ;;; for_each rest body
  end.

(** [[f(x) for x in l]] over a list made beforehand. *)
Fixpoint map_each {A B} (l : list A) (f : A -> St B) : St (list B) :=
  match l with
  | [] => ret []
  | x :: rest => y <- f x ;; ys <- map_each rest f ;; ret (y :: ys)
  end.

(** The steps of a walk: [cur] is handed out, the element after it is
    looked up by [next] at that moment, then the body runs. *)
Fixpoint walk (fuel : nat) (next : ref -> store -> option ref)
  (cur : option ref) (body : ref -> St unit) : St unit :=
  match cur with
  | None => ret tt
  | Some c =>
      match fuel with
      | O => raise Eff.OutOfFuel
      | S fuel' =>
          nxt <- gets (next c) ;;
          body c ;;;
          walk fuel' next nxt body
      end
  end.

(** [for x in top.iter(tags...): body(x)] *)
Definition for_iter (fuel : nat) (top : ref) (tags : list string)
  (body : ref -> St unit) : St unit :=
  first <- gets (iter_first top tags) ;;
  walk fuel (iter_next top tags) first body.

(** [for x in element: body(x)] *)
Definition for_children (fuel : nat) (r : ref) (body : ref -> St unit)
  : St unit :=
  n <- the_node r ;;
  walk fuel (fun c st => getnext st c) (option_map id (hd_error (kids n)))
       body.

(** A walk that carries a value along and that the body may leave
    ([break]): the body answers the new value and whether to go on. *)
Fixpoint walk_with {T} (fuel : nat) (next : ref -> store -> option ref)
  (cur : option ref) (acc : T) (body : T -> ref -> St (T * bool))
  : St T :=
  match cur with
  | None => ret acc
  | Some c =>
      match fuel with
      | O => raise Eff.OutOfFuel
      | S fuel' =>
          nxt <- gets (next c) ;;
          '(acc', go_on) <- body acc c ;;
          if go_on then walk_with fuel' next nxt acc' body else ret acc'
      end
  end.

(** [[f(x) for x in top.iter(tags...)]] *)
Definition map_iter {B} (fuel : nat) (top : ref) (tags : list string)
  (f : ref -> St B) : St (list B) :=
  first <- gets (iter_first top tags) ;;
  walk_with fuel (iter_next top tags) first []
    (fun acc c => y <- f c ;; ret ((acc ++ [y])%list, true)).

(** [[f(x) for x in element]] *)
Definition map_children {B} (fuel : nat) (r : ref) (f : ref -> St B)
  : St (list B) :=
  n <- the_node r ;;
  walk_with fuel (fun c st => getnext st c)
    (option_map id (hd_error (kids n))) []
    (fun acc c => y <- f c ;; ret ((acc ++ [y])%list, true)).

(** The steps of [enumerate_now_next] (core.py, l.211-226) over the
    children of an element: the pair [(now, next)] is handed to the
    body; [stored] is the child the iterator holds for its next answer,
    looked up when [next] was handed out. *)
Fixpoint now_next_steps {T} (fuel i : nat) (now : ref)
  (nxt stored : option ref) (acc : T)
  (body : T -> nat -> ref -> option ref -> St T) : St T :=
  match fuel with
  | O => raise Eff.OutOfFuel
  | S fuel' =>
      acc' <- body acc i now nxt ;;
      match nxt with
      | None => ret acc'
      | Some n =>
          match stored with
          | None => now_next_steps fuel' (S i) n None None acc' body
          | Some s =>
              stored' <- gets (fun st => getnext st s) ;;
              now_next_steps fuel' (S i) n (Some s) stored' acc' body
          end
      end
  end.

(** [for i, (now, next) in enumerate_now_next(element): body] *)
Definition for_now_next {T} (fuel : nat) (r : ref) (acc : T)
  (body : T -> nat -> ref -> option ref -> St T) : St T :=
  n <- the_node r ;;
  match kids n with
  | [] => ret acc
  | first :: _ =>
      second <- gets (fun st => getnext st (id first)) ;;
      match second with
      | None => now_next_steps fuel 0 (id first) None None acc body
      | Some c =>
          stored <- gets (fun st => getnext st c) ;;
          now_next_steps fuel 0 (id first) (Some c) stored acc body
      end
  end.

(** [parent.extend(l)] *)
Definition extend (parent : ref) (l : list ref) : St unit :=
  for_each l (fun c => modify (append parent c)).

(** [etree.SubElement(parent, tag)] *)
Definition sub_element (parent : ref) (t : string) : St ref :=
  r <- state (new_element t) ;;
  modify (append parent r) ;;;
  ret r.

(** [''.join(element.itertext())] *)
Definition text_content (r : ref) : St string :=
  n <- the_node r ;; ret (Dom.text_content (reify n)).

End Loop.

(** ** The choice of the elements to delete by link density
    (core.py, l.548-572) *)

Module Density.
Import Lx.

(** What the first loop sees of an element of the target tag: the test
    is positive; or it is not, backtracking is on and the test gave a
    list that is not empty, and then the trimmed text content of the
    element; or neither. *)
Inductive verdict : Type :=
  | Flagged
  | Candidate (text : string)
  | Kept.

(** [myelems]: the texts in the order in which they came, each with its
    elements. *)
Definition groups : Type := list (string * list ref).

(** [if text not in myelems: myelems[text] = [elem]
     else: myelems[text].append(elem)] *)
Fixpoint add_to_group (text : string) (elem : ref) (myelems : groups)
  : groups :=
  match myelems with
  | [] => [(text, [elem])]
  | (t, l) :: rest =>
      if String.eqb t text then (t, (l ++ [elem])%list) :: rest
      else (t, l) :: add_to_group text elem rest
  end.

(** One turn of the first loop. *)
Definition record_elem (state : groups * list ref) (seen : ref * verdict)
  : groups * list ref :=
  let (myelems, deletions) := state in
  let (elem, v) := seen in
  match v with
  | Flagged => (myelems, (deletions ++ [elem])%list)
  | Candidate text => (add_to_group text elem myelems, deletions)
  | Kept => (myelems, deletions)
  end.

(** The loop [for text, elem in myelems.items()] of the summing up. *)
Definition summing_up (myelems : groups) (deletions : list ref)
  : list ref :=
  fold_left
    (fun deletions (group : string * list ref) =>
       let (text, elem) := group in
       if Nat.ltb 0 (String.length text)
          && Nat.ltb (String.length text) 100
          && Nat.leb 3 (List.length elem)
       then (deletions ++ elem)%list
       else deletions)
    myelems deletions.

(** The list [deletions] when the last loop starts. *)
Definition deletions_of (backtracking : bool)
  (seen : list (ref * verdict)) : list ref :=
  let (myelems, deletions) := fold_left record_elem seen ([], []) in
  if backtracking then summing_up myelems deletions else deletions.

(** Modelled from the spec: [utils.uniquify_list] is not part of the
    sources at hand; deletions are de-duplicated before application: the
    list without its repetitions, every element at its first place. *)
Fixpoint uniquify_from (seen l : list ref) : list ref :=
  match l with
  | [] => []
  | x :: rest =>
      if existsb (Nat.eqb x) seen then uniquify_from seen rest
      else x :: uniquify_from (x :: seen) rest
  end.

Definition uniquify_list (l : list ref) : list ref := uniquify_from [] l.

(** The elements that the first loop put under [text]. *)
Definition group_of (text : string) (seen : list (ref * verdict))
  : list ref :=
  flat_map (fun s : ref * verdict =>
              match snd s with
              | Candidate t => if String.eqb t text then [fst s] else []
              | _ => []
              end) seen.

(** The elements under [text] in [myelems]. *)
Fixpoint lookup_group (text : string) (myelems : groups) : list ref :=
  match myelems with
  | [] => []
  | (t, l) :: rest => if String.eqb t text then l else lookup_group text rest
  end.

(** The elements that the first loop flags, in their order. *)
Definition flagged (seen : list (ref * verdict)) : list ref :=
  flat_map (fun s : ref * verdict =>
              match snd s with
              | Flagged => [fst s]
              | _ => []
              end) seen.

(** The test of the summing up on a group. *)
Definition selected (group : string * list ref) : bool :=
  Nat.ltb 0 (String.length (fst group))
  && Nat.ltb (String.length (fst group)) 100
  && Nat.leb 3 (List.length (snd group)).

(** [trim(elem.text_content())] for the element [e] of the store. *)
Definition text_of (trim : string -> string) (st : store) (e : ref)
  : string :=
  match node_of st e with
  | Some n => trim (Dom.text_content (reify n))
  | None => ""
  end.

(** What the first loop sees of the element [e] when the test answers
    [density e] for it (l.553-562). *)
Definition verdict_of (trim : string -> string) (backtracking : bool)
  (st : store) (density : ref -> bool * list string) (e : ref) : verdict :=
  if fst (density e) then Flagged
  else if backtracking && Nat.ltb 0 (List.length (snd (density e)))
       then Candidate (text_of trim st e)
       else Kept.

End Density.

(** ** The element rewriter (core.py, l.37-545) *)

Module Rewriter.
Import Lx StM Loop Spacing.
Local Open Scope st_scope.

Definition FORMATTING_PROTECTED : list string :=
  ["cell"; "head"; "hi"; "item"; "p"; "quote"; "td"].
Definition P_FORMATTING : list string := ["hi"; "ref"; "del"].
Definition TABLE_ELEMS : list string := ["td"; "th"].
Definition TABLE_ALL : list string := ["td"; "th"; "hi"].
Definition FORMATTING : list string := ["hi"; "ref"; "span"].
Definition CODES_QUOTES : list string := ["code"; "quote"].
Definition HEADINGS : list string := ["fw"; "head"].

(** [P_FORMATTING.union(set(['p', 'div']), FORMATTING, HEADINGS)] *)
Definition paragraph_level : list string :=
  (P_FORMATTING ++ ["p"; "div"] ++ FORMATTING ++ HEADINGS)%list.

(** [get_last_text(e)] for an element [e] (l.229-242). *)
Fixpoint get_last_text (e : node) : option string :=
  if Py.truthy (ntail e) then ntail e
  else
    let last_text :=
      (fix of_last (l : list node) : option string :=
         match l with
         | [] => None
         | [k] => get_last_text k
         | _ :: rest => of_last rest
         end) (kids e) in
    if Py.truthy last_text then last_text else ntext e.

(** What [_get_first_inline_text] answers: the marker [NoText], or a
    text that may be [None]. *)
Inductive inline_text : Type :=
  | NoText
  | Inline (x : option string).

(** [if text:] on such an answer; the marker is a class, which is
    true. *)
Definition inline_truthy (x : inline_text) : bool :=
  match x with
  | NoText => true
  | Inline t => Py.truthy t
  end.

(** [_get_first_inline_text(e, is_root)] (l.248-264). *)
Fixpoint _get_first_inline_text (e : node) (is_root : bool) : inline_text :=
  if negb is_root && mem (ntag e) ["graphic"; "div"; "p"] then NoText
  else if Py.truthy (ntext e) then Inline (ntext e)
  else
    let first :=
      match kids e with
      | [] => Inline None
      | k :: _ => _get_first_inline_text k false
      end in
    if negb (Nat.eqb (List.length (kids e)) 0) && inline_truthy first
    then first
    else Inline (Py.or_else (ntext e) (ntail e)).

(** [get_first_inline_text(e)] (l.267-274). *)
Definition get_first_inline_text (e : node) : option string :=
  match _get_first_inline_text e true with
  | NoText => None
  | Inline t => t
  end.

(** [element_is_empty(res)] for an element (l.277-278). *)
Definition node_is_empty (res : node) : bool :=
  Nat.eqb (List.length (kids res)) 0
  && negb (Py.truthy (ntext res))
  && negb (Py.truthy (ntail res))
  && mem (ntag res) ["p"; "span"; "div"; "hi"; "head"].

(** [element_is_empty(res)], [res] being an element or [None]. *)
Definition element_is_empty (res : option ref) : St bool :=
  match res with
  | None => ret true
  | Some r => n <- the_node r ;; ret (node_is_empty n)
  end.

(** [append_child(processed_element, res, last_element,
    tags_to_enumerate)] (l.281-294): the new [last_element]. *)
Definition append_child (fuel : nat) (processed_element : ref)
  (res : option ref) (last_element : option ref)
  (tags_to_enumerate : list string) : St (option ref) :=
  empty <- element_is_empty res ;;
  match res with
  | None => ret last_element
  | Some res =>
      if empty then ret last_element
      else
        n <- the_node res ;;
        if mem (ntag n) tags_to_enumerate then
          n <- the_node res ;;
          walk_with fuel (fun c st => getnext st c)
            (option_map id (hd_error (kids n))) last_element
            (fun _ x =>
               modify (append processed_element x) ;;;
               ret (Some x, true))
        else
          match last_element with
          | Some last =>
              l <- the_node last ;;
              if should_have_space_prior (get_first_inline_text n)
                 && should_have_space_next (get_last_text l)
              then modify (set_tail (Some (Py.or_empty (ntail l) ++ " "))
                                    last)
              else ret tt
          | None => ret tt
          end ;;;
          modify (append processed_element res) ;;;
          ret (Some res)
  end.

(** The lists of expressions of the module [xpaths] that are handed to
    [prune_unwanted_nodes]. *)
Inductive xpath_list : Type :=
  | DISCARD_XPATH
  | DISCARD_IMAGE_ELEMENTS
  | COMMENTS_DISCARD_XPATH
  | REMOVE_COMMENTS_XPATH.

Section WithCollaborators.

(** [htmlprocessing.process_node(element, deduplicate, config)]: the
    element, cleaned in place, or [None]. *)
Variable process_node : ref -> bool -> config -> St (option ref).

(** [htmlprocessing.handle_textnode(element, comments_fix, deduplicate,
    preserve_spaces, config)]: the element, cleaned in place, or
    [None]. *)
Variable handle_textnode :
  ref -> bool -> bool -> bool -> config -> St (option ref).

(** [htmlprocessing.clean_element_text(element, from_tail, comments_fix,
    deduplicate, preserve_spaces, config)] *)
Variable clean_element_text :
  ref -> bool -> bool -> bool -> bool -> config -> St (option string).

(** [filters.text_chars_test(string) is True] *)
Variable text_chars_test : option string -> bool.

(** [utils.trim] on a string; [trim(None)] is [None]. *)
Variable trim : string -> string.

(** [utils.is_image_file] on a string. *)
Variable is_image_file : string -> bool.

(** [htmlprocessing.prune_unwanted_nodes(tree, xpaths)], for the lists
    of expressions of [xpaths]. *)
Variable prune_unwanted_nodes : ref -> xpath_list -> St ref.

(** [htmlprocessing.link_density_test(element)]: the verdict and the
    list that comes with it. *)
Variable link_density_test : ref -> St (bool * list string).

(** [htmlprocessing.link_density_test_tables(element) is True] *)
Variable link_density_test_tables : ref -> St bool.

(** [element.xpath(expr)] for an expression of [xpaths.BODY_XPATH] or
    [xpaths.COMMENTS_XPATH]: the elements found, in document order. *)
Variable xpath : string -> ref -> St (list ref).
Variable BODY_XPATH : list string.
Variable COMMENTS_XPATH : list string.

(** [settings.TAG_CATALOG] *)
Variable TAG_CATALOG : list string.

Definition trim_opt (x : option string) : option string :=
  option_map trim x.

(** [concat_with_space(a, b)] (l.199-208). *)
Definition concat_with_space (a b : option string) : option string :=
  if negb (Py.truthy a) then b
  else if negb (Py.truthy b) then a
  else
    let a := Py.or_empty a in
    let b := trim (Py.or_empty b) in
    if Py.endswith " " a
       || negb (should_have_space_prior (Some b))
       || negb (should_have_space_next (Some a))
    then Some (a ++ b)
    else Some (a ++ " " ++ b).

(** [handle_titles(element, dedupbool, config)] (l.48-71). *)
Definition handle_titles (element : ref) (dedupbool : bool)
  (config : config) : St (option ref) :=
  n <- len element ;;
  title <-
    (if Nat.eqb n 0 then process_node element dedupbool config
     else
       title <- state (deepcopy element) ;;
       match title with
       | None => raise Eff.AttributeError
       | Some title =>
           children <- children_of element ;;
           for_each children
             (fun child =>
                processed_child <-
                  handle_textnode child false dedupbool false config ;;
                match processed_child with
                | Some c => modify (append title c)
                | None => ret tt
                end ;;;
                modify (set_tag "done" child)) ;;;
           ret (Some title)
       end) ;;
  match title with
  | Some t =>
      tn <- the_node t ;;
      if text_chars_test (ntext tn) then ret (Some t) else ret None
  | None => ret None
  end.

(** [handle_formatting(element, dedupbool, config)] (l.74-119);
    [processed_element.insert(0, None)] raises [TypeError]. *)
Definition handle_formatting (element : ref) (dedupbool : bool)
  (config : config) : St (option ref) :=
  formatting <- process_node element dedupbool config ;;
  n <- len element ;;
  if Nat.eqb n 0 && match formatting with None => true | _ => false end
  then ret None
  else
    parent <- gets (fun st => getparent st element) ;;
    parent <- match parent with
              | None => gets (fun st => getprevious st element)
              | Some _ => ret parent
              end ;;
    protected <-
      match parent with
      | None => ret false
      | Some p => pn <- the_node p ;; ret (mem (ntag pn) FORMATTING_PROTECTED)
      end ;;
    if negb protected then
      processed_element <- state (new_element "p") ;;
      match formatting with
      | Some f =>
          modify (insert_first processed_element f) ;;;
          ret (Some processed_element)
      | None => raise Eff.TypeError
      end
    else ret formatting.

(** The element that [handle_formatting] looks at for its repair:
    [element.getparent()], or [element.getprevious()] when there is no
    parent. *)
Definition parent_or_previous (st : store) (element : ref) : option ref :=
  match getparent st element with
  | Some p => Some p
  | None => getprevious st element
  end.

(** [not (parent is None or parent.tag not in FORMATTING_PROTECTED)] *)
Definition formatting_protected (st : store) (element : ref) : bool :=
  match parent_or_previous st element with
  | Some p =>
      match node_of st p with
      | Some pn => mem (ntag pn) FORMATTING_PROTECTED
      | None => false
      end
  | None => false
  end.

(** [handle_quotes(element, dedupbool, config)] (l.139-152). *)
Definition handle_quotes (fuel : nat) (element : ref) (dedupbool : bool)
  (config : config) : St (option ref) :=
  e <- the_node element ;;
  processed_element <- state (new_element (ntag e)) ;;
  for_iter fuel element []
    (fun child =>
       processed_child <- process_node child dedupbool config ;;
       match processed_child with
       | Some pc =>
           c <- the_node child ;;
           newsub <- sub_element processed_element (ntag c) ;;
           pcn <- the_node pc ;;
           modify (set_text (ntext pcn) newsub) ;;;
           modify (set_tail (ntail pcn) newsub)
       | None => ret tt
       end ;;;
       modify (set_tag "done" child)) ;;;
  n <- len processed_element ;;
  joined <- text_content processed_element ;;
  if Nat.ltb 0 n && text_chars_test (Some joined) then
    modify (strip_tags ["quote"] processed_element) ;;;
    ret (Some processed_element)
  else ret None.

(** [handle_other_elements(element, potential_tags, dedupbool, config)]
    (l.155-174). *)
Definition handle_other_elements (element : ref)
  (potential_tags : list string) (dedupbool : bool) (config : config)
  : St (option ref) :=
  e <- the_node element ;;
  if negb (mem (ntag e) potential_tags) then ret None
  else if String.eqb (ntag e) "div" then
    processed_element <-
      handle_textnode element false dedupbool false config ;;
    match processed_element with
    | Some pe =>
        pn <- the_node pe ;;
        if text_chars_test (ntext pn) then
          modify (clear_attrib pe) ;;;
          (if String.eqb (ntag pn) "div" then modify (set_tag "p" pe)
           else ret tt) ;;;
          ret (Some pe)
        else ret None
    | None => ret None
    end
  else ret None.

(** [define_cell_type(element)] (l.403-409). *)
Definition define_cell_type (element : ref) : St ref :=
  cell_element <- state (new_element "cell") ;;
  e <- the_node element ;;
  (if String.eqb (ntag e) "th" then
     modify (set_attr "role" "head" cell_element)
   else ret tt) ;;;
  ret cell_element.

(** [handle_image(element)] (l.468-495) on the store: the new element
    is a tree of its own. *)
Definition handle_image (element : ref) : St (option ref) :=
  e <- the_node element ;;
  match Image.handle_image is_image_file (reify e) with
  | Some processed_element =>
      r <- state (alloc processed_element) ;; ret (Some r)
  | None => ret None
  end.

(** The three functions that call one another take the other two as
    arguments here; [rewriter] below ties them together. *)

Definition paragraphs_child_t : Type :=
  ref -> list string -> bool -> config -> bool -> bool -> bool ->
  option string -> list string -> option string -> St (option ref).

Definition table_t : Type :=
  ref -> list string -> bool -> config -> list string -> St (option ref).

Definition textelem_t : Type :=
  ref -> list string -> list string -> bool -> config -> St (option ref).

(** A [return] before the end of a function, or the way on. *)
Inductive flow (A : Type) : Type :=
  | Return (value : option ref)
  | Go (a : A).
Arguments Return {A} value.
Arguments Go {A} a.

(** [handle_paragraphs_child(child, potential_tags, dedupbool, config,
    is_root, is_last_of_root, has_tail, next_text, tags_to_enumerate,
    parent_tag)] (l.297-369). *)
Definition handle_paragraphs_child_body
  (handle_paragraphs_child : paragraphs_child_t) (handle_table : table_t)
  (fuel : nat) : paragraphs_child_t :=
  fun child potential_tags dedupbool config is_root is_last_of_root
      has_tail next_text tags_to_enumerate parent_tag =>
  c <- the_node child ;;
  processed_element <- state (new_element (ntag c)) ;;
  cleaned <- clean_element_text child false false dedupbool false config ;;
  modify (set_text cleaned processed_element) ;;;
  cleaned <- clean_element_text child true false dedupbool false config ;;
  modify (set_tail cleaned processed_element) ;;;
  c <- the_node child ;;
  if String.eqb (ntag c) "table" then
    handle_table child potential_tags dedupbool config tags_to_enumerate
  else
    start <-
      (if mem (ntag c) paragraph_level then
         (* correct attributes *)
         (if mem (ntag c) ["hi"; "head"]
             && Py.truthy (Dom.lookup "rend" (nattrib c))
          then modify (set_attr "rend"
                         (Py.or_empty (Dom.lookup "rend" (nattrib c)))
                         processed_element)
          else if String.eqb (ntag c) "ref" then
            match Dom.lookup "target" (nattrib c) with
            | Some target => modify (set_attr "target" target
                                       processed_element)
            | None =>
                match Dom.lookup "href" (nattrib c) with
                | Some href => modify (set_attr "target" href
                                         processed_element)
                | None => ret tt
                end
            end
          else ret tt) ;;;
         modify (set_text (ntext c) processed_element) ;;;
         modify (set_tail (ntail c) processed_element) ;;;
         ret (Go processed_element)
       else if String.eqb (ntag c) "graphic" && mem "graphic" potential_tags
       then
         _processed_element <- handle_image child ;;
         match _processed_element with
         | None => ret (Return (Some processed_element))
         | Some image => ret (Go image)
         end
       else if negb (mem (ntag c) (potential_tags ++ tags_to_enumerate)%list)
       then ret (Return None)
       else ret (Go processed_element)) ;;
    match start with
    | Return value => ret value
    | Go processed_element =>
        pn <- the_node processed_element ;;
        (if String.eqb (ntag pn) "div" && Py.truthy (ntext pn)
            && Py.strip_truthy (Py.or_empty (ntext pn))
         then modify (set_tag "p" processed_element)
         else ret tt) ;;;
        empty <- element_is_empty (Some child) ;;
        if empty then ret None
        else
          modify (set_tag "done" child) ;;;
          (* Iterate over each child element. *)
          child_len <- len child ;;
          let is_last_of_root :=
            if Nat.eqb child_len 0 && is_root then true
            else is_last_of_root in
          let rewrite_into (i : nat) (x : ref) (_next : option ref)
                (last_element : option ref) : St (option ref) :=
            pn <- the_node processed_element ;;
            next_text <-
              match _next with
              | Some nx => nn <- the_node nx ;;
                           ret (get_first_inline_text nn)
              | None => ret None
              end ;;
            res <- handle_paragraphs_child x potential_tags dedupbool config
                     false (is_root && Nat.eqb (S i) child_len)
                     (has_tail || Nat.ltb (S i) child_len
                      || Py.truthy (ntail pn))
                     next_text tags_to_enumerate (Some (ntag pn)) ;;
            append_child fuel processed_element res last_element
                         tags_to_enumerate in
          for_now_next fuel child (Some processed_element)
            (fun last_element i _c _next =>
               cn <- the_node _c ;;
               if mem (ntag cn) tags_to_enumerate then
                 walk_with fuel (fun c st => getnext st c)
                   (option_map id (hd_error (kids cn))) last_element
                   (fun last_element _ce =>
                      last <- rewrite_into i _ce _next last_element ;;
                      ret (last, true))
               else if negb (mem (ntag cn) potential_tags) then
                 ret last_element
               else rewrite_into i _c _next last_element) ;;;
          pn <- the_node processed_element ;;
          let text := trim_opt (ntext pn) in
          let tail := trim_opt (ntail pn) in
          let has_children := negb (Nat.eqb (List.length (kids pn)) 0) in
          let tail :=
            if Py.truthy tail && (Py.truthy text || has_children)
               && should_have_space_prior tail
               && should_have_space_next text
            then Some (" " ++ Py.or_empty tail) else tail in
          let text' :=
            if Py.truthy text && has_children && should_have_space_next text
            then Some (Py.or_empty text ++ " ") else text in
          let '(text'', tail') :=
            if negb has_tail && negb (Py.truthy tail) && Py.truthy text'
               && ((negb is_root && negb is_last_of_root) || has_children)
               && should_have_space_next text'
            then (Some (Py.or_empty text' ++ " "), tail)
            else if Py.truthy tail && negb is_last_of_root && negb is_root
                    && should_have_space_next tail
                    && should_have_space_prior next_text
            then (text', Some (Py.or_empty tail ++ " "))
            else (text', tail) in
          modify (set_text text'' processed_element) ;;;
          modify (set_tail tail' processed_element) ;;;
          empty <- element_is_empty (Some processed_element) ;;
          if empty then ret None else ret (Some processed_element)
    end.

(** [handle_paragraphs(element, potential_tags, dedupbool, config,
    tags_to_enumerate)] (l.372-399). *)
Definition handle_paragraphs (handle_paragraphs_child : paragraphs_child_t)
  (element : ref) (potential_tags : list string) (dedupbool : bool)
  (config : config) (tags_to_enumerate : list string) : St (option ref) :=
  modify (clear_attrib element) ;;;
  n <- len element ;;
  if Nat.eqb n 0 then process_node element dedupbool config
  else
    processed_element <-
      handle_paragraphs_child element potential_tags dedupbool config
        true false false None tags_to_enumerate None ;;
    match processed_element with
    | None => ret None
    | Some pe =>
        pn <- the_node pe ;;
        match rev (kids pn) with
        | last :: _ =>
            (* clean trailing lb-elements *)
            (if String.eqb (ntag last) "lb" then modify (detach (id last))
             else ret tt) ;;;
            ret (Some pe)
        | [] => if Py.truthy (ntext pn) then ret (Some pe) else ret None
        end
    end.

(** [handle_lists(element, potential_tags, dedupbool, config,
    tags_to_enumerate)] (l.122-136). *)
Definition handle_lists (handle_paragraphs_child : paragraphs_child_t)
  (fuel : nat) (element : ref) (potential_tags : list string)
  (dedupbool : bool) (config : config) (tags_to_enumerate : list string)
  : St (option ref) :=
  e <- the_node element ;;
  processed_element <- state (new_element (ntag e)) ;;
  match ntext e with
  | Some t => modify (set_text (Some t) processed_element)
  | None => ret tt
  end ;;;
  for_iter fuel element ["item"]
    (fun child =>
       processed_child <-
         handle_paragraphs_child child potential_tags dedupbool config
           true false false None [] None ;;
       append_child fuel processed_element processed_child None
                    tags_to_enumerate ;;;
       modify (set_tag "done" child)) ;;;
  n <- len processed_element ;;
  joined <- text_content processed_element ;;
  if Nat.ltb 0 n && text_chars_test (Some joined)
  then ret (Some processed_element)
  else ret None.

(** [handle_table(table_elem, potential_tags, dedupbool, config,
    tags_to_enumerate)] (l.412-465); the walk carries [newrow] and
    [i]. *)
Definition handle_table_body (handle_textelem : textelem_t) (fuel : nat)
  : table_t :=
  fun table_elem potential_tags dedupbool config tags_to_enumerate =>
  newtable <- state (new_element "table") ;;
  newrow <- state (new_element "row") ;;
  (* strip these structural elements *)
  modify (strip_tags ["thead"; "tbody"; "tfoot"] table_elem) ;;;
  first <- gets (iter_first table_elem []) ;;
  '(newrow, _) <-
    walk_with fuel (iter_next table_elem []) first (newrow, 0)
      (fun '(newrow, i) subelement =>
         let i := S i in
         sn <- the_node subelement ;;
         if String.eqb (ntag sn) "tr" then
           (* process existing row *)
           n <- len newrow ;;
           newrow <-
             (if Nat.ltb 0 n then
                modify (append newtable newrow) ;;;
                state (new_element "row")
              else ret newrow) ;;
           modify (set_tag "done" subelement) ;;;
           ret ((newrow, i), true)
         else if mem (ntag sn) TABLE_ELEMS then
           newchildelem <- define_cell_type subelement ;;
           (if Nat.eqb (List.length (kids sn)) 0 then
              processed_cell <- process_node subelement dedupbool config ;;
              match processed_cell with
              | Some pc =>
                  pcn <- the_node pc ;;
                  modify (set_text (ntext pcn) newchildelem) ;;;
                  modify (set_tail (ntail pcn) newchildelem)
              | None => ret tt
              end
            else
              (* proceed with iteration, fix for nested elements *)
              for_iter fuel subelement []
                (fun child =>
                   cn <- the_node child ;;
                   processed_subchild <-
                     (if mem (ntag cn) TABLE_ALL then
                        (if mem (ntag cn) TABLE_ELEMS
                         then modify (set_tag "cell" child)
                         else ret tt) ;;;
                        handle_textnode child true dedupbool true config
                      else
                        handle_textelem child
                          (potential_tags ++ ["div"])%list
                          tags_to_enumerate dedupbool config) ;;
                   match processed_subchild with
                   | Some ps =>
                       psn <- the_node ps ;;
                       subchildelem <- sub_element newchildelem (ntag psn) ;;
                       modify (set_text (ntext psn) subchildelem) ;;;
                       modify (set_tail (ntail psn) subchildelem)
                   | None => ret tt
                   end ;;;
                   modify (set_tag "done" child))) ;;;
           (* add to tree *)
           nc <- the_node newchildelem ;;
           (if Py.truthy (ntext nc)
               || Nat.ltb 0 (List.length (kids nc))
            then modify (append newrow newchildelem)
            else ret tt) ;;;
           modify (set_tag "done" subelement) ;;;
           ret ((newrow, i), true)
         (* beware of nested tables *)
         else if String.eqb (ntag sn) "table" && Nat.ltb 1 i then
           ret ((newrow, i), false)
         else
           modify (set_tag "done" subelement) ;;;
           ret ((newrow, i), true)) ;;
  (* end of processing *)
  n <- len newrow ;;
  (if Nat.ltb 0 n then modify (append newtable newrow) else ret tt) ;;;
  n <- len newtable ;;
  if Nat.ltb 0 n then ret (Some newtable) else ret None.

(** [handle_textelem(element, potential_tags, tags_to_enumerate,
    dedupbool, config)] (l.518-545). *)
Definition handle_textelem_body
  (handle_paragraphs_child : paragraphs_child_t) (handle_table : table_t)
  (fuel : nat) : textelem_t :=
  fun element potential_tags tags_to_enumerate dedupbool config =>
  e <- the_node element ;;
  if String.eqb (ntag e) "list" then
    handle_lists handle_paragraphs_child fuel element potential_tags
                 dedupbool config tags_to_enumerate
  else if mem (ntag e) CODES_QUOTES then
    handle_quotes fuel element dedupbool config
  else if String.eqb (ntag e) "head" then
    handle_titles element dedupbool config
  else if String.eqb (ntag e) "p" then
    handle_paragraphs handle_paragraphs_child element potential_tags
                      dedupbool config tags_to_enumerate
  else if String.eqb (ntag e) "lb" then
    if text_chars_test (ntail e) then
      element <- process_node element dedupbool config ;;
      match element with
      | Some el =>
          en <- the_node el ;;
          new_element <- state (new_element "p") ;;
          modify (set_text (ntail en) new_element) ;;;
          ret (Some new_element)
      | None => ret None
      end
    else ret None
  else if mem (ntag e) FORMATTING then
    handle_formatting element dedupbool config
  else if String.eqb (ntag e) "table" && mem "table" potential_tags then
    handle_table element potential_tags dedupbool config tags_to_enumerate
  else if String.eqb (ntag e) "graphic" && mem "graphic" potential_tags then
    handle_image element
  else
    (* other elements (div, ??, ??) *)
    handle_other_elements element potential_tags dedupbool config.

(** The three functions together: a call may go [fuel] calls deep, and
    a loop may take [fuel] steps. *)
Fixpoint rewriter (fuel : nat)
  : paragraphs_child_t * table_t * textelem_t :=
  match fuel with
  | O =>
      (fun _ _ _ _ _ _ _ _ _ _ => raise Eff.OutOfFuel,
       fun _ _ _ _ _ => raise Eff.OutOfFuel,
       fun _ _ _ _ _ => raise Eff.OutOfFuel)
  | S fuel' =>
      let '(paragraphs_child, table, textelem) := rewriter fuel' in
      (handle_paragraphs_child_body paragraphs_child table fuel',
       handle_table_body textelem fuel',
       handle_textelem_body paragraphs_child table fuel')
  end.

Definition handle_paragraphs_child (fuel : nat) : paragraphs_child_t :=
  fst (fst (rewriter fuel)).

Definition handle_table (fuel : nat) : table_t := snd (fst (rewriter fuel)).

Definition handle_textelem (fuel : nat) : textelem_t := snd (rewriter fuel).

(** [recover_wild_text(tree, result_body, potential_tags,
    tags_to_enumerate, deduplicate, config)] (l.498-515). *)
Definition recover_wild_text (fuel : nat) (tree result_body : ref)
  (potential_tags tags_to_enumerate : list string) (deduplicate : bool)
  (config : config) : St ref :=
  (* prune *)
  search_tree <- prune_unwanted_nodes tree DISCARD_XPATH ;;
  search_tree <-
    (if negb (mem "graphic" potential_tags)
     then prune_unwanted_nodes search_tree DISCARD_IMAGE_ELEMENTS
     else ret search_tree) ;;
  (* decide if links are preserved *)
  (if negb (mem "ref" potential_tags)
   then modify (strip_tags ["a"; "ref"; "span"] search_tree)
   else modify (strip_tags ["span"] search_tree)) ;;;
  let potential_tags := ("div" :: potential_tags)%list in
  found <-
    map_iter fuel search_tree
      ["blockquote"; "code"; "div"; "p"; "pre"; "q"; "quote"; "table"; "lb"]
      (fun element =>
         handle_textelem fuel element potential_tags tags_to_enumerate
                         deduplicate config) ;;
  extend result_body
    (flat_map (fun e => match e with Some r => [r] | None => [] end) found) ;;;
  ret result_body.

(** [elem.getparent().remove(elem)] *)
Definition remove_from_parent (elem : ref) : St unit :=
  parent <- gets (fun st => getparent st elem) ;;
  match parent with
  | Some _ => modify (detach elem)
  | None => raise Eff.AttributeError
  end.

(** [delete_by_link_density(subtree, tagname, backtracking)]
    (l.548-572): the first loop hands what it sees of every element to
    [Density.deletions_of]. *)
Definition delete_by_link_density (fuel : nat) (subtree : ref)
  (tagname : string) (backtracking : bool) : St ref :=
  seen <-
    map_iter fuel subtree [tagname]
      (fun elem =>
         '(result, templist) <- link_density_test elem ;;
         if (result : bool) then ret (elem, Density.Flagged)
         else if backtracking && Nat.ltb 0 (List.length templist) then
           text <- text_content elem ;;
           ret (elem, Density.Candidate (trim text))
         else ret (elem, Density.Kept)) ;;
  let deletions := Density.deletions_of backtracking seen in
  for_each (Density.uniquify_list deletions) remove_from_parent ;;;
  ret subtree.

(** The text nodes that [//p//text()] selects in the tree of [n]:
    [inside] tells whether an ancestor is a [p]. *)
Fixpoint texts_under_p (inside : bool) (n : node) : list string :=
  let inside' := inside || String.eqb (ntag n) "p" in
  ((if inside' then Dom.opt_to_list (ntext n) else [])
   ++ flat_map (fun k =>
                  texts_under_p inside' k
                  ++ (if inside' then Dom.opt_to_list (ntail k) else []))
               (kids n))%list.

(** [while len(result_body) > 0 and result_body[-1].tag in HEADINGS:
    result_body[-1].getparent().remove(result_body[-1])] *)
Fixpoint remove_trailing_titles (fuel : nat) (result_body : ref) : St unit :=
  match fuel with
  | O => raise Eff.OutOfFuel
  | S fuel' =>
      n <- the_node result_body ;;
      match rev (kids n) with
      | last :: _ =>
          if mem (ntag last) HEADINGS then
            modify (detach (id last)) ;;;
            remove_trailing_titles fuel' result_body
          else ret tt
      | [] => ret tt
      end
  end.

(** [trim(' '.join(result_body.itertext()))] *)
Definition flat_text (body : ref) : St string :=
  n <- the_node body ;;
  ret (trim (Py.join " " (Dom.itertext (reify n)))).

(** The loop [for expr in BODY_XPATH] of [extract_content]
    (l.593-640), [potential_tags] being carried from one expression to
    the next. *)
Fixpoint try_body_xpaths (fuel : nat) (exprs : list string)
  (tree result_body : ref) (potential_tags tags_to_enumerate : list string)
  (favor_precision include_images deduplicate : bool) (config : config)
  : St (list string) :=
  match exprs with
  | [] => ret potential_tags
  | expr :: rest =>
      let continue potential_tags :=
        try_body_xpaths fuel rest tree result_body potential_tags
          tags_to_enumerate favor_precision include_images deduplicate
          config in
      (* select tree if the expression has been found *)
      subtree <- xpath expr tree ;;
      match subtree with
      | [] => continue potential_tags
      | first :: _ =>
          (* prune *)
          subtree <- prune_unwanted_nodes first DISCARD_XPATH ;;
          subtree <-
            (if negb include_images
             then prune_unwanted_nodes subtree DISCARD_IMAGE_ELEMENTS
             else ret subtree) ;;
          (* remove elements by link density *)
          subtree <- delete_by_link_density fuel subtree "div" true ;;
          subtree <- delete_by_link_density fuel subtree "list" false ;;
          subtree <- delete_by_link_density fuel subtree "p" false ;;
          subtree <-
            (if favor_precision
             then delete_by_link_density fuel subtree "head" false
             else ret subtree) ;;
          (if mem "table" potential_tags || favor_precision then
             for_iter fuel subtree ["table"]
               (fun elem =>
                  flagged <- link_density_test_tables elem ;;
                  if (flagged : bool) then remove_from_parent elem
                  else ret tt)
           else ret tt) ;;;
          (* skip if empty tree *)
          n <- len subtree ;;
          if Nat.eqb n 0 then continue potential_tags
          else
            (* no paragraphs containing text, or not enough *)
            root <- gets (fun st => root_of st subtree) ;;
            let ptest := match root with
                         | Some r => texts_under_p false r
                         | None => []
                         end in
            let potential_tags :=
              if Nat.eqb (List.length ptest) 0
                 || (Z.of_nat (String.length (String.concat "" ptest))
                     <? MIN_EXTRACTED_SIZE config * 2)%Z
              then ("div" :: potential_tags)%list
              else potential_tags in
            (if negb (mem "ref" potential_tags)
             then modify (strip_tags ["ref"] subtree) else ret tt) ;;;
            (if negb (mem "span" potential_tags)
             then modify (strip_tags ["span"] subtree) else ret tt) ;;;
            (* extract content *)
            found <-
              map_children fuel subtree
                (fun e =>
                   handle_paragraphs_child fuel e potential_tags deduplicate
                     config true false false None tags_to_enumerate None) ;;
            extend result_body
              (flat_map (fun e => match e with Some r => [r] | None => [] end)
                        found) ;;;
            (* remove trailing titles *)
            remove_trailing_titles fuel result_body ;;;
            (* exit the loop if the result has children *)
            n <- len result_body ;;
            if Nat.ltb 1 n then ret potential_tags
            else continue potential_tags
      end
  end.

(** [extract_content(tree, favor_precision, favor_recall, include_tables,
    include_images, include_links, deduplicate, config, raw_tree)]
    (l.575-656). *)
Definition extract_content (fuel : nat) (tree : ref)
  (favor_precision favor_recall include_tables include_images
   include_links deduplicate : bool) (config : config)
  (raw_tree : option ref) : St (ref * string * nat * bool) :=
  let raw_tree := match raw_tree with
                  | None => tree
                  | Some r => r
                  end in
  result_body <- state (new_element "body") ;;
  let potential_tags := TAG_CATALOG in
  let tags_to_enumerate := ["article"; "main"; "section"; "header"] in
  let potential_tags :=
    if include_tables
    then (potential_tags ++ ["table"; "td"; "th"; "tr"])%list
    else potential_tags in
  let potential_tags :=
    if include_images then ("graphic" :: potential_tags)%list
    else potential_tags in
  let tags_to_enumerate :=
    if include_images
    then (tags_to_enumerate ++ ["figure"; "picture"; "source"])%list
    else tags_to_enumerate in
  let potential_tags :=
    if include_links then ("ref" :: potential_tags)%list
    else potential_tags in
  (* iterate *)
  potential_tags <-
    try_body_xpaths fuel BODY_XPATH tree result_body potential_tags
      tags_to_enumerate favor_precision include_images deduplicate config ;;
  temp_text <- flat_text result_body ;;
  n <- len result_body ;;
  (* try parsing wild <p> elements if nothing found or text too short *)
  '(result_body, temp_text, sure_thing) <-
    (if Nat.eqb n 0
        || (Z.of_nat (String.length temp_text) <? MIN_EXTRACTED_SIZE config)%Z
     then
       let potential_tags :=
         if favor_recall then ("div" :: potential_tags)%list
         else potential_tags in
       result_body <-
         recover_wild_text fuel raw_tree result_body potential_tags
           tags_to_enumerate deduplicate config ;;
       temp_text <- flat_text result_body ;;
       ret (result_body, temp_text, false)
     else ret (result_body, temp_text, true)) ;;
  (* filter output *)
  modify (strip_elements ["done"] result_body) ;;;
  modify (strip_tags ["div"] result_body) ;;;
  (* return *)
  ret (result_body, temp_text, String.length temp_text, sure_thing).

(** [process_comments_node(elem, potential_tags, dedupbool, config)]
    (l.659-670). *)
Definition process_comments_node (elem : ref) (potential_tags : list string)
  (dedupbool : bool) (config : config) : St (option ref) :=
  e <- the_node elem ;;
  if mem (ntag e) potential_tags then
    processed_element <- handle_textnode elem true dedupbool false config ;;
    match processed_element with
    | Some pe => modify (clear_attrib pe) ;;; ret (Some pe)
    | None => ret None
    end
  else ret None.

(** The loop [for expr in COMMENTS_XPATH] of [extract_comments]
    (l.679-701). *)
Fixpoint try_comments_xpaths (exprs : list string)
  (tree comments_body : ref) (potential_tags : list string)
  (dedupbool : bool) (config : config) : St unit :=
  match exprs with
  | [] => ret tt
  | expr :: rest =>
      let continue :=
        try_comments_xpaths rest tree comments_body potential_tags
                            dedupbool config in
      subtree <- xpath expr tree ;;
      match subtree with
      | [] => continue
      | subtree :: _ =>
          (* prune *)
          subtree <- prune_unwanted_nodes subtree COMMENTS_DISCARD_XPATH ;;
          modify (strip_tags ["a"; "ref"; "span"] subtree) ;;;
          (* extract content: the descendants as they are now, each
             processed and appended in its turn *)
          n <- the_node subtree ;;
          for_each (map id (flat_map subnodes (kids n)))
            (fun elem =>
               processed <- process_comments_node elem potential_tags
                              dedupbool config ;;
               match processed with
               | Some pe => modify (append comments_body pe)
               | None => ret tt
               end) ;;;
          (* control *)
          n <- len comments_body ;;
          if Nat.ltb 0 n then
            (* remove corresponding subtree *)
            remove_from_parent subtree
          else continue
      end
  end.

(** [extract_comments(tree, dedupbool, config)] (l.673-704). *)
Definition extract_comments (tree : ref) (dedupbool : bool)
  (config : config) : St (ref * string * nat * ref) :=
  comments_body <- state (new_element "body") ;;
  (* define iteration strategy *)
  let potential_tags := TAG_CATALOG in
  try_comments_xpaths COMMENTS_XPATH tree comments_body potential_tags
                      dedupbool config ;;;
  (* lengths *)
  temp_comments <- flat_text comments_body ;;
  ret (comments_body, temp_comments, String.length temp_comments, tree).

(** [remove_lone_figures(body)] (l.849-852); [body] is the root of its
    tree. *)
Definition remove_lone_figures (body : ref) : St unit :=
  b <- the_node body ;;
  for_each
    (map id (filter (fun k => mem (ntag k) ["figure"; "source"; "picture"])
                    (subnodes b)))
    (fun fig =>
       n <- len fig ;;
       if Nat.eqb n 0 then remove_from_parent fig else ret tt).

End WithCollaborators.

End Rewriter.

(** ** The arbiter (core.py, l.707-760) *)

Module Arbiter.
Import Dom.

(** [body.xpath('//p')], [body.xpath('//table')] on a root [body]. *)
Definition xpath_all (t : string) (body : element) : list element :=
  filter (fun e => String.eqb (tag e) t) (iter body).

(** The text nodes selected by [quote//text()] from [body]: the text
    nodes inside the [quote] children of [body]. *)
Definition xpath_quote_text (body : element) : list string :=
  flat_map itertext
    (filter (fun e => String.eqb (tag e) "quote") (children body)).

(** [body.xpath('//p|quote//text()')] is not empty. *)
Definition has_p_or_quote_text (body : element) : bool :=
  negb (Nat.eqb (List.length (xpath_all "p" body)) 0)
  || negb (Nat.eqb (List.length (xpath_quote_text body)) 0).


(** The conditions to use the alternative algorithm (l.722-738): the
    value of [algo_flag] for the custom [body] with text length
    [len_text] and the readability text length [len_algo]. *)
Definition algo_flag (body : element) (len_text len_algo : Z)
  (config : config) : bool :=
  (if (len_algo =? 0) || (len_algo =? len_text) then false
   else if (len_text =? 0) && (0 <? len_algo) then true
   else if 2 * len_algo <? len_text then false
   else if 2 * len_text <? len_algo then true
   (* borderline cases *)
   else if negb (has_p_or_quote_text body)
           && (MIN_EXTRACTED_SIZE config * 2 <? len_algo) then true
   else if Nat.ltb (List.length (xpath_all "p" body))
                   (List.length (xpath_all "table" body))
           && (MIN_EXTRACTED_SIZE config * 2 <? len_algo) then true
   else false)%Z.

Section WithCollaborators.
Local Open Scope eff_scope.
Local Open Scope Z_scope.

(** [external.try_readability(backup_tree, url)] *)
Variable try_readability : element -> option string -> element.

(** [external.justext_rescue(tree, url, target_language, body, len_text,
    text)] *)
Variable justext_rescue :
  element -> option string -> option string -> element -> Z -> string ->
  element * string * Z * bool.

(** [external.sanitize_tree(body, include_formatting, include_links,
    include_images, include_tables)] *)
Variable sanitize_tree :
  element -> bool -> bool -> bool -> bool -> element * string * Z.

(** [body.xpath(SANITIZED_XPATH)] is not empty. *)
Variable matches_sanitized_xpath : element -> bool.

(** [utils.trim] on a string. *)
Variable trim : string -> string.

(** The steps that follow the decision (l.746-760): [body], [text] and
    [len_text] are the result that was chosen, [algo_flag] tells whether
    it is the one of [try_readability]. *)
Definition after_selection (tree : element) (url : option string)
  (target_language : option string) (algo_flag : bool) (body : element)
  (text : string) (len_text : Z)
  (favor_recall include_formatting include_links include_images
   include_tables : bool) (config : config)
  : Eff.P (element * string * Z) :=
  (* jt_result = False, from l.713 *)
  let jt_result := false in
  (* override faulty extraction *)
  '(body, text, len_text, jt_result) <-
     (if matches_sanitized_xpath body
         && (len_text <? MIN_EXTRACTED_SIZE config * 10) then
        '(body2, text2, len_text2, jt_result) <-
           Eff.call "justext_rescue"
             (justext_rescue tree url target_language body 0 "") ;;
        if jt_result && negb (2 * len_text2 <? len_text) then
          Eff.ret (body2, text2, len_text2, jt_result)
        else Eff.ret (body, text, len_text, jt_result)
      (* try with justext *)
      else if (len_text <? MIN_EXTRACTED_SIZE config) || favor_recall then
        Eff.emit (Eff.Log "not enough text") ;;;
        Eff.call "justext_rescue"
          (justext_rescue tree url target_language body len_text text)
      else Eff.ret (body, text, len_text, jt_result)) ;;
  (* post-processing: remove unwanted sections *)
  if algo_flag && negb jt_result then
    Eff.call "sanitize_tree"
      (sanitize_tree body include_formatting include_links include_images
                     include_tables)
  else Eff.ret (body, text, len_text).

(** [compare_extraction(tree, backup_tree, url, body, text, len_text,
    target_language, favor_precision, favor_recall, include_formatting,
    include_links, include_images, include_tables, config)]
    (l.707-760). *)
Definition compare_extraction (tree backup_tree : element)
  (url : option string) (body : element) (text : string) (len_text : Z)
  (target_language : option string)
  (favor_precision favor_recall include_formatting include_links
   include_images include_tables : bool) (config : config)
  : Eff.P (element * string * Z) :=
  (* bypass for recall *)
  if favor_recall && (MIN_EXTRACTED_SIZE config * 10 <? len_text) then
    Eff.ret (body, text, len_text)
  else
    (* try with readability *)
    temppost_algo <- Eff.call "try_readability"
                       (try_readability backup_tree url) ;;
    let algo_text := trim (Py.join " " (itertext temppost_algo)) in
    let len_algo := Z.of_nat (String.length algo_text) in
    let algo_flag := algo_flag body len_text len_algo config in
    (* apply decision *)
    '(body, text, len_text) <-
       (if algo_flag then
          Eff.emit (Eff.Log "using generic algorithm") ;;;
          Eff.ret (temppost_algo, algo_text, len_algo)
        else
          Eff.emit (Eff.Log "using custom extraction") ;;;
          Eff.ret (body, text, len_text)) ;;
    after_selection tree url target_language algo_flag body text len_text
      favor_recall include_formatting include_links include_images
      include_tables config.

End WithCollaborators.

End Arbiter.

(** ** Baseline extraction (core.py, l.763-809) *)

Module Baseline.
Import Dom.

(** The regular expression of the JSON-LD scrape, with Q for the double
    quote: [Qarticlebody Q:Q (.+?) Q,Q] (no blanks), under [re.I].  Its
    literal head and tail: *)
Definition pattern_head : string :=
  Py.char Py.dquote ++ "articlebody" ++ Py.char Py.dquote ++ ":"
  ++ Py.char Py.dquote.

Definition pattern_tail : string :=
  Py.char Py.dquote ++ "," ++ Py.char Py.dquote.

(** The key as JSON-LD writes it, with the quote that opens its value. *)
Definition articlebody_key : string :=
  Py.char Py.dquote ++ "articleBody" ++ Py.char Py.dquote ++ ":"
  ++ Py.char Py.dquote.

(** A paragraph as the baseline makes them: a [p] with a text and
    nothing else. *)
Definition plain_paragraph (c : element) : Prop :=
  exists t, c = Element "p" (Some t) None [] [].

(** The texts of the children of [body]. *)
Definition paragraph_texts (body : element) : list (option string) :=
  map text (children body).

(** The lazy group [(.+?)] followed by [pattern_tail]: [group] holds the
    characters taken so far (at least one); the group stops at the first
    place where [pattern_tail] follows, and [.] refuses a line feed. *)
Fixpoint lazy_group (group rest : string) : option string :=
  if Py.startswith pattern_tail rest then Some group
  else
    match rest with
    | EmptyString => None
    | String c rest' =>
        if Ascii.eqb c Py.newline then None
        else lazy_group (group ++ Py.char c) rest'
    end.

(** A match of the whole pattern that starts at the head of [s]. *)
Definition match_here (s : string) : option string :=
  if Py.istartswith pattern_head s then
    match Py.drop (String.length pattern_head) s with
    | EmptyString => None
    | String c rest =>
        if Ascii.eqb c Py.newline then None
        else lazy_group (Py.char c) rest
    end
  else None.

(** [re.search] of the expression in [s]: [group(1)] of the leftmost
    match. *)
Fixpoint search_articlebody (s : string) : option string :=
  match match_here s with
  | Some group => Some group
  | None =>
      match s with
      | EmptyString => None
      | String _ rest => search_articlebody rest
      end
  end.

(** [mymatch.group(1).replace(...)]: a backslash followed by a double
    quote becomes a double quote. *)
Definition unescape_quotes (s : string) : string :=
  Py.replace (String "\" (Py.char Py.dquote)) (Py.char Py.dquote) s.

Section WithHelpers.

(** [utils.load_html]: the parsed tree, or [None]. *)
Variable load_html : string -> option element.

(** [utils.trim] on a string. *)
Variable trim : string -> string.

(** [tree.iterfind] of the descendant [script] elements whose [type]
    is [application/ld+json]. *)
Definition jsonld_scripts (tree : element) : list element :=
  filter (fun e =>
            String.eqb (tag e) "script"
            && match get e "type" with
               | Some t => String.eqb t "application/ld+json"
               | None => false
               end)
         (descendants tree).

(** The loop over the JSON-LD scripts: the triple returned by the first
    script whose text matches, if there is one. *)
Fixpoint scrape_json (scripts : list element)
  : option (element * Py.value * Py.value) :=
  match scripts with
  | [] => None
  | elem :: rest =>
      let found :=
        match text elem with
        | Some t =>
            if Py.truthy (Some t)
               && Py.contains (Py.char Py.dquote ++ "article") t
            then search_articlebody t
            else None
        | None => None
        end in
      match found with
      | Some group =>
          let postbody := new_element "body" in
          let elem_text := trim (unescape_quotes group) in
          let elem := set_text (new_element "p") (Some elem_text) in
          let postbody := append postbody elem in
          Some (postbody, Py.Str elem_text,
                Py.Int (Z.of_nat (String.length elem_text)))
      | None => scrape_json rest
      end
  end.

(** [tree.find('.//article')] *)
Definition find_article (tree : element) : option element :=
  find (fun e => String.eqb (tag e) "article") (descendants tree).

(** The loop over the text paragraphs: [postbody] and the set [results]
    are threaded through. *)
Fixpoint scrape_paragraphs (elements : list element)
  (postbody : element) (results : list string) : element :=
  match elements with
  | [] => postbody
  | element :: rest =>
      let entry := text_content element in
      if existsb (String.eqb entry) results
      then scrape_paragraphs rest postbody results
      else
        let elem := set_text (new_element "p") (Some entry) in
        scrape_paragraphs rest (append postbody elem) (entry :: results)
  end.

Definition baseline (filecontent : string)
  : element * Py.value * Py.value :=
  let tree := load_html filecontent in
  let postbody := new_element "body" in
  match tree with
  | None => (postbody, Py.Int 0%Z, Py.Str "")
  | Some tree =>
      match scrape_json (jsonld_scripts tree) with
      | Some result => result
      | None =>
          let from_article :=
            match find_article tree with
            | Some article_elem =>
                let temp_text := trim (text_content article_elem) in
                let len_text := String.length temp_text in
                if Nat.ltb 0 len_text then
                  let elem := set_text (new_element "p") (Some temp_text) in
                  Some (append postbody elem,
                        Py.Str temp_text, Py.Int (Z.of_nat len_text))
                else None
            | None => None
            end in
          match from_article with
          | Some result => result
          | None =>
              let postbody :=
                scrape_paragraphs
                  (iter_tags ["blockquote"; "code"; "p"; "pre"; "q"; "quote"]
                             tree)
                  postbody [] in
              let temp_text := trim (Py.join (Py.char Py.newline)
                                             (itertext postbody)) in
              (postbody, Py.Str temp_text,
               Py.Int (Z.of_nat (String.length temp_text)))
          end
      end
  end.

End WithHelpers.

End Baseline.

(** ** Runs of the whole pipeline: store, record and exceptions *)

Module Run.

Definition world : Type := Lx.store * list Eff.event.

Definition Run (A : Type) : Type := world -> Eff.result A * world.

Definition ret {A} (a : A) : Run A := fun w => (Eff.Ok a, w).

Definition bind {A B} (m : Run A) (k : A -> Run B) : Run B :=
  fun w =>
    match m w with
    | (Eff.Ok a, w') => k a w'
    | (Eff.Raise e, w') => (Eff.Raise e, w')
    end.

Definition raise {A} (e : Eff.exn) : Run A := fun w => (Eff.Raise e, w).

(** A computation on the store: the record stays as it is. *)
Definition on_store {A} (m : StM.St A) : Run A :=
  fun w =>
    let (r, st') := m (fst w) in (r, (st', snd w)).

(** A computation on the record: the store stays as it is. *)
Definition on_record {A} (m : Eff.P A) : Run A :=
  fun w =>
    let (r, tr') := m (snd w) in (r, (fst w, tr')).

Definition emit (ev : Eff.event) : Run unit := on_record (Eff.emit ev).

(** [try: body except ValueError: handler] *)
Definition except_ValueError {A} (body : Run A) (handler : Run A) : Run A :=
  fun w =>
    match body w with
    | (Eff.Raise Eff.ValueError, w') => handler w'
    | other => other
    end.

Definition start : world := (Lx.empty, []).

End Run.

Declare Scope run_scope.
Delimit Scope run_scope with run.
Notation "x <- m ;; k" := (Run.bind m (fun x => k))
  (at level 61, m at next level, right associativity) : run_scope.
Notation "' pat <- m ;; k" := (Run.bind m (fun x => match x with pat => k end))
  (at level 61, pat pattern, m at next level, right associativity)
  : run_scope.
Notation "m ;;; k" := (Run.bind m (fun _ => k))
  (at level 61, right associativity) : run_scope.

(** ** The entry points (core.py, l.812-1087) *)

Module Pipeline.
Import Dom.

Inductive output_format : Type :=
  | python
  | txt
  | csv
  | json
  | xml
  | xmltei.

(** ['xml' in output_format] *)
Definition is_xml (f : output_format) : bool :=
  match f with
  | xml | xmltei => true
  | _ => false
  end.

Definition is_txt (f : output_format) : bool :=
  match f with
  | txt => true
  | _ => false
  end.

(** The document: the entries of the dictionary that the core reads or
    writes; [metadata] stands for the other entries. *)
Record docmeta (M : Type) : Type :=
  Docmeta {
    title : option string;
    date : option string;
    url : option string;
    metadata : M;
    text : option string;
    comments : option string;
    raw_text : option Py.value;
    body : option element;
    commentsbody : option element;
    id : option string;
    fingerprint : option string
  }.

(** The keyword arguments of [bare_extraction] and [extract], with the
    names they have there. *)
Record options : Type :=
  Options {
    opt_url : option string;
    record_id : option string;
    no_fallback : bool;
    favor_precision : bool;
    favor_recall : bool;
    include_comments : bool;
    tei_validation : bool;
    target_language : option string;
    include_tables : bool;
    include_images : bool;
    include_formatting : bool;
    include_links : bool;
    deduplicate : bool;
    date_extraction_params : option string;
    only_with_metadata : bool;
    with_metadata : bool;
    max_tree_size : option Z;
    url_blacklist : list string;
    author_blacklist : list string
  }.

(** The values of the arguments that are left out in a call. *)
Definition defaults : options :=
  Options None None false false false true false None true false false
          false false None false false None [] [].

(** The call with the four flags given and every other argument left
    out, but for [include_comments], which is [False]. *)
Definition flags (no_fallback favor_precision favor_recall
  include_links : bool) : options :=
  Options None None no_fallback favor_precision favor_recall false false
          None true false false include_links false None false false None
          [] [].


(** [etree.strip_tags(body, *tags)] on an element that is the root of
    its tree. *)
Definition strip_tags (tags : list string) (e : element) : element :=
  Lx.reify (Lx.strip_tags_node tags (fst (Lx.number e 0))).

(** The functions of [htmlprocessing], [filters], [utils], [xpaths] and
    [settings] that work on the tree. *)
Record tree_helpers : Type :=
  TreeHelpers {
    process_node : Lx.ref -> bool -> config -> StM.St (option Lx.ref);
    handle_textnode :
      Lx.ref -> bool -> bool -> bool -> config -> StM.St (option Lx.ref);
    clean_element_text :
      Lx.ref -> bool -> bool -> bool -> bool -> config ->
      StM.St (option string);
    text_chars_test : option string -> bool;
    trim : string -> string;
    is_image_file : string -> bool;
    prune_unwanted_nodes : Lx.ref -> Rewriter.xpath_list -> StM.St Lx.ref;
    link_density_test : Lx.ref -> StM.St (bool * list string);
    link_density_test_tables : Lx.ref -> StM.St bool;
    xpath : string -> Lx.ref -> StM.St (list Lx.ref);
    BODY_XPATH : list string;
    COMMENTS_XPATH : list string;
    TAG_CATALOG : list string;
    tree_cleaning : Lx.ref -> bool -> bool -> StM.St Lx.ref;
    convert_tags : Lx.ref -> bool -> bool -> bool -> bool -> StM.St Lx.ref;
    check_html_lang : Lx.ref -> string -> StM.St bool
  }.

(** The extractors of [external]. *)
Record fallbacks : Type :=
  Fallbacks {
    try_readability : element -> option string -> element;
    justext_rescue :
      element -> option string -> option string -> element -> Z -> string ->
      element * string * Z * bool;
    sanitize_tree :
      element -> bool -> bool -> bool -> bool -> element * string * Z;
    matches_sanitized_xpath : element -> bool
  }.

(** The loader, the metadata extractor, the filters and the output
    functions; [M] is the type of the metadata entries the core does not
    look at. *)
Record services (M : Type) : Type :=
  Services {
    load_html : string -> option element;
    extract_metadata :
      Lx.ref -> option string -> option string -> bool -> list string ->
      StM.St (docmeta M);
    no_metadata : docmeta M;
    duplicate_test : element -> config -> bool;
    language_filter :
      Py.value -> string -> string -> docmeta M -> bool;
    content_fingerprint : option Py.value -> string;
    xmltotxt : option element -> bool -> bool -> string;
    build_xml_output : docmeta M -> string;
    build_tei_output : docmeta M -> string;
    control_xml_output :
      string -> output_format -> bool -> docmeta M -> string;
    txttocsv : string -> string -> docmeta M -> string;
    build_json_output : docmeta M -> string;
    use_config : option string -> config -> config
  }.

Section WithServices.
Local Open Scope run_scope.
Local Open Scope Z_scope.

Variable M : Type.
Variable H : tree_helpers.
Variable X : fallbacks.
Variable S : services M.

(** The element behind a reference, as a value. *)
Definition value_of (r : Lx.ref) : Run.Run element :=
  Run.on_store (StM.bind (Loop.the_node r) (fun n => StM.ret (Lx.reify n))).

(** [v < z] for a value that should be an integer. *)
Definition less_than (v : Py.value) (z : Z) : Run.Run bool :=
  match v with
  | Py.Int n => Run.ret (n <? z)
  | Py.Str _ => Run.raise Eff.TypeError
  end.

(** The block [# compare if necessary] of [bare_extraction] (l.966-975):
    the custom result goes to the arbiter, or to the baseline, or stays;
    what comes out is the body, the text and the length of the text. *)
Definition compare_if_necessary (filecontent : string) (o : options)
  (config : config) (tree : element) (backup_tree : option element)
  (postbody : element) (temp_text : string) (len_text : Z)
  (sure_thing : bool) : Run.Run (element * Py.value * Py.value) :=
  if negb (no_fallback o) then
    match backup_tree with
    | None => Run.raise Eff.AttributeError
    | Some backup_tree =>
        Run.emit (Eff.Call "compare_extraction") ;;;
        '(postbody, temp_text, len_text) <-
          Run.on_record
            (Arbiter.compare_extraction (try_readability X)
               (justext_rescue X) (sanitize_tree X)
               (matches_sanitized_xpath X) (trim H) tree backup_tree
               (opt_url o) postbody temp_text len_text (target_language o)
               (favor_precision o) (favor_recall o) (include_formatting o)
               (include_links o) (include_images o) (include_tables o)
               config) ;;
        (* add baseline as additional fallback *)
        if Nat.eqb (len postbody) 0 then
          Run.emit (Eff.Call "baseline") ;;;
          Run.ret (Baseline.baseline (load_html S) (trim H) filecontent)
        else Run.ret (postbody, Py.Str temp_text, Py.Int len_text)
    end
  (* rescue: try to use original/dirty tree *)
  else if negb sure_thing && (len_text <? MIN_EXTRACTED_SIZE config) then
    Run.emit (Eff.Call "baseline") ;;;
    result <- Run.ret (Baseline.baseline (load_html S) (trim H) filecontent) ;;
    Run.emit (Eff.Log "non-clean extracted length") ;;;
    Run.ret result
  else Run.ret (postbody, Py.Str temp_text, Py.Int len_text).

(** The body of the [try] of [bare_extraction] (l.911-1002): the
    document, the body, the text and the comments body. *)
Definition bare_extraction_try (fuel : nat) (filecontent : string)
  (o : options) (format : output_format) (config : config)
  (raw_tree : option string)
  : Run.Run (docmeta M * element * Py.value * option element) :=
  let only_with_metadata :=
    if with_metadata o then with_metadata o else only_with_metadata o in
  (* load data *)
  match load_html S filecontent with
  | None =>
      Run.emit (Eff.Log "empty HTML tree") ;;;
      Run.raise Eff.ValueError
  | Some loaded =>
      tree <- Run.on_store (StM.state (Lx.alloc loaded)) ;;
      raw_tree <-
        match raw_tree with
        | Some content =>
            match load_html S content with
            | Some loaded_raw =>
                r <- Run.on_store (StM.state (Lx.alloc loaded_raw)) ;;
                r <- Run.on_store
                       (convert_tags H r (include_formatting o)
                          (include_tables o) (include_images o)
                          (include_links o)) ;;
                Run.ret (Some r)
            | None => Run.ret None
            end
        | None => Run.ret None
        end ;;
      (* HTML lang check *)
      match target_language o with
      | Some lang =>
          ok <- Run.on_store (check_html_lang H tree lang) ;;
          if negb ok then
            Run.emit (Eff.Log "wrong HTML meta language") ;;;
            Run.raise Eff.ValueError
          else Run.ret tt
      | None => Run.ret tt
      end ;;;
      (* backup (or not) for further processing *)
      backup_tree <-
        (if negb (no_fallback o) then
           b <- value_of tree ;; Run.ret (Some b)
         else Run.ret None) ;;
      (* extract metadata if necessary *)
      document <-
        (if negb (is_txt format) then
           document <-
             Run.on_store
               (extract_metadata S tree (opt_url o)
                  (date_extraction_params o) (no_fallback o)
                  (author_blacklist o)) ;;
           (* cut short if extracted URL in blacklist *)
           if match url document with
              | Some u => Lx.mem u (url_blacklist o)
              | None => false
              end
           then
             Run.emit (Eff.Log "blacklisted URL") ;;;
             Run.raise Eff.ValueError
           (* cut short if core elements are missing *)
           else if only_with_metadata
                   && match date document, title document, url document with
                      | Some _, Some _, Some _ => false
                      | _, _, _ => true
                      end
           then
             Run.emit (Eff.Log "no metadata") ;;;
             Run.raise Eff.ValueError
           else Run.ret document
         else Run.ret (no_metadata S)) ;;
      (* clean + use LXML cleaner *)
      cleaned_tree <-
        Run.on_store
          (tree_cleaning H tree (include_tables o) (include_images o)) ;;
      (* convert tags, the rest does not work without conversion *)
      cleaned_tree <-
        Run.on_store
          (convert_tags H cleaned_tree (include_formatting o)
             (include_tables o) (include_images o) (include_links o)) ;;
      (* comments first, then remove *)
      '(commentsbody, temp_comments, len_comments, cleaned_tree) <-
        (if include_comments o then
           '(c, t, n, cleaned) <-
             Run.on_store
               (Rewriter.extract_comments (handle_textnode H) (trim H)
                  (prune_unwanted_nodes H) (xpath H) (COMMENTS_XPATH H)
                  (TAG_CATALOG H) cleaned_tree (deduplicate o) config) ;;
           Run.ret (Some c, t, Z.of_nat n, cleaned)
         else
           cleaned <-
             (if favor_precision o then
                Run.on_store
                  (prune_unwanted_nodes H cleaned_tree
                     Rewriter.REMOVE_COMMENTS_XPATH)
              else Run.ret cleaned_tree) ;;
           Run.ret (None, "", 0, cleaned)) ;;
      (* extract content *)
      '(postbody, temp_text, len_text, sure_thing) <-
        Run.on_store
          (Rewriter.extract_content (process_node H) (handle_textnode H)
             (clean_element_text H) (text_chars_test H) (trim H)
             (is_image_file H) (prune_unwanted_nodes H)
             (link_density_test H) (link_density_test_tables H) (xpath H)
             (BODY_XPATH H) (TAG_CATALOG H) fuel cleaned_tree
             (favor_precision o) (favor_recall o) (include_tables o)
             (include_images o) (include_links o) (deduplicate o) config
             raw_tree) ;;
      (if include_images o then
         (* remove lone figures remaining after image extraction *)
         Run.on_store (Rewriter.remove_lone_figures postbody)
       else Run.ret tt) ;;;
      (* from here on the trees are values *)
      postbody <- value_of postbody ;;
      tree <- value_of tree ;;
      commentsbody <-
        match commentsbody with
        | Some c => c' <- value_of c ;; Run.ret (Some c')
        | None => Run.ret None
        end ;;
      (* compare if necessary *)
      '(postbody, temp_text, len_text) <-
        compare_if_necessary filecontent o config tree backup_tree postbody
          temp_text (Z.of_nat len_text) sure_thing ;;
      (* tree size sanity check *)
      postbody <-
        match max_tree_size o with
        | Some max =>
            (* strip tags *)
            let postbody :=
              if max <? Z.of_nat (len postbody)
              then strip_tags ["hi"] postbody else postbody in
            (* still too long, raise an error *)
            if max <? Z.of_nat (len postbody) then
              Run.emit (Eff.Log "output tree too long, discarding file") ;;;
              Run.raise Eff.ValueError
            else Run.ret postbody
        | None => Run.ret postbody
        end ;;
      (* size checks *)
      (if len_comments <? MIN_EXTRACTED_COMM_SIZE config
       then Run.emit (Eff.Log "not enough comments") else Run.ret tt) ;;;
      short <- less_than len_text (MIN_OUTPUT_SIZE config) ;;
      (if short && (len_comments <? MIN_OUTPUT_COMM_SIZE config) then
         Run.emit (Eff.Log "text and comments not long enough") ;;;
         Run.raise Eff.ValueError
       else Run.ret tt) ;;;
      (* check duplicates at body level *)
      (if deduplicate o && duplicate_test S postbody config then
         Run.emit (Eff.Log "duplicate document") ;;;
         Run.raise Eff.ValueError
       else Run.ret tt) ;;;
      (* sanity check on language *)
      match target_language o with
      | Some lang =>
          if language_filter S temp_text temp_comments lang document then
            Run.emit (Eff.Log "wrong language") ;;;
            Run.raise Eff.ValueError
          else Run.ret tt
      | None => Run.ret tt
      end ;;;
      Run.ret (document, postbody, temp_text, commentsbody)
  end.

(** [bare_extraction(filecontent, ...)] (l.855-1016): the document, or
    [None]; [raw_tree] is [None] when [extract] calls. *)
Definition bare_extraction (fuel : nat) (filecontent : string) (o : options)
  (format : output_format) (config : config) (raw_tree : option string)
  : Run.Run (option (docmeta M)) :=
  extracted <-
    Run.except_ValueError
      (x <- bare_extraction_try fuel filecontent o format config raw_tree ;;
       Run.ret (Some x))
      (Run.emit (Eff.Log "discarding data") ;;; Run.ret None) ;;
  match extracted with
  | None => Run.ret None
  | Some (document, postbody, temp_text, commentsbody) =>
      (* special case: python variables *)
      match format with
      | python =>
          let text := xmltotxt S (Some postbody) (include_formatting o)
                               (include_links o) in
          let comments :=
            if include_comments o
            then Some (xmltotxt S commentsbody (include_formatting o)
                                (include_links o))
            else comments document in
          Run.ret (Some (Docmeta (title document) (date document)
                           (url document) (metadata document) (Some text)
                           comments (raw_text document) (body document)
                           (Pipeline.commentsbody document) (id document)
                           (fingerprint document)))
      | _ =>
          Run.ret (Some (Docmeta (title document) (date document)
                           (url document) (metadata document)
                           (text document) (comments document)
                           (Some temp_text) (Some postbody) commentsbody
                           (id document) (fingerprint document)))
      end
  end.

(** The last cleaning of [determine_returnstring] (l.817-821): the
    walk over the body removes the elements, other than [graphic], that
    have no child, no text and no tail. *)
Definition last_cleaning (fuel : nat) (body : element) : Run.Run element :=
  Run.on_store
    (StM.bind (StM.state (Lx.alloc body)) (fun root =>
     StM.bind
       (Loop.for_iter fuel root []
          (fun element =>
             StM.bind (Loop.the_node element) (fun n =>
             if negb (String.eqb (Lx.ntag n) "graphic")
                && Nat.eqb (List.length (Lx.kids n)) 0
                && negb (Py.truthy (Lx.ntext n))
                && negb (Py.truthy (Lx.ntail n))
             then
               StM.bind (StM.gets (fun st => Lx.getparent st element))
                 (fun parent =>
                    match parent with
                    | Some _ => StM.modify (Lx.detach element)
                    | None => StM.ret tt
                    end)
             else StM.ret tt)))
       (fun _ =>
          StM.bind (Loop.the_node root) (fun n => StM.ret (Lx.reify n))))).

(** [determine_returnstring(docmeta, output_format, include_formatting,
    include_links, tei_validation)] (l.812-846). *)
Definition determine_returnstring (fuel : nat) (document : docmeta M)
  (format : output_format) (include_formatting include_links
   tei_validation : bool) : Run.Run string :=
  (* XML (TEI) steps *)
  if is_xml format then
    match body document with
    | None => Run.raise Eff.AttributeError
    | Some b =>
        (* last cleaning *)
        b <- last_cleaning fuel b ;;
        let document :=
          Docmeta (title document) (date document) (url document)
                  (metadata document) (text document) (comments document)
                  (raw_text document) (Some b) (commentsbody document)
                  (id document) (fingerprint document) in
        (* build output trees *)
        let output :=
          match format with
          | xml => build_xml_output S document
          | _ => build_tei_output S document
          end in
        Run.ret (control_xml_output S output format tei_validation document)
    end
  else
    match format with
    (* CSV *)
    | csv =>
        let posttext := xmltotxt S (body document) include_formatting
                                 include_links in
        let commentstext :=
          match commentsbody document with
          | Some c => xmltotxt S (Some c) include_formatting include_links
          | None => ""
          end in
        Run.ret (txttocsv S posttext commentstext document)
    (* JSON *)
    | json => Run.ret (build_json_output S document)
    (* TXT *)
    | _ =>
        let returnstring := xmltotxt S (body document) include_formatting
                                     include_links in
        match commentsbody document with
        | Some c =>
            Run.ret
              (Py.strip
                 (returnstring ++ Py.char Py.newline
                  ++ xmltotxt S (Some c) include_formatting include_links))
        | None => Run.ret returnstring
        end
    end.

(** [extract(filecontent, ...)] (l.1019-1087): a string, or [None]. *)
Definition extract (fuel : nat) (filecontent : string) (o : options)
  (format : output_format) (settingsfile : option string) (config : config)
  : Run.Run (option string) :=
  (* configuration init *)
  let config := use_config S settingsfile config in
  (* extraction *)
  document <- bare_extraction fuel filecontent o format config None ;;
  match document with
  | None => Run.ret None
  | Some document =>
      let document :=
        if negb (is_txt format) then
          (* add record ID to metadata, calculate fingerprint *)
          Docmeta (title document) (date document) (url document)
                  (metadata document) (text document) (comments document)
                  (raw_text document) (body document)
                  (commentsbody document) (record_id o)
                  (Some (content_fingerprint S (raw_text document)))
        else document in
      returnstring <-
        determine_returnstring fuel document format (include_formatting o)
          (include_links o) (tei_validation o) ;;
      Run.ret (Some returnstring)
  end.

End WithServices.

End Pipeline.

(** ** Concrete inputs used by the examples *)

Module Samples.
Import Dom.

(** A stand-in for [utils.is_image_file]: the extension test on two
    common suffixes. *)
Definition image_suffix (s : string) : bool :=
  Py.endswith ".jpg" s || Py.endswith ".png" s.

Definition is_space (c : ascii) : bool :=
  Py.char_in c [" "; "009"; "010"; "013"]%char.

(** The words of [s]: [cur] is the word being read. *)
Fixpoint words (cur s : string) : list string :=
  match s with
  | EmptyString => match cur with EmptyString => [] | _ => [cur] end
  | String c rest =>
      if is_space c
      then match cur with
           | EmptyString => words EmptyString rest
           | _ => cur :: words EmptyString rest
           end
      else words (cur ++ Py.char c) rest
  end.

(** A stand-in for [utils.trim]: runs of white space become one blank,
    none at either end. *)
Definition trim (s : string) : string := Py.join " " (words "" s).

(** The text of a JSON-LD script with the single key [articleBody]. *)
Definition jsonld_single (body : string) : string :=
  "{" ++ Py.char Py.dquote ++ "articleBody" ++ Py.char Py.dquote ++ ":"
  ++ Py.char Py.dquote ++ body ++ Py.char Py.dquote ++ "}".

(** The same with a second string valued key after it. *)
Definition jsonld_followed (body : string) : string :=
  "{" ++ Py.char Py.dquote ++ "articleBody" ++ Py.char Py.dquote ++ ":"
  ++ Py.char Py.dquote ++ body ++ Py.char Py.dquote ++ ","
  ++ Py.char Py.dquote ++ "author" ++ Py.char Py.dquote ++ ":"
  ++ Py.char Py.dquote ++ "A" ++ Py.char Py.dquote ++ "}".

(** The tree of a document that holds one JSON-LD script and nothing
    else: [html > head > script]. *)
Definition script_only (json : string) : element :=
  Element "html" None None []
    [Element "head" None None []
       [Element "script" (Some json) None
          [("type", "application/ld+json")] []]].

(** A paragraph with the text [t]. *)
Definition p_of (t : string) : element := Element "p" (Some t) None [] [].

(** A [body] with the children [l]. *)
Definition body_of (l : list element) : element :=
  Element "body" None None [] l.

(** The flat text of a body as the core computes it:
    [trim(' '.join(body.itertext()))]. *)
Definition flat_text (body : element) : string :=
  trim (Py.join " " (itertext body)).

(** Stand-ins for the functions of [external]: a readability that
    answers the body [b], a justext that finds nothing, a sanitizer that
    leaves the body as it is, and a body that never matches
    [SANITIZED_XPATH]. *)
Definition readability_answers (b : element)
  : element -> option string -> element := fun _ _ => b.

Definition justext_finds_nothing
  : element -> option string -> option string -> element -> Z -> string ->
    element * string * Z * bool :=
  fun _ _ _ body len_text text => (body, text, len_text, false).

Definition sanitize_keeps
  : element -> bool -> bool -> bool -> bool -> element * string * Z :=
  fun body _ _ _ _ =>
    (body, flat_text body, Z.of_nat (String.length (flat_text body))).

Definition never_sanitized : element -> bool := fun _ => false.

(** Settings with every threshold at [n]. *)
Definition config_all (n : Z) : config := Config n n n n.

(** A custom body of 11 characters and a readability body of 25. *)
Definition short_body : element := body_of [p_of "elevenchars"].
Definition long_body : element :=
  body_of [p_of "twenty five characters .."].

(** *** Stand-ins for the helpers that work on the tree *)

(** A filter in the manner of [htmlprocessing.textfilter]: the text is
    the label of a share button. *)
Definition textfilter (t : string) : bool :=
  existsb (String.eqb t) ["Facebook"; "Twitter"; "Print"].

(** A [process_node]: [None] for an element marked [done], for an
    element without child, text and tail, and for a text that the filter
    refuses; otherwise the element, its text and tail trimmed. *)
Definition process_node (r : Lx.ref) (deduplicate : bool) (c : config)
  : StM.St (option Lx.ref) :=
  StM.bind (Loop.the_node r) (fun n =>
  if String.eqb (Lx.ntag n) "done" then StM.ret None
  else if Nat.eqb (List.length (Lx.kids n)) 0
          && negb (Py.truthy (Lx.ntext n)) && negb (Py.truthy (Lx.ntail n))
  then StM.ret None
  else
    let text := option_map trim (Lx.ntext n) in
    let tail := option_map trim (Lx.ntail n) in
    let text :=
      if negb (String.eqb (Lx.ntag n) "lb") && negb (Py.truthy text)
         && Py.truthy tail
      then tail else text in
    StM.bind (StM.modify (Lx.set_text text r)) (fun _ =>
    StM.bind (StM.modify (Lx.set_tail tail r)) (fun _ =>
    if (Py.truthy text || Py.truthy tail)
       && textfilter (Py.or_empty (Py.or_else text tail))
    then StM.ret None
    else StM.ret (Some r)))).

Definition handle_textnode (r : Lx.ref)
  (comments_fix deduplicate preserve_spaces : bool) (c : config)
  : StM.St (option Lx.ref) :=
  process_node r deduplicate c.

(** A [clean_element_text]: the trimmed text, or tail, of the element. *)
Definition clean_element_text (r : Lx.ref)
  (from_tail comments_fix deduplicate preserve_spaces : bool) (c : config)
  : StM.St (option string) :=
  StM.bind (Loop.the_node r) (fun n =>
  StM.ret (option_map trim (if from_tail then Lx.ntail n else Lx.ntext n))).

Definition text_chars_test (x : option string) : bool :=
  Py.truthy x && Py.strip_truthy (Py.or_empty x).

(** An [xpath] for expressions that are a tag name [t], read as
    [(.//t)[1]]. *)
Definition xpath_first (t : string) (r : Lx.ref) : StM.St (list Lx.ref) :=
  StM.bind (Loop.the_node r) (fun n =>
  StM.ret
    (match find (fun k => String.eqb (Lx.ntag k) t)
                (flat_map Lx.subnodes (Lx.kids n)) with
     | Some k => [Lx.id k]
     | None => []
     end)).

(** Helpers that prune nothing, find no link density and leave the
    tree, which is taken to be converted already, as it is. *)
Definition helpers : Pipeline.tree_helpers :=
  Pipeline.TreeHelpers
    process_node handle_textnode clean_element_text text_chars_test trim
    image_suffix
    (fun r _ => StM.ret r)
    (fun _ => StM.ret (false, []))
    (fun _ => StM.ret false)
    xpath_first
    ["article"; "main"]
    ["comments"]
    ["blockquote"; "code"; "del"; "fw"; "head"; "hi"; "lb"; "list"; "p";
     "pre"; "quote"]
    (fun r _ _ => StM.ret r)
    (fun r _ _ _ _ => StM.ret r)
    (fun _ _ => StM.ret true).

(** A [link_density_test] in the manner of [htmlprocessing]: positive
    for an element that has no text of its own and whose children are
    all links; the list it gives is empty. *)
Definition links_only (n : Lx.node) : bool :=
  negb (Py.truthy (Lx.ntext n))
  && negb (Nat.eqb (List.length (Lx.kids n)) 0)
  && forallb (fun k => String.eqb (Lx.ntag k) "ref") (Lx.kids n).

Definition link_density_test (r : Lx.ref) : StM.St (bool * list string) :=
  StM.bind (Loop.the_node r) (fun n => StM.ret (links_only n, [])).

(** A [link_density_test] that is negative for every element and that
    gives the text of the element in its list when this text has less
    than ten characters. *)
Definition short_text (n : Lx.node) : list string :=
  let t := Dom.text_content (Lx.reify n) in
  if Nat.ltb (String.length t) 10 then [t] else [].

Definition link_density_test_short (r : Lx.ref)
  : StM.St (bool * list string) :=
  StM.bind (Loop.the_node r) (fun n => StM.ret (false, short_text n)).

(** The helpers above, with this link density test. *)
Definition helpers_with_density : Pipeline.tree_helpers :=
  Pipeline.TreeHelpers
    process_node handle_textnode clean_element_text text_chars_test trim
    image_suffix
    (fun r _ => StM.ret r)
    link_density_test
    (fun _ => StM.ret false)
    xpath_first
    ["article"; "main"]
    ["comments"]
    ["blockquote"; "code"; "del"; "fw"; "head"; "hi"; "lb"; "list"; "p";
     "pre"; "quote"]
    (fun r _ _ => StM.ret r)
    (fun r _ _ _ _ => StM.ret r)
    (fun _ _ => StM.ret true).

(** Fallbacks whose readability answers the body [b]. *)
Definition fallbacks_answering (b : element) : Pipeline.fallbacks :=
  Pipeline.Fallbacks (readability_answers b) justext_finds_nothing
                     sanitize_keeps never_sanitized.

(** Services for the one document whose tree is [doc]: no metadata, no
    duplicates, every language accepted, and the flat text as output in
    every format. *)
Definition services_for (doc : element) : Pipeline.services unit :=
  let nothing :=
    Pipeline.Docmeta None None None tt None None None None None None None in
  let as_text (d : Pipeline.docmeta unit) :=
    match Pipeline.body d with
    | Some b => flat_text b
    | None => ""
    end in
  Pipeline.Services
    (fun _ => Some doc)
    (fun _ _ _ _ _ => StM.ret nothing)
    nothing
    (fun _ _ => false)
    (fun _ _ _ _ => false)
    (fun _ => "")
    (fun b _ _ => match b with Some e => flat_text e | None => "" end)
    as_text as_text
    (fun output _ _ _ => output)
    (fun posttext _ _ => posttext)
    as_text
    (fun _ c => c).

(** *** Documents, after the conversion of the tags *)

Definition html_of (l : list element) : element :=
  Element "html" None None [] [Element "body" None None [] l].


(** [<p>Hi</p>] *)
Definition doc_short_paragraph : element := html_of [p_of "Hi"].

(** [<article><p>elevenchars</p></article>] *)
Definition doc_eleven : element :=
  html_of [Element "article" None None [] [p_of "elevenchars"]].

(** [<article><p>Some text.</p><table><tr><td><a href=/t>Twitter
    <b>share</b></a></td></tr></table></article>] *)
Definition doc_table_link : element :=
  html_of
    [Element "article" None None []
       [p_of "Some text.";
        Element "table" None None []
          [Element "tr" None None []
             [Element "td" None None []
                [Element "ref" (Some "Twitter") None [("target", "/t")]
                   [Element "hi" (Some "share") None [("rend", "#b")]
                      []]]]]]].

(** [<article><h1><a href=/t>Title</a></h1><p>elevenchars</p></article>] *)
Definition doc_linked_title : element :=
  html_of
    [Element "article" None None []
       [Element "head" None None []
          [Element "ref" (Some "Title") None [("target", "/t")] []];
        p_of "elevenchars"]].

(** [<article><p>Hello <b>world</b>.</p></article>] *)
Definition doc_hello : element :=
  html_of
    [Element "article" None None []
       [Element "p" (Some "Hello ") None []
          [Element "hi" (Some "world") (Some ".") [("rend", "#b")] []]]].

(** [<p>a<span>b<i>c</i>d</span>e</p>] *)
Definition span_paragraph : element :=
  Element "p" (Some "a") None []
    [Element "span" (Some "b") (Some "e") []
       [Element "i" (Some "c") (Some "d") [] []]].

(** What the first loop of [delete_by_link_density] may see: three
    elements with the text [More], one flagged, one with another text,
    one kept. *)
Definition seen_more : list (Lx.ref * Density.verdict) :=
  [(1, Density.Candidate "More"); (2, Density.Flagged);
   (3, Density.Candidate "More"); (4, Density.Candidate "Other");
   (5, Density.Candidate "More"); (6, Density.Kept)]%nat.

(** [<ref target=/t>Twitter<hi>share</hi></ref>], a tree of its own. *)
Definition link_with_child : element :=
  Element "ref" (Some "Twitter") None [("target", "/t")]
    [Element "hi" (Some "share") None [] []].

(** [<body><p>a</p><head>T</head></body>] *)
Definition titled_body : element :=
  Element "body" None None []
    [p_of "a"; Element "head" (Some "T") None [] []].



(** [<body><div>Share</div><div>Share</div><div>Share</div><div>A longer
    text</div></body>] *)
Definition body_with_shares : element :=
  Element "body" None None []
    [Element "div" (Some "Share") None [] [];
     Element "div" (Some "Share") None [] [];
     Element "div" (Some "Share") None [] [];
     Element "div" (Some "A longer text") None [] []].

(** [<body><p>Some text</p><p><a href=/t>Title</a></p></body>] *)
Definition body_with_link_paragraph : element :=
  Element "body" None None []
    [p_of "Some text";
     Element "p" None None []
       [Element "ref" (Some "Title") None [("target", "/t")] []]].

(** [<list><item>a</item></list>] *)
Definition list_of_one : element :=
  Element "list" None None [] [Element "item" (Some "a") None [] []].

(** [<table><tr><td>x</td></tr></table>] *)
Definition table_of_one : element :=
  Element "table" None None []
    [Element "tr" None None [] [Element "td" (Some "x") None [] []]].

(** [<quote>said<hi>loud</hi></quote>] *)
Definition quote_with_formatting : element :=
  Element "quote" (Some "said") None []
    [Element "hi" (Some "loud") None [] []].

(** The store that holds the tree [e] and nothing else; its root has
    the reference 0. *)
Definition store_of (e : element) : Lx.store := snd (Lx.alloc e Lx.empty).

(** Services whose loader fails on every input. *)
Definition services_failing : Pipeline.services unit :=
  let nothing :=
    Pipeline.Docmeta None None None tt None None None None None None None in
  Pipeline.Services
    (fun _ => None)
    (fun _ _ _ _ _ => StM.ret nothing)
    nothing
    (fun _ _ => false)
    (fun _ _ _ _ => false)
    (fun _ => "")
    (fun _ _ _ => "")
    (fun _ => "") (fun _ => "")
    (fun output _ _ _ => output)
    (fun posttext _ _ => posttext)
    (fun _ => "")
    (fun _ c => c).

(** A call without fallback and without comments, with [deduplicate]
    and a [max_tree_size] of 5. *)
Definition options_limited : Pipeline.options :=
  Pipeline.Options None None true false false false false None true false
    false false true None false false (Some 5%Z) [] [].

(** [<graphic src=//cdn/img.jpg alt=logo/>] *)
Definition relative_graphic : element :=
  Element "graphic" None None [("src", "//cdn/img.jpg"); ("alt", "logo")] [].

(** Services like [services_for], whose metadata extractor finds a
    title, a date and the URL [u]. *)
Definition services_with_metadata (doc : element) (u : string)
  : Pipeline.services unit :=
  let nothing :=
    Pipeline.Docmeta None None None tt None None None None None None None in
  let found :=
    Pipeline.Docmeta (Some "A title") (Some "2020-01-01") (Some u) tt None
      None None None None None None in
  let as_text (d : Pipeline.docmeta unit) :=
    match Pipeline.body d with
    | Some b => flat_text b
    | None => ""
    end in
  Pipeline.Services
    (fun _ => Some doc)
    (fun _ _ _ _ _ => StM.ret found)
    nothing
    (fun _ _ => false)
    (fun _ _ _ _ => false)
    (fun _ => "")
    (fun b _ _ => match b with Some e => flat_text e | None => "" end)
    as_text as_text
    (fun output _ _ _ => output)
    (fun posttext _ _ => posttext)
    as_text
    (fun _ c => c).

(** A call without fallback and without comments, with
    [only_with_metadata] and one URL in [url_blacklist]. *)
Definition options_with_metadata : Pipeline.options :=
  Pipeline.Options None None true false false false false None true false
    false false false None true false None ["http://blocked.example/"] [].

End Samples.

(** * Properties *)

(** ** Python helpers *)

Lemma char_in_spec c chars : Py.char_in c chars = true <-> In c chars.
Proof.
unfold Py.char_in. rewrite existsb_exists. split.
- intros [x [Hin Heq]]. apply Ascii.eqb_eq in Heq. now subst.
- intros Hin. exists c. split; [assumption | apply Ascii.eqb_refl].
Qed.

Lemma last_char_cons c s :
s <> EmptyString -> Py.last_char (String c s) = Py.last_char s.
Proof. destruct s; [congruence | reflexivity]. Qed.

Lemma last_char_none s : Py.last_char s = None <-> s = EmptyString.
Proof.
induction s as [|c s IH]; simpl.
- tauto.
- destruct s; [split; discriminate|].
  split; [|discriminate]. intros H. apply IH in H. discriminate.
Qed.

(** ** Whitespace predicates *)

Section SpacingProperties.
Import Spacing.

Lemma prior_none : should_have_space_prior None = true.
Proof. reflexivity. Qed.

Lemma next_none : should_have_space_next None = true.
Proof. reflexivity. Qed.

Lemma prior_iff (s : string) :
  should_have_space_prior (Some s) = true <->
  (s = "" \/
   exists c, Py.first_char s = Some c /\ c <> " "%char /\
             ~ In c no_space_before).
Proof.
  destruct s as [|c rest].
  - simpl. split; auto.
  - unfold should_have_space_prior. cbn [Py.truthy negb Py.first_char].
    destruct (Ascii.eqb c " ") eqn:Hsp.
    + apply Ascii.eqb_eq in Hsp. split; [discriminate|].
      intros [H | [c' [Hc [Hne _]]]]; [discriminate|].
      injection Hc as <-. contradiction.
    + apply Ascii.eqb_neq in Hsp.
      destruct (Py.char_in c no_space_before) eqn:Hin.
      * apply char_in_spec in Hin. split; [discriminate|].
        intros [H | [c' [Hc [_ Hnin]]]]; [discriminate|].
        injection Hc as <-. contradiction.
      * split; [|reflexivity]. intros _. right. exists c.
        repeat split; auto.
        intros Hc. apply char_in_spec in Hc. congruence.
Qed.

Lemma next_iff (s : string) :
  should_have_space_next (Some s) = true <->
  (s = "" \/
   exists c, Py.last_char s = Some c /\ c <> " "%char /\
             ~ In c no_space_after).
Proof.
  destruct s as [|c0 rest].
  - simpl. split; auto.
  - unfold should_have_space_next. cbn [Py.truthy negb].
    destruct (Py.last_char (String c0 rest)) as [c|] eqn:Hl.
    2:{ apply last_char_none in Hl. discriminate. }
    destruct (Ascii.eqb c " ") eqn:Hsp.
    + apply Ascii.eqb_eq in Hsp. split; [discriminate|].
      intros [H | [c' [Hc [Hne _]]]]; [discriminate|].
      injection Hc as <-. contradiction.
    + apply Ascii.eqb_neq in Hsp.
      destruct (Py.char_in c no_space_after) eqn:Hin.
      * apply char_in_spec in Hin. split; [discriminate|].
        intros [H | [c' [Hc [_ Hnin]]]]; [discriminate|].
        injection Hc as <-. contradiction.
      * split; [|reflexivity]. intros _. right. exists c.
        repeat split; auto.
        intros Hc. apply char_in_spec in Hc. congruence.
Qed.

(** C2.  For every string [s], [should_have_space_prior s] is [True]
    exactly when [s] is empty or its first character is neither a
    space nor one of [. ? ! , : ; )], and [should_have_space_next s]
    is [True] exactly when [s] is empty or its last character is
    neither a space nor one of [[ (]. *)
Theorem should_have_space_spec (s : string) :
  (should_have_space_prior (Some s) = true <->
     (s = "" \/
      exists c, Py.first_char s = Some c /\ c <> " "%char /\
                ~ In c ["."; "?"; "!"; ","; ":"; ";"; ")"]%char))
  /\
  (should_have_space_next (Some s) = true <->
     (s = "" \/
      exists c, Py.last_char s = Some c /\ c <> " "%char /\
                ~ In c ["["; "("]%char)).
Proof. split; [apply prior_iff | apply next_iff]. Qed.

End SpacingProperties.

(** ** Attribute maps *)

Lemma lookup_assign_same key value attrs :
  Dom.lookup key (Dom.assign key value attrs) = Some value.
Proof.
  induction attrs as [|[k v] rest IH]; simpl.
  - now rewrite String.eqb_refl.
  - destruct (String.eqb k key) eqn:E; simpl; now rewrite E.
Qed.

Lemma lookup_assign_other key key' value attrs :
  key' <> key ->
  Dom.lookup key' (Dom.assign key value attrs) = Dom.lookup key' attrs.
Proof.
  intros Hne. induction attrs as [|[k v] rest IH]; simpl.
  - destruct (String.eqb key key') eqn:E; [|reflexivity].
    apply String.eqb_eq in E. congruence.
  - destruct (String.eqb k key) eqn:E; simpl.
    + apply String.eqb_eq in E. subst k.
      destruct (String.eqb key key') eqn:E'; [|reflexivity].
      apply String.eqb_eq in E'. congruence.
    + now rewrite IH.
Qed.

Lemma assign_not_nil key value attrs : Dom.assign key value attrs <> [].
Proof.
  destruct attrs as [|[k v] rest]; simpl; [discriminate|].
  destruct (String.eqb k key); discriminate.
Qed.

(** ** Images *)

Section ImageProperties.
Import Dom Image.
Variable is_image_file : string -> bool.

Lemma startswith_slashes a b rest :
  Py.startswith "//" (String a (String b rest)) =
  Ascii.eqb a "/" && Ascii.eqb b "/".
Proof.
  change (Py.startswith "//" (String a (String b rest)))
    with (Ascii.eqb "/" a && (Ascii.eqb "/" b && true)).
  now rewrite andb_true_r, (Ascii.eqb_sym "/" a), (Ascii.eqb_sym "/" b).
Qed.

Lemma sub_leading_slashes_not_relative url :
  Py.startswith "//" (Py.sub_leading_slashes url) = false.
Proof.
  destruct url as [|a [|b rest]].
  - reflexivity.
  - cbn -[Ascii.eqb]. apply andb_false_r.
  - unfold Py.sub_leading_slashes.
    destruct (Ascii.eqb a "/" && Ascii.eqb b "/") eqn:E.
    + reflexivity.
    + now rewrite startswith_slashes.
Qed.

Lemma sub_leading_slashes_nonempty url :
  url <> "" -> Py.sub_leading_slashes url <> "".
Proof.
  intros Hne. destruct url as [|a [|b rest]]; try congruence.
  - discriminate.
  - unfold Py.sub_leading_slashes.
    destruct (Ascii.eqb a "/" && Ascii.eqb b "/"); discriminate.
Qed.

Lemma first_data_src_spec elem attrs url :
  first_data_src is_image_file elem attrs = Some url ->
  exists before attr value after,
    attrs = (before ++ (attr, value) :: after)%list /\
    Py.startswith "data-src" attr = true /\
    get elem attr = Some url /\
    is_image_file url = true /\
    forall attr' value', In (attr', value') before ->
      Py.startswith "data-src" attr'
      && is_image_file_opt is_image_file (get elem attr') = false.
Proof.
  induction attrs as [|[attr value] rest IH]; cbn [first_data_src];
    [discriminate|].
  destruct (Py.startswith "data-src" attr
            && is_image_file_opt is_image_file (get elem attr)) eqn:E.
  - intros Hget. exists [], attr, value, rest.
    apply andb_prop in E as [Hs Hi]. rewrite Hget in Hi.
    repeat split; auto. intros ? ? [].
  - intros Hrec. destruct (IH Hrec) as (before & a & v & after & -> & H).
    exists ((attr, value) :: before), a, v, after.
    destruct H as (Hs & Hg & Hi & Hbefore). repeat split; auto.
    intros attr' value' [Heq | Hin].
    + now injection Heq as <- <-.
    + eauto.
Qed.

(** The element after the choice of the source: either no attribute
    at all, or the single attribute [src] holding the chosen value. *)
Lemma src_choice elem :
  let chosen :=
    if is_image_file_opt is_image_file (get elem "data-src") then
      match get elem "data-src" with
      | Some v => set (new_element (tag elem)) "src" v
      | None => new_element (tag elem)
      end
    else if is_image_file_opt is_image_file (get elem "src") then
      match get elem "src" with
      | Some v => set (new_element (tag elem)) "src" v
      | None => new_element (tag elem)
      end
    else
      match first_data_src is_image_file elem (attrib elem) with
      | Some v => set (new_element (tag elem)) "src" v
      | None => new_element (tag elem)
      end in
  tag chosen = tag elem /\
  (get chosen "src" = None \/
   exists url, get chosen "src" = Some url /\
               src_by_priority is_image_file elem url).
Proof.
  unfold src_by_priority.
  destruct (is_image_file_opt is_image_file (get elem "data-src")) eqn:E1.
  { destruct (get elem "data-src") as [v|] eqn:Eg; [|discriminate].
    cbn. split; [reflexivity|]. right. exists v.
    split; [reflexivity|]. left. split; reflexivity. }
  destruct (is_image_file_opt is_image_file (get elem "src")) eqn:E2.
  { destruct (get elem "src") as [v|] eqn:Eg; [|discriminate].
    cbn. split; [reflexivity|]. right. exists v.
    split; [reflexivity|]. right. left.
    repeat split; reflexivity. }
  destruct (first_data_src is_image_file elem (attrib elem)) as [v|] eqn:E3.
  - cbn. split; [reflexivity|]. right. exists v. split; [reflexivity|].
    right. right. repeat split; auto.
    now apply first_data_src_spec.
  - cbn. split; [reflexivity|]. now left.
Qed.

Lemma copy_attr_tag elem key p : tag (copy_attr elem key p) = tag p.
Proof. unfold copy_attr. now destruct (get elem key). Qed.

Lemma copy_attr_same elem key p v :
  get elem key = Some v -> get (copy_attr elem key p) key = Some v.
Proof.
  unfold copy_attr. intros ->. apply lookup_assign_same.
Qed.

Lemma copy_attr_other elem key key' p :
  key' <> key -> get (copy_attr elem key p) key' = get p key'.
Proof.
  unfold copy_attr. intros Hne. destruct (get elem key); [|reflexivity].
  now apply lookup_assign_other.
Qed.

(** C7.  For every [graphic] element given to [handle_image], the result
    is [None] or a [graphic] element whose [src] is not empty; the value
    comes from [data-src] first, then [src], then the first attribute
    named [data-src...] with an image file value; [alt], [class] and
    [title] are copied when present; a leading [//] is replaced by
    [http://], so the returned [src] never starts with [//]. *)
Theorem handle_image_spec (elem : element) :
  tag elem = "graphic" ->
  handle_image is_image_file elem = None \/
  exists result url,
    handle_image is_image_file elem = Some result /\
    tag result = "graphic" /\
    src_by_priority is_image_file elem url /\
    get result "src" = Some (Py.sub_leading_slashes url) /\
    Py.sub_leading_slashes url <> "" /\
    Py.startswith "//" (Py.sub_leading_slashes url) = false /\
    (forall key value,
        In key ["alt"; "class"; "title"] ->
        get elem key = Some value -> get result key = Some value).
Proof.
  intros Htag. unfold handle_image.
  pose proof (src_choice elem) as Hchoice. cbv zeta in Hchoice.
  set (chosen := if is_image_file_opt is_image_file (get elem "data-src")
                 then _ else _) in *.
  destruct Hchoice as [Hctag Hsrc].
  set (final := copy_attr elem "title"
                  (copy_attr elem "class" (copy_attr elem "alt" chosen))).
  assert (Hfsrc : get final "src" = get chosen "src").
  { unfold final. now rewrite !copy_attr_other by discriminate. }
  destruct (Nat.eqb (List.length (attrib final)) 0
            || negb (Py.truthy (get final "src"))) eqn:Hreject;
    [now left|].
  apply orb_false_elim in Hreject as [_ Htruthy].
  apply negb_false_iff in Htruthy.
  rewrite Hfsrc in *.
  destruct Hsrc as [Hnone | [url [Hurl Hprio]]].
  { rewrite Hnone in Htruthy. discriminate. }
  rewrite Hurl in *. right.
  exists (set final "src" (Py.sub_leading_slashes url)), url.
  assert (Hne : url <> "") by (intros ->; discriminate).
  split; [reflexivity|]. split.
  { cbn. unfold final. now rewrite !copy_attr_tag, Hctag. }
  split; [assumption|]. split; [apply lookup_assign_same|].
  split; [now apply sub_leading_slashes_nonempty|].
  split; [apply sub_leading_slashes_not_relative|].
  intros key value Hin Hget. unfold get, set. cbn [attrib].
  rewrite lookup_assign_other
    by (destruct Hin as [<-|[<-|[<-|[]]]]; discriminate).
  fold (get final key). unfold final.
  destruct Hin as [<-|[<-|[<-|[]]]].
  - rewrite !copy_attr_other by discriminate. now apply copy_attr_same.
  - rewrite copy_attr_other by discriminate. now apply copy_attr_same.
  - now apply copy_attr_same.
Qed.

End ImageProperties.

Example handle_image_relative :
  Image.handle_image Samples.image_suffix Samples.relative_graphic =
  Some (Dom.Element "graphic" None None
          [("src", "http://cdn/img.jpg"); ("alt", "logo")] []).
Proof. vm_compute. reflexivity. Qed.

Lemma handle_image_spec_witness :
  Dom.tag Samples.relative_graphic = "graphic" /\
  (Image.handle_image Samples.image_suffix Samples.relative_graphic = None \/
   exists result url,
     Image.handle_image Samples.image_suffix Samples.relative_graphic =
       Some result /\
     Dom.tag result = "graphic" /\
     Image.src_by_priority Samples.image_suffix Samples.relative_graphic url /\
     Dom.get result "src" = Some (Py.sub_leading_slashes url) /\
     Py.sub_leading_slashes url <> "" /\
     Py.startswith "//" (Py.sub_leading_slashes url) = false /\
     (forall key value,
         In key ["alt"; "class"; "title"] ->
         Dom.get Samples.relative_graphic key = Some value ->
         Dom.get result key = Some value)).
Proof.
  split; [reflexivity|].
  apply (handle_image_spec Samples.image_suffix Samples.relative_graphic).
  reflexivity.
Defined.


(** ** Baseline extraction *)

Section BaselineProperties.
Import Dom Baseline.
Variable load_html : string -> option element.
Variable trim : string -> string.

Lemma scrape_json_shape scripts body text len :
  scrape_json trim scripts = Some (body, text, len) ->
  exists t, text = Py.Str t /\ len = Py.Int (Z.of_nat (String.length t)).
Proof.
  induction scripts as [|elem rest IH]; cbn [scrape_json]; [discriminate|].
  match goal with |- context [match ?f with Some _ => _ | None => _ end] =>
    destruct f as [group|] end; [|exact IH].
  cbn. intros H. injection H as _ <- <-. eauto.
Qed.

(** C10.  When the loader fails on the input, [baseline] returns an
    empty [body], then the integer 0, then the empty string; on every
    other path it returns the body, then the text as a string, then the
    length of that text as an integer: the two last places are swapped
    on the failure path. *)
Theorem baseline_unparsed_swapped (filecontent : string) :
  match load_html filecontent with
  | None =>
      baseline load_html trim filecontent =
      (Element "body" None None [] [], Py.Int 0%Z, Py.Str "")
  | Some _ =>
      exists body text,
        baseline load_html trim filecontent =
        (body, Py.Str text, Py.Int (Z.of_nat (String.length text)))
  end.
Proof.
  unfold baseline. destruct (load_html filecontent) as [tree|];
    [|reflexivity].
  destruct (scrape_json trim (jsonld_scripts tree))
    as [[[body text] len]|] eqn:Hjson.
  { destruct (scrape_json_shape _ Hjson) as [t [-> ->]]. eauto. }
  destruct (find_article tree) as [article_elem|].
  - destruct (Nat.ltb 0 (String.length (trim (text_content article_elem))));
      eauto.
  - eauto.
Qed.

End BaselineProperties.

Example baseline_jsonld_followed :
  Baseline.baseline
    (fun _ => Some (Samples.script_only (Samples.jsonld_followed "X")))
    Samples.trim "" =
  (Dom.Element "body" None None []
     [Dom.Element "p" (Some "X") None [] []],
   Py.Str "X", Py.Int 1%Z).
Proof. vm_compute. reflexivity. Qed.

(** C6.  On the document that holds only a JSON-LD script with the
    single key [articleBody] and the value [X], the expression of the
    scrape finds no match (it wants a comma and a quote after the closing
    quote of the value), no other text exists, and [baseline] returns an
    empty [body] with the empty text, not a [body] with one [p]
    holding [X]. *)
Theorem baseline_jsonld_only :
  Baseline.baseline
    (fun _ => Some (Samples.script_only (Samples.jsonld_single "X")))
    Samples.trim "" =
  (Dom.Element "body" None None [] [], Py.Str "", Py.Int 0%Z).
Proof. vm_compute. reflexivity. Qed.

(** ** Computations that only append to the record *)

Lemma appends_ret {A} (a : A) : Eff.appends (Eff.ret a).
Proof. intros tr. exists []. cbn. now rewrite app_nil_r. Qed.

Lemma appends_raise {A} e : Eff.appends (@Eff.raise A e).
Proof. intros tr. exists []. cbn. now rewrite app_nil_r. Qed.

Lemma appends_emit ev : Eff.appends (Eff.emit ev).
Proof. intros tr. now exists [ev]. Qed.

Lemma appends_bind {A B} (m : Eff.P A) (k : A -> Eff.P B) :
  Eff.appends m -> (forall a, Eff.appends (k a)) -> Eff.appends (Eff.bind m k).
Proof.
  intros Hm Hk tr. unfold Eff.bind. destruct (Hm tr) as [s1 H1].
  destruct (m tr) as [[a|e] tr'] eqn:E; cbn in H1; subst tr'.
  - destruct (Hk a (tr ++ s1)%list) as [s2 H2]. exists (s1 ++ s2)%list.
    now rewrite H2, app_assoc.
  - now exists s1.
Qed.

Lemma appends_call {A} f (v : A) : Eff.appends (Eff.call f v).
Proof.
  unfold Eff.call. apply appends_bind; [apply appends_emit|].
  intros _. apply appends_ret.
Qed.

Ltac appends_step :=
  match goal with
  | |- Eff.appends (Eff.bind _ _) => apply appends_bind
  | |- Eff.appends (Eff.ret _) => apply appends_ret
  | |- Eff.appends (Eff.raise _) => apply appends_raise
  | |- Eff.appends (Eff.emit _) => apply appends_emit
  | |- Eff.appends (Eff.call _ _) => apply appends_call
  | |- Eff.appends (if ?b then _ else _) => destruct b
  | |- Eff.appends (match ?x with _ => _ end) => destruct x
  | |- forall _, _ => intro
  end.

(** ** The arbiter *)

Section ArbiterProperties.
Import Dom Arbiter.
Local Open Scope Z_scope.

Variable try_readability : element -> option string -> element.
Variable justext_rescue :
  element -> option string -> option string -> element -> Z -> string ->
  element * string * Z * bool.
Variable sanitize_tree :
  element -> bool -> bool -> bool -> bool -> element * string * Z.
Variable matches_sanitized_xpath : element -> bool.
Variable trim : string -> string.

Variables (tree backup_tree : element) (url : option string)
  (body : element) (text : string) (len_text : Z)
  (target_language : option string)
  (favor_precision favor_recall include_formatting include_links
   include_images include_tables : bool) (config : config).




Lemma compare_extraction_selected :
  let readability := try_readability backup_tree url in
  let algo_text := trim (Py.join " " (itertext readability)) in
  let L2 := Z.of_nat (String.length algo_text) in
  let flag := algo_flag body len_text L2 config in
  favor_recall && (MIN_EXTRACTED_SIZE config * 10 <? len_text) = false ->
  Eff.run (compare_extraction try_readability justext_rescue sanitize_tree
             matches_sanitized_xpath trim tree backup_tree url body text
             len_text target_language favor_precision favor_recall
             include_formatting include_links include_images include_tables
             config)
  = (let '(b, t, l) :=
       if flag then (readability, algo_text, L2)
       else (body, text, len_text) in
     after_selection justext_rescue sanitize_tree matches_sanitized_xpath
       tree url target_language flag b t l favor_recall include_formatting
       include_links include_images include_tables config
       [Eff.Call "try_readability";
        Eff.Log (if flag then "using generic algorithm"
                 else "using custom extraction")]).
Proof.
  intros readability algo_text L2 flag Hbypass.
  unfold compare_extraction, Eff.run. rewrite Hbypass.
  fold readability. fold algo_text. fold L2. fold flag.
  unfold Eff.bind at 1. cbn [Eff.call Eff.bind Eff.emit Eff.ret app].
  fold readability. fold algo_text. fold L2. fold flag.
  destruct flag; reflexivity.
Qed.


End ArbiterProperties.

Example compare_extraction_recall_bypass :
  Eff.run (Arbiter.compare_extraction
             (Samples.readability_answers Samples.long_body)
             Samples.justext_finds_nothing Samples.sanitize_keeps
             Samples.never_sanitized Samples.trim
             Samples.short_body Samples.short_body None
             Samples.short_body "elevenchars" 11 None
             false true false false false false (Samples.config_all 1)) =
  (Eff.Ok (Samples.short_body, "elevenchars", 11%Z), []).
Proof. vm_compute. reflexivity. Qed.

Example compare_extraction_default_adopts :
  Eff.run (Arbiter.compare_extraction
             (Samples.readability_answers Samples.long_body)
             Samples.justext_finds_nothing Samples.sanitize_keeps
             Samples.never_sanitized Samples.trim
             Samples.short_body Samples.short_body None
             Samples.short_body "elevenchars" 11 None
             false false false false false false (Samples.config_all 1)) =
  (Eff.Ok (Samples.long_body, "twenty five characters ..", 25%Z),
   [Eff.Call "try_readability"; Eff.Log "using generic algorithm";
    Eff.Call "sanitize_tree"]).
Proof. vm_compute. reflexivity. Qed.




(** ** Deletion by link density *)

Section DensityProperties.
Import Lx Density.

Lemma lookup_add_to_group text t elem myelems :
  lookup_group text (add_to_group t elem myelems) =
  if String.eqb t text then (lookup_group text myelems ++ [elem])%list
  else lookup_group text myelems.
Proof.
  induction myelems as [|[t' l] rest IH]; cbn [add_to_group lookup_group].
  - destruct (String.eqb t text); reflexivity.
  - destruct (String.eqb_spec t' t) as [->|Hne]; cbn [lookup_group].
    + destruct (String.eqb t text); reflexivity.
    + destruct (String.eqb_spec t' text) as [->|Hne'].
      * destruct (String.eqb_spec t text) as [->|]; [congruence|reflexivity].
      * exact IH.
Qed.

Lemma keys_add_to_group t elem myelems :
  forall k, In k (map fst (add_to_group t elem myelems)) <->
            k = t \/ In k (map fst myelems).
Proof.
  induction myelems as [|[t' l] rest IH]; intros k; cbn [add_to_group].
  - cbn. intuition.
  - destruct (String.eqb_spec t' t) as [->|Hne]; cbn [map fst In].
    + intuition.
    + rewrite IH. intuition.
Qed.

Lemma nodup_add_to_group t elem myelems :
  NoDup (map fst myelems) -> NoDup (map fst (add_to_group t elem myelems)).
Proof.
  induction myelems as [|[t' l] rest IH]; cbn [add_to_group]; intros Hnd.
  - cbn. constructor; [intros []|constructor].
  - destruct (String.eqb_spec t' t) as [->|Hne]; cbn [map fst] in *.
    + exact Hnd.
    + inversion Hnd as [|? ? Hnin Hnd']; subst. constructor; [|auto].
      rewrite keys_add_to_group. intros [->|Hin]; [congruence|auto].
Qed.

Lemma first_loop seen : forall myelems deletions,
  NoDup (map fst myelems) ->
  NoDup (map fst (fst (fold_left record_elem seen (myelems, deletions)))) /\
  snd (fold_left record_elem seen (myelems, deletions)) =
    (deletions ++ flagged seen)%list /\
  forall text,
    lookup_group text (fst (fold_left record_elem seen (myelems, deletions))) =
    (lookup_group text myelems ++ group_of text seen)%list.
Proof.
  induction seen as [|[elem v] rest IH]; intros myelems deletions Hnd.
  - cbn. repeat split; [assumption| |]; intros; now rewrite app_nil_r.
  - change (fold_left record_elem ((elem, v) :: rest) (myelems, deletions))
      with (fold_left record_elem rest
              (record_elem (myelems, deletions) (elem, v))).
    destruct v as [|t|]; cbn [record_elem].
    + destruct (IH myelems (deletions ++ [elem])%list Hnd) as (A & B & C).
      split; [exact A|]. split; [|exact C].
      etransitivity; [exact B|]. cbn. now rewrite <- app_assoc.
    + destruct (IH (add_to_group t elem myelems) deletions
                  (@nodup_add_to_group t elem myelems Hnd)) as (A & B & C).
      split; [exact A|]. split; [exact B|].
      intros text. etransitivity; [apply C|]. rewrite lookup_add_to_group.
      unfold group_of. cbn [flat_map snd fst].
      destruct (String.eqb t text); [now rewrite <- app_assoc | reflexivity].
    + exact (IH myelems deletions Hnd).
Qed.

Lemma lookup_group_in text elems myelems :
  NoDup (map fst myelems) -> In (text, elems) myelems ->
  lookup_group text myelems = elems.
Proof.
  induction myelems as [|[t l] rest IH]; intros Hnd Hin; [destruct Hin|].
  cbn [lookup_group]. inversion Hnd as [|? ? Hnin Hnd']; subst.
  destruct Hin as [Heq|Hin].
  - injection Heq as -> ->. now rewrite String.eqb_refl.
  - destruct (String.eqb_spec t text) as [->|Hne]; [|auto].
    exfalso. apply Hnin. apply in_map_iff. now exists (text, elems).
Qed.

Lemma lookup_group_entry text x myelems :
  In x (lookup_group text myelems) ->
  In (text, lookup_group text myelems) myelems.
Proof.
  induction myelems as [|[t l] rest IH]; cbn [lookup_group]; [intros []|].
  destruct (String.eqb_spec t text) as [->|Hne]; intros Hin.
  - now left.
  - right. auto.
Qed.

Lemma summing_up_in myelems : forall deletions x,
  In x (summing_up myelems deletions) <->
  In x deletions \/
  exists group, In group myelems /\ selected group = true /\ In x (snd group).
Proof.
  unfold summing_up.
  induction myelems as [|[text elems] rest IH]; intros deletions x;
    cbn [fold_left].
  - split; [now left|]. intros [H|[g [[] _]]]. exact H.
  - rewrite IH.
    change (Nat.ltb 0 (String.length text)
            && Nat.ltb (String.length text) 100
            && Nat.leb 3 (List.length elems))
      with (selected (text, elems)).
    destruct (selected (text, elems)) eqn:Hsel.
    + rewrite in_app_iff. split.
      * intros [[H|H]|[g [Hg H]]]; [now left| |].
        -- right. exists (text, elems). repeat split; auto. now left.
        -- right. exists g. split; [now right | exact H].
      * intros [H|[g [[<-|Hg] [Hs Hx]]]]; [now left; left| |].
        -- left. now right.
        -- right. now exists g.
    + split.
      * intros [H|[g [Hg H]]]; [now left|].
        right. exists g. split; [now right | exact H].
      * intros [H|[g [[<-|Hg] [Hs Hx]]]]; [now left|congruence|].
        right. now exists g.
Qed.

Lemma in_flagged elem seen : In elem (flagged seen) <-> In (elem, Flagged) seen.
Proof.
  unfold flagged. rewrite in_flat_map. split.
  - intros [[e v] [Hin Hx]]. destruct v; cbn in Hx; try contradiction.
    destruct Hx as [<-|[]]. exact Hin.
  - intros Hin. exists (elem, Flagged). split; [exact Hin | now left].
Qed.

Lemma in_group_of elem text seen :
  In elem (group_of text seen) <-> In (elem, Candidate text) seen.
Proof.
  unfold group_of. rewrite in_flat_map. split.
  - intros [[e v] [Hin Hx]]. destruct v as [|t|]; cbn in Hx;
      try contradiction.
    destruct (String.eqb_spec t text) as [->|]; [|contradiction].
    destruct Hx as [<-|[]]. exact Hin.
  - intros Hin. exists (elem, Candidate text). split; [exact Hin|].
    cbn. rewrite String.eqb_refl. now left.
Qed.

Lemma uniquify_from_spec l : forall seen,
  NoDup (uniquify_from seen l) /\
  forall x, In x (uniquify_from seen l) <->
            In x l /\ ~ In x seen.
Proof.
  induction l as [|a rest IH]; intros seen; cbn [uniquify_from].
  - split; [constructor|]. intros x. cbn. tauto.
  - destruct (existsb (Nat.eqb a) seen) eqn:Hseen.
    + apply existsb_exists in Hseen as [y [Hy Heq]].
      apply Nat.eqb_eq in Heq. subst y.
      destruct (IH seen) as [Hnd Hin]. split; [exact Hnd|].
      intros x. rewrite Hin. cbn. split; [tauto|].
      intros [[->|H] Hn]; tauto.
    + assert (Hnot : ~ In a seen).
      { intros Hin. assert (existsb (Nat.eqb a) seen = true); [|congruence].
        apply existsb_exists. exists a. split; [exact Hin|apply Nat.eqb_refl]. }
      destruct (IH (a :: seen)) as [Hnd Hin]. split.
      * constructor; [|exact Hnd]. rewrite Hin. cbn. tauto.
      * intros x. cbn [In]. rewrite Hin. cbn [In]. split.
        -- intros [<-|[H Hn]]; [tauto|]. split; [tauto|]. tauto.
        -- intros [Hx Hn]. destruct (Nat.eq_dec a x) as [->|Hne];
             [now left|]. right.
           split; [destruct Hx; [congruence|assumption]|].
           intros [Heq|H']; [congruence|tauto].
Qed.

(** With backtracking, for what the first loop saw of the elements of
    the target tag: an element is in the list of deletions exactly when
    its test was positive, or when its test was negative with a
    non-empty list and the group of the elements with its trimmed text
    content has at least 3 elements and a text of a length strictly
    between 0 and 100; and the list that the last loop removes is this
    list without repetitions. *)
Lemma deletions_of_backtracking
  (seen : list (ref * verdict)) :
  (forall elem,
      In elem (deletions_of true seen) <->
      In (elem, Flagged) seen \/
      exists text,
        In (elem, Candidate text) seen /\
        3 <= List.length (group_of text seen) /\
        0 < String.length text < 100) /\
  NoDup (uniquify_list (deletions_of true seen)) /\
  (forall elem,
      In elem (uniquify_list (deletions_of true seen)) <->
      In elem (deletions_of true seen)).
Proof.
  split.
  - intros elem. unfold deletions_of.
    pose proof (@first_loop seen [] [] (NoDup_nil _)) as H.
    destruct (fold_left record_elem seen ([], [])) as [myelems deletions].
    cbn [fst snd] in H. destruct H as (Hnd & Hdel & Hgroups).
    rewrite summing_up_in. subst deletions. cbn [app].
    rewrite in_flagged. split.
    + intros [H|[[text elems] [Hin [Hsel Hx]]]]; [now left|]. right.
      cbn [snd] in Hx. exists text.
      pose proof (@lookup_group_in text elems myelems Hnd Hin) as Hl.
      rewrite Hgroups in Hl. cbn [lookup_group app] in Hl.
      rewrite <- in_group_of, Hl. split; [exact Hx|].
      unfold selected in Hsel. cbn [fst snd] in Hsel.
      apply andb_prop in Hsel as [Hsel H3].
      apply andb_prop in Hsel as [H0 H100].
      apply Nat.leb_le in H3. apply Nat.ltb_lt in H0, H100. lia.
    + intros [H|[text (Hin & H3 & H0 & H100)]]; [now left|]. right.
      apply in_group_of in Hin.
      exists (text, group_of text seen).
      specialize (Hgroups text). cbn [lookup_group app] in Hgroups.
      split.
      { rewrite <- Hgroups. apply lookup_group_entry with (x := elem).
        now rewrite Hgroups. }
      split; [|exact Hin].
      unfold selected. cbn [fst snd].
      apply andb_true_intro. split; [apply andb_true_intro; split|].
      * now apply Nat.ltb_lt.
      * now apply Nat.ltb_lt.
      * now apply Nat.leb_le.
  - unfold uniquify_list.
    destruct (uniquify_from_spec (deletions_of true seen) []) as [Hnd Hin].
    split; [exact Hnd|]. intros elem. rewrite Hin. cbn. tauto.
Qed.

End DensityProperties.

Example deletions_of_groups :
  Density.deletions_of true Samples.seen_more = [2; 1; 3; 5]%nat /\
  Density.deletions_of false Samples.seen_more = [2]%nat.
Proof. split; vm_compute; reflexivity. Qed.

(** ** The element store *)

Section StoreProperties.
Import Lx.

(** Induction on an element with the hypothesis for every child. *)
Lemma node_induction (P : node -> Prop) :
  (forall i t x y a ks, Forall P ks -> P (Node i t x y a ks)) ->
  forall n, P n.
Proof.
  intros Hstep. fix self 1. intros [i t x y a ks]. apply Hstep.
  induction ks as [|k rest IH]; constructor; [apply self | exact IH].
Qed.

Lemma find_app {A} (p : A -> bool) (l1 l2 : list A) :
  find p (l1 ++ l2)%list =
  match find p l1 with
  | Some x => Some x
  | None => find p l2
  end.
Proof.
  induction l1 as [|a l1 IH]; cbn; [reflexivity|].
  destruct (p a); [reflexivity | exact IH].
Qed.

Lemma find_subnodes_self (r : ref) (n : node) :
  has_id r n = true -> find (has_id r) (subnodes n) = Some n.
Proof. intros H. destruct n. cbn [subnodes find]. now rewrite H. Qed.

Lemma find_map_node (f : node -> node) (r : ref) :
  (forall n, id (f n) = id n) ->
  forall n,
    find (has_id r) (subnodes (map_node f r n)) =
    option_map f (find (has_id r) (subnodes n)).
Proof.
  intros Hid. induction n as [i t x y a ks IH] using node_induction.
  cbn [map_node]. destruct (has_id r (Node i t x y a ks)) eqn:Hr.
  - rewrite (find_subnodes_self _ _ Hr). cbn [option_map].
    apply find_subnodes_self. unfold has_id in *. now rewrite Hid.
  - cbn [subnodes find kids id ntag ntext ntail nattrib].
    change (has_id r (Node i t x y a (map (map_node f r) ks)))
      with (has_id r (Node i t x y a ks)).
    rewrite Hr. clear Hr.
    induction IH as [|k rest Hk _ IHrest]; [reflexivity|].
    cbn [map flat_map]. rewrite !find_app, Hk.
    destruct (find (has_id r) (subnodes k)); [reflexivity | exact IHrest].
Qed.

Lemma node_of_update (f : node -> node) (r : ref) (st : store) :
  (forall n, id (f n) = id n) ->
  node_of (update f r st) r = option_map f (node_of st r).
Proof.
  intros Hid. unfold node_of, all_nodes, update. cbn [roots].
  induction (roots st) as [|root rest IH]; [reflexivity|].
  cbn [map flat_map]. rewrite !find_app, (find_map_node f r Hid).
  destruct (find (has_id r) (subnodes root)); [reflexivity | exact IH].
Qed.

Lemma all_tags_node R i t x y a ks :
  all_tags R (Node i t x y a ks) <-> R t /\ Forall (all_tags R) ks.
Proof.
  unfold all_tags. cbn [subnodes kids]. split.
  - intros H. inversion H as [|? ? Ht Hrest]; subst. split; [exact Ht|].
    clear Ht H. induction ks as [|k rest IH]; constructor.
    + cbn [flat_map] in Hrest. apply Forall_app in Hrest. tauto.
    + apply IH. cbn [flat_map] in Hrest. apply Forall_app in Hrest. tauto.
  - intros [Ht Hks]. constructor; [exact Ht|].
    induction Hks as [|k rest Hk _ IH]; [constructor|].
    cbn [flat_map]. apply Forall_app. split; assumption.
Qed.

Lemma descendants_all_tags R (n : node) :
  Forall (all_tags R) (kids n) <->
  forall d, In d (flat_map subnodes (kids n)) -> R (ntag d).
Proof.
  split.
  - intros H d Hin. apply in_flat_map in Hin as [k [Hk Hd]].
    rewrite Forall_forall in H. specialize (H k Hk).
    unfold all_tags in H. rewrite Forall_forall in H. auto.
  - intros H. apply Forall_forall. intros k Hk.
    unfold all_tags. apply Forall_forall. intros d Hd. apply H.
    apply in_flat_map. eauto.
Qed.


Lemma strip_tags_node_tag tags n : ntag (strip_tags_node tags n) = ntag n.
Proof.
  destruct n as [i t x y a ks]. cbn [strip_tags_node kids ntext].
  now destruct (fold_left _ ks (x, [])).
Qed.

Lemma strip_tags_node_id tags n : id (strip_tags_node tags n) = id n.
Proof.
  destruct n as [i t x y a ks]. cbn [strip_tags_node kids ntext].
  now destruct (fold_left _ ks (x, [])).
Qed.

Lemma strip_tags_node_kids tags n :
  kids (strip_tags_node tags n) =
  snd (fold_left (fun state k => strip_step tags state (strip_tags_node tags k))
                 (kids n) (ntext n, [])).
Proof.
  destruct n as [i t x y a ks]. cbn [strip_tags_node kids ntext].
  now destruct (fold_left _ ks (x, [])).
Qed.


Lemma all_tags_with_tail R x n : all_tags R n -> all_tags R (with_tail x n).
Proof.
  destruct n as [i t x' y a ks]. unfold with_tail. cbn.
  rewrite !all_tags_node. tauto.
Qed.

Lemma push_text_all_tags R x state :
  Forall (all_tags R) (snd state) ->
  Forall (all_tags R) (snd (push_text x state)).
Proof.
  destruct state as [parent_text acc]. cbn [snd]. intros H.
  unfold push_text. destruct (rev acc) as [|last before] eqn:Hrev;
    [exact H|]. cbn [snd].
  assert (Hacc : acc = (rev before ++ [last])%list).
  { rewrite <- (rev_involutive acc), Hrev. reflexivity. }
  subst acc. apply Forall_app in H as [Hb Hl]. apply Forall_app.
  split; [exact Hb|]. inversion Hl as [|? ? Hlast _]; subst.
  constructor; [|constructor]. now apply all_tags_with_tail.
Qed.

Lemma strip_tags_clean (tags : list string) (R : string -> Prop) :
  forall n,
    Forall (all_tags R) (kids n) ->
    Forall (all_tags (fun t => R t /\ mem t tags = false))
           (kids (strip_tags_node tags n)).
Proof.
  induction n as [i t x y a ks IH] using node_induction.
  rewrite strip_tags_node_kids. cbn [kids ntext]. intros Hks.
  assert (Hgen : forall state,
    Forall (all_tags (fun t => R t /\ mem t tags = false)) (snd state) ->
    Forall (all_tags (fun t => R t /\ mem t tags = false))
      (snd (fold_left
              (fun state k => strip_step tags state (strip_tags_node tags k))
              ks state))).
  { induction ks as [|k rest IHrest]; intros state Hstate; [exact Hstate|].
    cbn [fold_left]. inversion IH as [|? ? Hk IH']; subst.
    inversion Hks as [|? ? HRk Hks']; subst.
    apply (IHrest IH' Hks'). clear IHrest.
    assert (Hkids : Forall (all_tags (fun t => R t /\ mem t tags = false))
                      (kids (strip_tags_node tags k))).
    { apply Hk. destruct k as [i' t' x' y' a' ks'].
      apply all_tags_node in HRk. cbn [kids]. tauto. }
    unfold strip_step.
    destruct (mem (ntag (strip_tags_node tags k)) tags) eqn:Hm.
    - apply push_text_all_tags. cbn [snd]. apply Forall_app.
      split; [|exact Hkids]. now apply push_text_all_tags.
    - cbn [snd]. apply Forall_app. split; [exact Hstate|].
      constructor; [|constructor].
      remember (strip_tags_node tags k) as k' eqn:Hk'.
      assert (Ht : ntag k' = ntag k) by (subst k'; apply strip_tags_node_tag).
      destruct k' as [i' t' x' y' a' ks']. cbn [kids ntag] in *.
      apply all_tags_node. split; [|exact Hkids]. split; [|exact Hm].
      subst t'. destruct k as [i'' t'' x'' y'' a'' ks''].
      apply all_tags_node in HRk. cbn [ntag]. tauto. }
  apply Hgen. constructor.
Qed.

End StoreProperties.

(** [strip_tags] moves the text, the children and the tail of a stripped
    element to the place where it stood. *)
Example strip_tags_span :
  Pipeline.strip_tags ["span"] Samples.span_paragraph =
  Dom.Element "p" (Some "ab") None []
    [Dom.Element "i" (Some "c") (Some "de") [] []].
Proof. vm_compute. reflexivity. Qed.

(** ** The content extractor *)

Lemma bind_ok {A B} (m : StM.St A) (k : A -> StM.St B) st v st' :
  StM.bind m k st = (Eff.Ok v, st') ->
  exists a st1, m st = (Eff.Ok a, st1) /\ k a st1 = (Eff.Ok v, st').
Proof.
  unfold StM.bind. destruct (m st) as [[a|e] st1]; [|discriminate].
  intros H. now exists a, st1.
Qed.

Section ContentProperties.
Import Lx.

Variable process_node : ref -> bool -> config -> StM.St (option ref).
Variable handle_textnode :
  ref -> bool -> bool -> bool -> config -> StM.St (option ref).
Variable clean_element_text :
  ref -> bool -> bool -> bool -> bool -> config -> StM.St (option string).
Variable text_chars_test : option string -> bool.
Variable trim : string -> string.
Variable is_image_file : string -> bool.
Variable prune_unwanted_nodes : ref -> Rewriter.xpath_list -> StM.St ref.
Variable link_density_test : ref -> StM.St (bool * list string).
Variable link_density_test_tables : ref -> StM.St bool.
Variable xpath : string -> ref -> StM.St (list ref).
Variable BODY_XPATH : list string.
Variable TAG_CATALOG : list string.


End ContentProperties.

(** ** The entry points *)

Section PipelineProperties.
Import Pipeline.
Local Open Scope Z_scope.

Variable M : Type.
Variable H : tree_helpers.
Variable X : fallbacks.
Variable S : services M.

(** C5 (as amended).  Under [no_fallback] the block that follows the
    content extraction calls neither [compare_extraction] nor any of the
    extractors behind it, and it calls [baseline] exactly when
    [sure_thing] is false and the length of the extracted text is below
    [MIN_EXTRACTED_SIZE]; it then yields what [baseline] returns for the
    file content, and otherwise the custom result as it is. *)
Theorem compare_if_necessary_no_fallback (filecontent : string)
  (o : options) (config : config) (tree : Dom.element)
  (backup_tree : option Dom.element) (postbody : Dom.element)
  (temp_text : string) (len_text : Z) (sure_thing : bool) (w : Run.world) :
  no_fallback o = true ->
  exists events,
    snd (snd (compare_if_necessary H X S filecontent o config tree
                backup_tree postbody temp_text len_text sure_thing w))
    = (snd w ++ events)%list /\
    ~ In (Eff.Call "compare_extraction") events /\
    ~ In (Eff.Call "try_readability") events /\
    ~ In (Eff.Call "justext_rescue") events /\
    (In (Eff.Call "baseline") events <->
       sure_thing = false /\ len_text < MIN_EXTRACTED_SIZE config) /\
    (In (Eff.Call "baseline") events ->
     fst (compare_if_necessary H X S filecontent o config tree backup_tree
            postbody temp_text len_text sure_thing w)
     = Eff.Ok (Baseline.baseline (load_html S) (trim H) filecontent)) /\
    (~ In (Eff.Call "baseline") events ->
     fst (compare_if_necessary H X S filecontent o config tree backup_tree
            postbody temp_text len_text sure_thing w)
     = Eff.Ok (postbody, Py.Str temp_text, Py.Int len_text)).
Proof.
  intros Hno. unfold compare_if_necessary. rewrite Hno. cbn [negb].
  destruct sure_thing; cbn [negb andb].
  - exists []. cbn. rewrite app_nil_r.
    split; [reflexivity|]. split; [intros []|]. split; [intros []|].
    split; [intros []|].
    split; [split; [intros [] | intros [Hs _]; discriminate]|].
    split; [intros [] | reflexivity].
  - destruct (Z.ltb_spec len_text (MIN_EXTRACTED_SIZE config)) as [Hlt|Hge].
    + exists [Eff.Call "baseline"; Eff.Log "non-clean extracted length"].
      destruct w as [st tr]. cbn. rewrite <- app_assoc. cbn.
      split; [reflexivity|].
      split; [intros [Heq|[Heq|[]]]; discriminate|].
      split; [intros [Heq|[Heq|[]]]; discriminate|].
      split; [intros [Heq|[Heq|[]]]; discriminate|].
      split; [split; [intros _; now split | intros _; now left]|].
      split; [reflexivity|].
      intros Hn. exfalso. apply Hn. now left.
    + exists []. cbn. rewrite app_nil_r.
      split; [reflexivity|]. split; [intros []|]. split; [intros []|].
      split; [intros []|].
      split; [split; [intros [] | intros [_ Hlt]; lia]|].
      split; [intros [] | reflexivity].
Qed.

End PipelineProperties.

(** The run for [<p>Hi</p>] under [no_fallback]: the content extractor
    recovers the paragraph, which is short, and the baseline runs. *)
Example short_paragraph_extracted :
  let st := snd (Lx.alloc Samples.doc_short_paragraph Lx.empty) in
  let run :=
    Rewriter.extract_content Samples.process_node Samples.handle_textnode
      Samples.clean_element_text Samples.text_chars_test Samples.trim
      Samples.image_suffix (fun r _ => StM.ret r)
      (fun _ => StM.ret (false, [])) (fun _ => StM.ret false)
      Samples.xpath_first ["article"; "main"]
      (Pipeline.TAG_CATALOG Samples.helpers) 50 0 false false true false
      false false (Config 250 1 1 1) None st in
  exists result_body,
    fst run = Eff.Ok (result_body, "Hi", 2%nat, false) /\
    option_map Lx.reify (Lx.node_of (snd run) result_body) =
    Some (Samples.body_of [Samples.p_of "Hi"]).
Proof. exists 3. split; vm_compute; reflexivity. Qed.

Example short_paragraph_run :
  let run :=
    Pipeline.extract Samples.helpers
      (Samples.fallbacks_answering Samples.long_body)
      (Samples.services_for Samples.doc_short_paragraph) 50 ""
      (Pipeline.flags true false false false) Pipeline.txt None
      (Config 250 1 1 1) Run.start in
  fst run = Eff.Ok (Some "Hi") /\
  snd (snd run) =
    [Eff.Call "baseline"; Eff.Log "non-clean extracted length";
     Eff.Log "not enough comments"].
Proof. split; vm_compute; reflexivity. Qed.

(** C5, as it is stated, fails: under [no_fallback], for the body with
    the one paragraph [Hi] that the content extractor returns above
    (not sure, 2 characters, [MIN_EXTRACTED_SIZE] 250), the baseline
    runs although the body is not empty. *)
Lemma baseline_runs_on_body_with_children :
  let postbody := Samples.body_of [Samples.p_of "Hi"] in
  let run :=
    Pipeline.compare_if_necessary Samples.helpers
      (Samples.fallbacks_answering Samples.long_body)
      (Samples.services_for Samples.doc_short_paragraph) ""
      (Pipeline.flags true false false false) (Config 250 1 1 1)
      Samples.doc_short_paragraph None postbody "Hi" 2 false Run.start in
  Pipeline.no_fallback (Pipeline.flags true false false false) = true /\
  In (Eff.Call "baseline") (snd (snd run)) /\
  Dom.len postbody <> 0%nat.
Proof.
  split; [reflexivity|]. split; [vm_compute; now left | discriminate].
Qed.

Lemma compare_if_necessary_no_fallback_witness :
  Pipeline.no_fallback (Pipeline.flags true false false false) = true /\
  exists events,
    snd (snd (Pipeline.compare_if_necessary Samples.helpers
                (Samples.fallbacks_answering Samples.long_body)
                (Samples.services_for Samples.doc_short_paragraph) ""
                (Pipeline.flags true false false false) (Config 250 1 1 1)
                Samples.doc_short_paragraph None
                (Samples.body_of [Samples.p_of "Hi"]) "Hi" 2 false
                Run.start))
    = (snd Run.start ++ events)%list /\
    ~ In (Eff.Call "compare_extraction") events /\
    ~ In (Eff.Call "try_readability") events /\
    ~ In (Eff.Call "justext_rescue") events /\
    (In (Eff.Call "baseline") events <->
       false = false /\ (2 < MIN_EXTRACTED_SIZE (Config 250 1 1 1))%Z) /\
    (In (Eff.Call "baseline") events ->
     fst (Pipeline.compare_if_necessary Samples.helpers
            (Samples.fallbacks_answering Samples.long_body)
            (Samples.services_for Samples.doc_short_paragraph) ""
            (Pipeline.flags true false false false) (Config 250 1 1 1)
            Samples.doc_short_paragraph None
            (Samples.body_of [Samples.p_of "Hi"]) "Hi" 2 false Run.start)
     = Eff.Ok (Baseline.baseline
                 (Pipeline.load_html
                    (Samples.services_for Samples.doc_short_paragraph))
                 (Pipeline.trim Samples.helpers) "")) /\
    (~ In (Eff.Call "baseline") events ->
     fst (Pipeline.compare_if_necessary Samples.helpers
            (Samples.fallbacks_answering Samples.long_body)
            (Samples.services_for Samples.doc_short_paragraph) ""
            (Pipeline.flags true false false false) (Config 250 1 1 1)
            Samples.doc_short_paragraph None
            (Samples.body_of [Samples.p_of "Hi"]) "Hi" 2 false Run.start)
     = Eff.Ok (Samples.body_of [Samples.p_of "Hi"], Py.Str "Hi", Py.Int 2)).
Proof.
  split; [reflexivity|].
  apply (compare_if_necessary_no_fallback Samples.helpers
           (Samples.fallbacks_answering Samples.long_body)
           (Samples.services_for Samples.doc_short_paragraph) ""
           (Pipeline.flags true false false false) (Config 250 1 1 1)
           Samples.doc_short_paragraph None
           (Samples.body_of [Samples.p_of "Hi"]) "Hi" 2 false Run.start).
  reflexivity.
Defined.

(** ** Precision, default and recall *)

Section OrderingProperties.
Import Dom Arbiter.
Local Open Scope Z_scope.

Variable try_readability : element -> option string -> element.
Variable justext_rescue :
  element -> option string -> option string -> element -> Z -> string ->
  element * string * Z * bool.
Variable sanitize_tree :
  element -> bool -> bool -> bool -> bool -> element * string * Z.
Variable matches_sanitized_xpath : element -> bool.
Variable trim : string -> string.

(** C9 (as amended).  For one custom result of a length L1 above ten
    times [MIN_EXTRACTED_SIZE] (which is not negative): under
    [favor_recall] the arbiter returns the custom result, of length L1,
    whatever the other extractor would give; without [favor_recall] it
    returns the same custom result whenever its table keeps the custom
    extraction; and when the table adopts the result of
    [try_readability], of length L2, it returns that result after
    [sanitize_tree], unless the body matches [SANITIZED_XPATH] and L2 is
    below ten times [MIN_EXTRACTED_SIZE]: then [justext_rescue] is
    asked, and its result is returned when it succeeded and L2 is not
    above twice its length, the result of [try_readability] as it is
    when it succeeded with a shorter text, and the result of
    [try_readability] after [sanitize_tree] when it failed.  The lengths
    with and without [favor_recall] are therefore not ordered. *)
Theorem compare_extraction_flags (tree backup_tree : element)
  (url : option string) (body : element) (text : string) (len_text : Z)
  (target_language : option string)
  (include_formatting include_links include_images include_tables : bool)
  (config : config) :
  let B2 := try_readability backup_tree url in
  let T2 := trim (Py.join " " (itertext B2)) in
  let L2 := Z.of_nat (String.length T2) in
  let arbiter favor_precision favor_recall :=
    compare_extraction try_readability justext_rescue sanitize_tree
      matches_sanitized_xpath trim tree backup_tree url body text len_text
      target_language favor_precision favor_recall include_formatting
      include_links include_images include_tables config in
  let sanitized :=
    sanitize_tree B2 include_formatting include_links include_images
      include_tables in
  0 <= MIN_EXTRACTED_SIZE config ->
  len_text > 10 * MIN_EXTRACTED_SIZE config ->
  (forall favor_precision,
      Eff.run (arbiter favor_precision true)
      = (Eff.Ok (body, text, len_text), [])) /\
  (forall favor_precision,
      algo_flag body len_text L2 config = false ->
      fst (Eff.run (arbiter favor_precision false))
      = Eff.Ok (body, text, len_text)) /\
  (forall favor_precision,
      algo_flag body len_text L2 config = true ->
      fst (Eff.run (arbiter favor_precision false))
      = Eff.Ok
          (if matches_sanitized_xpath B2
              && (L2 <? MIN_EXTRACTED_SIZE config * 10)
           then
             let '(body2, text2, len_text2, jt_result) :=
               justext_rescue tree url target_language B2 0 "" in
             if jt_result then
               if 2 * len_text2 <? L2 then (B2, T2, L2)
               else (body2, text2, len_text2)
             else sanitized
           else sanitized)).
Proof.
  intros B2 T2 L2 arbiter sanitized Hmin Hlen. subst arbiter. cbv beta.
  assert (Hten : (MIN_EXTRACTED_SIZE config * 10 <? len_text) = true)
    by (apply Z.ltb_lt; lia).
  split; [|split].
  - intros fp. unfold compare_extraction, Eff.run. now rewrite Hten.
  - intros fp Hflag.
    rewrite (@compare_extraction_selected try_readability justext_rescue
               sanitize_tree matches_sanitized_xpath trim tree backup_tree
               url body text len_text target_language fp false
               include_formatting include_links include_images
               include_tables config eq_refl).
    fold B2. fold T2. fold L2. rewrite Hflag.
    unfold after_selection.
    replace (len_text <? MIN_EXTRACTED_SIZE config * 10) with false
      by (symmetry; apply Z.ltb_ge; lia).
    replace (len_text <? MIN_EXTRACTED_SIZE config) with false
      by (symmetry; apply Z.ltb_ge; lia).
    rewrite andb_false_r. reflexivity.
  - intros fp Hflag.
    rewrite (@compare_extraction_selected try_readability justext_rescue
               sanitize_tree matches_sanitized_xpath trim tree backup_tree
               url body text len_text target_language fp false
               include_formatting include_links include_images
               include_tables config eq_refl).
    fold B2. fold T2. fold L2. rewrite Hflag.
    assert (HL2 : MIN_EXTRACTED_SIZE config <= L2).
    { assert (H0 : 0 <= L2) by (subst L2; lia).
      unfold algo_flag in Hflag.
      destruct (Z.eqb_spec L2 0); [discriminate|].
      destruct (Z.eqb_spec L2 len_text); [discriminate|]. cbn [orb] in Hflag.
      destruct (Z.eqb_spec len_text 0); [lia|]. cbn [andb] in Hflag.
      destruct (Z.ltb_spec (2 * L2) len_text); [discriminate|]. lia. }
    unfold after_selection.
    destruct (matches_sanitized_xpath B2
              && (L2 <? MIN_EXTRACTED_SIZE config * 10)) eqn:Hs.
    + cbn [Eff.bind Eff.call Eff.emit Eff.ret app].
      destruct (justext_rescue tree url target_language B2 0 "")
        as [[[body2 text2] len_text2] jt_result].
      cbv beta iota delta [Eff.bind Eff.call Eff.emit Eff.ret fst].
      destruct jt_result; cbn [andb negb];
        [destruct (2 * len_text2 <? L2)|]; reflexivity.
    + replace (L2 <? MIN_EXTRACTED_SIZE config) with false
        by (symmetry; apply Z.ltb_ge; lia).
      reflexivity.
Qed.

End OrderingProperties.

Example extract_default_flags :
  fst (Pipeline.extract Samples.helpers
         (Samples.fallbacks_answering Samples.long_body)
         (Samples.services_for Samples.doc_eleven) 50 ""
         (Pipeline.flags false false false false) Pipeline.txt None
         (Samples.config_all 1) Run.start)
  = Eff.Ok (Some "twenty five characters ..").
Proof. vm_compute. reflexivity. Qed.

Example extract_favor_recall :
  fst (Pipeline.extract Samples.helpers
         (Samples.fallbacks_answering Samples.long_body)
         (Samples.services_for Samples.doc_eleven) 50 ""
         (Pipeline.flags false false true false) Pipeline.txt None
         (Samples.config_all 1) Run.start)
  = Eff.Ok (Some "elevenchars").
Proof. vm_compute. reflexivity. Qed.

(** C9, as it is stated, fails: for the document
    [<article><p>elevenchars</p></article>], a readability that answers a
    text of 25 characters and [MIN_EXTRACTED_SIZE] 1, all other options
    being equal, the text extracted under [favor_recall] has 11
    characters and the text extracted with the default flags has 25. *)
Lemma favor_recall_gives_shorter_text :
  exists with_recall with_defaults,
    fst (Pipeline.extract Samples.helpers
           (Samples.fallbacks_answering Samples.long_body)
           (Samples.services_for Samples.doc_eleven) 50 ""
           (Pipeline.flags false false true false) Pipeline.txt None
           (Samples.config_all 1) Run.start)
    = Eff.Ok (Some with_recall) /\
    fst (Pipeline.extract Samples.helpers
           (Samples.fallbacks_answering Samples.long_body)
           (Samples.services_for Samples.doc_eleven) 50 ""
           (Pipeline.flags false false false false) Pipeline.txt None
           (Samples.config_all 1) Run.start)
    = Eff.Ok (Some with_defaults) /\
    ~ (String.length with_recall >= String.length with_defaults)%nat.
Proof.
  exists "elevenchars", "twenty five characters ..".
  split; [vm_compute; reflexivity|]. split; [vm_compute; reflexivity|].
  cbn. lia.
Qed.

(** The other inequality of C9 fails as well: for the document
    [<article><h1><a href=/t>Title</a></h1><p>elevenchars</p></article>],
    a link density test that is positive for the title, a readability
    that answers a text of 25 characters and [MIN_EXTRACTED_SIZE] 1, the
    text extracted with the default flags has 17 characters (the title
    is kept and the table keeps the custom result) and the text
    extracted under [favor_precision] has 25 (the title is deleted, the
    custom text has 11 characters and the table adopts the other
    result). *)
Lemma favor_precision_gives_longer_text :
  exists with_defaults with_precision,
    fst (Pipeline.extract Samples.helpers_with_density
           (Samples.fallbacks_answering Samples.long_body)
           (Samples.services_for Samples.doc_linked_title) 50 ""
           (Pipeline.flags false false false false) Pipeline.txt None
           (Samples.config_all 1) Run.start)
    = Eff.Ok (Some with_defaults) /\
    fst (Pipeline.extract Samples.helpers_with_density
           (Samples.fallbacks_answering Samples.long_body)
           (Samples.services_for Samples.doc_linked_title) 50 ""
           (Pipeline.flags false true false false) Pipeline.txt None
           (Samples.config_all 1) Run.start)
    = Eff.Ok (Some with_precision) /\
    ~ (String.length with_defaults >= String.length with_precision)%nat.
Proof.
  exists "Title elevenchars", "twenty five characters ..".
  split; [vm_compute; reflexivity|]. split; [vm_compute; reflexivity|].
  cbn. lia.
Qed.

Lemma compare_extraction_flags_witness :
  let arbiter favor_recall :=
    Arbiter.compare_extraction
      (Samples.readability_answers Samples.long_body)
      Samples.justext_finds_nothing Samples.sanitize_keeps
      Samples.never_sanitized Samples.trim
      Samples.short_body Samples.short_body None
      Samples.short_body "elevenchars" 11 None
      false favor_recall false false false false (Samples.config_all 1) in
  (0 <= MIN_EXTRACTED_SIZE (Samples.config_all 1))%Z /\
  (11 > 10 * MIN_EXTRACTED_SIZE (Samples.config_all 1))%Z /\
  Arbiter.algo_flag Samples.short_body 11 25 (Samples.config_all 1) = true /\
  Eff.run (arbiter true)
  = (Eff.Ok (Samples.short_body, "elevenchars", 11%Z), []) /\
  fst (Eff.run (arbiter false))
  = Eff.Ok (Samples.long_body, "twenty five characters ..", 25%Z).
Proof.
  cbv zeta.
  split; [discriminate|]. split; [reflexivity|]. split; [reflexivity|].
  destruct (@compare_extraction_flags
              (Samples.readability_answers Samples.long_body)
              Samples.justext_finds_nothing Samples.sanitize_keeps
              Samples.never_sanitized Samples.trim
              Samples.short_body Samples.short_body None
              Samples.short_body "elevenchars" 11 None
              false false false false (Samples.config_all 1)
              ltac:(discriminate) ltac:(reflexivity))
    as (Hrecall & _ & Hadopt).
  split; [exact (Hrecall false) | exact (Hadopt false eq_refl)].
Defined.

(** ** The tags of the returned body *)

(** The paragraph of [<article><p>Hello <b>world</b>.</p></article>]
    comes out with its formatted word and the full stop behind it. *)
Example hello_world_extracted :
  let st := snd (Lx.alloc Samples.doc_hello Lx.empty) in
  let run :=
    Rewriter.extract_content Samples.process_node Samples.handle_textnode
      Samples.clean_element_text Samples.text_chars_test Samples.trim
      Samples.image_suffix (fun r _ => StM.ret r)
      (fun _ => StM.ret (false, [])) (fun _ => StM.ret false)
      Samples.xpath_first ["article"; "main"]
      (Pipeline.TAG_CATALOG Samples.helpers) 50 0 false false true false
      false false (Samples.config_all 1) None st in
  exists result_body,
    fst run = Eff.Ok (result_body, "Hello world .", 13%nat, true) /\
    option_map Lx.reify (Lx.node_of (snd run) result_body) =
    Some (Samples.body_of
            [Dom.Element "p" (Some "Hello ") None []
               [Dom.Element "hi" (Some "world") (Some ".")
                  [("rend", "#b")] []]]).
Proof. exists 5%nat. split; vm_compute; reflexivity. Qed.



(** ** Exceptions that reach the caller *)

(** C4.  For the document [doc_table_link] (a table cell that holds a
    link with a child, the text of the link being one that the text
    filter refuses) and [include_links], [extract] raises [TypeError]:
    [handle_formatting] receives [None] from [process_node] for an
    element that has a child, inserts it into a new [p], and
    [bare_extraction] catches [ValueError] only. *)
Theorem extract_raises_TypeError :
  fst (Pipeline.extract Samples.helpers
         (Samples.fallbacks_answering Samples.long_body)
         (Samples.services_for Samples.doc_table_link) 50 ""
         (Pipeline.flags false false false true) Pipeline.txt None
         (Config 250 1 1 1) Run.start)
  = Eff.Raise Eff.TypeError.
Proof. vm_compute. reflexivity. Qed.

(** * Further properties *)

(** ** The generator of pairs *)

Section GeneratorProperties.
Import Generators.
Context {A : Type}.

Lemma now_next_from_nth (rest : list (option A)) : forall k now i,
  nth_error (now_next_from k now rest) i =
  match nth_error (now :: rest) i with
  | Some x =>
      match nth_error (now :: rest) (S i) with
      | Some y => Some (k + i, (x, y))
      | None =>
          match x with
          | Some _ => Some (k + i, (x, None))
          | None => None
          end
      end
  | None => None
  end.
Proof.
  induction rest as [|next rest IH]; intros k now i.
  - destruct i as [|i]; cbn.
    + rewrite Nat.add_0_r. now destruct now.
    + destruct now; now destruct i.
  - destruct i as [|i].
    + cbn. now rewrite Nat.add_0_r.
    + cbn [now_next_from nth_error]. rewrite IH.
      cbn [nth_error]. now rewrite Nat.add_succ_r.
Qed.

(** X1.  For a list [l] of values, [None] among them,
    [enumerate_now_next(l)] yields, in the order of the positions: at a
    position [i] that is not the last one the index [i] with the pair of
    [l[i]] and [l[i+1]]; at the last position the index with the pair of
    [l[i]] and [None], unless [l[i]] is [None], and then nothing; for
    the empty list nothing. *)
Theorem enumerate_now_next_nth (l : list (option A)) (i : nat) :
  nth_error (enumerate_now_next l) i =
  match nth_error l i with
  | Some x =>
      match nth_error l (S i) with
      | Some y => Some (i, (x, y))
      | None =>
          match x with
          | Some _ => Some (i, (x, None))
          | None => None
          end
      end
  | None => None
  end.
Proof.
  destruct l as [|now rest].
  - now destruct i.
  - unfold enumerate_now_next. now rewrite now_next_from_nth.
Qed.

End GeneratorProperties.

Section DensityMore.
Import Lx Density.

(** Without backtracking, the list of deletions holds the elements
    whose test was positive, in the order in which they were seen. *)
Lemma deletions_without_backtracking (seen : list (ref * verdict)) :
  deletions_of false seen = flagged seen.
Proof.
  unfold deletions_of.
  pose proof (@first_loop seen [] [] (NoDup_nil _)) as H.
  destruct (fold_left record_elem seen ([], [])) as [myelems deletions].
  cbn [fst snd] in H. now destruct H as (_ & -> & _).
Qed.
End DensityMore.

(** ** Joining two texts *)

Lemma first_char_app (u v : string) :
  Py.first_char (u ++ v) =
  match Py.first_char u with Some c => Some c | None => Py.first_char v end.
Proof. now destruct u. Qed.

Lemma first_char_reverse (s : string) :
  Py.first_char (Py.reverse s) = Py.last_char s.
Proof.
  induction s as [|c s IH]; [reflexivity|].
  cbn [Py.reverse]. rewrite first_char_app, IH.
  destruct s as [|d s]; [reflexivity|].
  change (Py.last_char (String c (String d s)))
    with (Py.last_char (String d s)).
  destruct (Py.last_char (String d s)) eqn:E; [reflexivity|].
  apply last_char_none in E. discriminate.
Qed.

Lemma endswith_blank (s : string) :
  Py.endswith " " s = true <-> Py.last_char s = Some " "%char.
Proof.
  unfold Py.endswith. rewrite <- first_char_reverse.
  change (Py.reverse " ") with " ".
  destruct (Py.reverse s) as [|c r]; cbn [Py.startswith Py.first_char].
  - split; discriminate.
  - rewrite andb_true_r. split.
    + intros H. apply Ascii.eqb_eq in H. now subst.
    + intros H. injection H as <-. apply Ascii.eqb_refl.
Qed.

Section ConcatProperties.
Import Spacing.
Variable trim : string -> string.

(** X2.  [concat_with_space(a, b)] is [b] when [a] is empty or
    [None], and [a] when only [b] is; otherwise it is [a], then at most
    one blank, then [trim(b)], and the blank is there exactly when [a]
    does not end with a blank or an opening bracket and [trim(b)] does
    not start with a blank or one of the closing punctuation marks. *)
Theorem concat_with_space_junction (a b : option string) :
  (Py.truthy a = false -> Rewriter.concat_with_space trim a b = b) /\
  (Py.truthy a = true -> Py.truthy b = false ->
   Rewriter.concat_with_space trim a b = a) /\
  (forall x y, a = Some x -> b = Some y ->
     Py.truthy a = true -> Py.truthy b = true ->
     (Rewriter.concat_with_space trim a b = Some (x ++ " " ++ trim y) /\
      Py.last_char x <> Some " "%char /\
      (forall c, Py.last_char x = Some c -> ~ In c no_space_after) /\
      (forall c, Py.first_char (trim y) = Some c ->
                 c <> " "%char /\ ~ In c no_space_before))
     \/
     (Rewriter.concat_with_space trim a b = Some (x ++ trim y) /\
      (Py.last_char x = Some " "%char \/
       (exists c, Py.last_char x = Some c /\ In c no_space_after) \/
       (exists c, Py.first_char (trim y) = Some c /\
                  (c = " "%char \/ In c no_space_before))))).
Proof.
  unfold Rewriter.concat_with_space. split; [intros ->; reflexivity|].
  split; [intros -> ->; reflexivity|].
  intros x y -> -> Ha Hb. rewrite Ha, Hb. cbn [negb Py.or_empty].
  destruct (Py.endswith " " x) eqn:Hend.
  { right. split; [reflexivity|]. left. now apply endswith_blank. }
  assert (Hnb : Py.last_char x <> Some " "%char).
  { intros H. apply endswith_blank in H. congruence. }
  cbn [orb].
  destruct (should_have_space_prior (Some (trim y))) eqn:Hp; cbn [negb orb].
  - destruct (should_have_space_next (Some x)) eqn:Hn; cbn [negb].
    + left. split; [reflexivity|]. split; [exact Hnb|].
      apply prior_iff in Hp. apply next_iff in Hn. split.
      * intros c Hc. destruct Hn as [->|[c' [Hc' [_ Hnin]]]]; [discriminate|].
        congruence.
      * intros c Hc. destruct Hp as [Hp|[c' [Hc' [Hne Hnin]]]].
        { rewrite Hp in Hc. discriminate. }
        rewrite Hc in Hc'. injection Hc' as <-. now split.
    + right. split; [reflexivity|]. right. left.
      destruct (Py.last_char x) as [c|] eqn:Hl.
      2:{ apply last_char_none in Hl. subst. discriminate. }
      exists c. split; [reflexivity|].
      destruct (in_dec Ascii.ascii_dec c no_space_after) as [Hin|Hnin];
        [assumption|].
      exfalso. assert (should_have_space_next (Some x) = true).
      { apply next_iff. right. exists c. repeat split; congruence. }
      congruence.
  - right. split; [reflexivity|]. right. right.
    destruct (Py.first_char (trim y)) as [c|] eqn:Hf.
    2:{ destruct (trim y); [discriminate Hp | discriminate Hf]. }
    exists c. split; [reflexivity|].
    destruct (Ascii.ascii_dec c " ") as [->|Hne]; [now left|]. right.
    destruct (in_dec Ascii.ascii_dec c no_space_before) as [Hin|Hnin];
      [assumption|].
    exfalso. assert (should_have_space_prior (Some (trim y)) = true).
    { apply prior_iff. right. exists c. repeat split; assumption. }
    congruence.
Qed.
End ConcatProperties.

(** ** More on the baseline *)

Section BaselineMore.
Import Dom Baseline.
Variable load_html : string -> option element.
Variable trim : string -> string.

Lemma scrape_paragraphs_shape elements : forall postbody results,
  tag postbody = "body" -> text postbody = None ->
  Forall plain_paragraph (children postbody) ->
  let body := scrape_paragraphs elements postbody results in
  tag body = "body" /\ text body = None /\
  Forall plain_paragraph (children body).
Proof.
  induction elements as [|e rest IH]; intros postbody results Ht Hx Hc;
    cbn [scrape_paragraphs]; [now repeat split|].
  destruct (existsb _ results); [now apply IH|].
  apply IH; [exact Ht | exact Hx|]. cbn. apply Forall_app. split; [exact Hc|].
  constructor; [|constructor]. now eexists.
Qed.

Lemma scrape_json_body scripts body text len :
  scrape_json trim scripts = Some (body, text, len) ->
  exists t, body = Element "body" None None [] [Element "p" (Some t) None [] []].
Proof.
  induction scripts as [|elem rest IH]; cbn [scrape_json]; [discriminate|].
  match goal with |- context [match ?f with Some _ => _ | None => _ end] =>
    destruct f as [group|] end; [|exact IH].
  intros H. injection H as <- _ _. eexists. reflexivity.
Qed.

(** X5.  Whatever the input and whichever of its paths [baseline]
    takes, the body it returns is a [body] without text whose children
    are all [p] elements with a text and with no tail, attribute or
    child. *)
Theorem baseline_body_shape (filecontent : string) :
  let body := fst (fst (baseline load_html trim filecontent)) in
  tag body = "body" /\ text body = None /\
  Forall plain_paragraph (children body).
Proof.
  unfold baseline. destruct (load_html filecontent) as [tree|].
  2:{ cbn. repeat split. constructor. }
  destruct (scrape_json trim (jsonld_scripts tree))
    as [[[body text] len]|] eqn:Hjson.
  { destruct (@scrape_json_body _ _ _ _ Hjson) as [t ->]. cbn.
    repeat split. constructor; [now eexists | constructor]. }
  assert (Hpar :
    let body := scrape_paragraphs
                  (iter_tags ["blockquote"; "code"; "p"; "pre"; "q"; "quote"]
                             tree) (new_element "body") [] in
    tag body = "body" /\ Dom.text body = None /\
    Forall plain_paragraph (children body)).
  { apply scrape_paragraphs_shape; [reflexivity | reflexivity | constructor]. }
  destruct (find_article tree) as [article_elem|]; [|exact Hpar].
  destruct (Nat.ltb 0 (String.length (trim (text_content article_elem))));
    [|exact Hpar].
  cbn. repeat split. constructor; [now eexists | constructor].
Qed.

Lemma scrape_paragraphs_texts elements : forall postbody results,
  paragraph_texts postbody = map Some (rev results) ->
  NoDup results ->
  let body := scrape_paragraphs elements postbody results in
  exists results',
    paragraph_texts body = map Some (rev results') /\
    NoDup results' /\
    (forall t, In t results' <->
               In t results \/ In t (map text_content elements)).
Proof.
  induction elements as [|e rest IH]; intros postbody results Hp Hnd;
    cbn [scrape_paragraphs].
  - exists results. cbn. intuition.
  - destruct (existsb (String.eqb (text_content e)) results) eqn:Hex.
    + destruct (IH postbody results Hp Hnd) as (r' & A & B & C).
      exists r'. split; [exact A|]. split; [exact B|].
      intros t. rewrite C. cbn [map In]. split; [tauto|].
      intros [H|[<-|H]]; [tauto| |tauto]. left.
      apply existsb_exists in Hex as [x [Hin Heq]].
      apply String.eqb_eq in Heq. now subst.
    + destruct (IH (append postbody
                      (set_text (new_element "p") (Some (text_content e))))
                   (text_content e :: results)) as (r' & A & B & C).
      * unfold paragraph_texts, append. cbn. rewrite !map_app.
        unfold paragraph_texts in Hp. rewrite Hp. reflexivity.
      * constructor; [|exact Hnd]. intros Hin.
        assert (existsb (String.eqb (text_content e)) results = true).
        { apply existsb_exists. exists (text_content e).
          split; [exact Hin | apply String.eqb_refl]. }
        congruence.
      * exists r'. split; [exact A|]. split; [exact B|].
        intros t. rewrite C. cbn [map In]. tauto.
Qed.

Lemma NoDup_map_Some {A} (l : list A) : NoDup l -> NoDup (map Some l).
Proof.
  induction 1 as [|x l Hnin Hnd IH]; cbn; constructor; [|exact IH].
  rewrite in_map_iff. intros [y [Hy Hin]]. injection Hy as ->. contradiction.
Qed.

(** X6.  The loop of [baseline] over the text elements gives the
    body one paragraph for every distinct text content and none twice:
    the texts of the paragraphs are pairwise different, and a text is
    among them exactly when it is the text content of one of the
    elements walked. *)
Theorem scrape_paragraphs_unique (elements : list element) :
  let body := scrape_paragraphs elements (new_element "body") [] in
  NoDup (paragraph_texts body) /\
  (forall t, In (Some t) (paragraph_texts body) <->
             exists e, In e elements /\ text_content e = t).
Proof.
  destruct (@scrape_paragraphs_texts elements (new_element "body") [])
    as (r & A & B & C); [reflexivity | constructor|].
  cbv zeta. rewrite A. split.
  - apply NoDup_map_Some. now apply NoDup_rev.
  - intros t. rewrite in_map_iff. split.
    + intros [x [Hx Hin]]. injection Hx as ->. apply in_rev in Hin.
      apply C in Hin as [[]|Hin]. apply in_map_iff in Hin as [e [He Hin]].
      eauto.
    + intros [e [Hin He]]. exists t. split; [reflexivity|].
      apply in_rev. rewrite rev_involutive. apply C. right.
      apply in_map_iff. eauto.
Qed.

End BaselineMore.

(** ** The JSON-LD scrape *)

Lemma append_assoc (a b c : string) : (a ++ b) ++ c = a ++ (b ++ c).
Proof. induction a as [|x a IH]; cbn; [reflexivity | now rewrite IH]. Qed.

Lemma append_nil_r (a : string) : a ++ "" = a.
Proof. induction a as [|x a IH]; cbn; [reflexivity | now rewrite IH]. Qed.

Lemma startswith_app (p rest : string) : Py.startswith p (p ++ rest) = true.
Proof.
  induction p as [|c p IH]; [reflexivity|].
  cbn [String.append Py.startswith]. now rewrite Ascii.eqb_refl, IH.
Qed.

Lemma contains_app (sub pre rest : string) :
  Py.contains sub (pre ++ sub ++ rest) = true.
Proof.
  induction pre as [|c pre IH].
  - cbn [String.append]. pose proof (startswith_app sub rest) as H.
    destruct (sub ++ rest); cbn [Py.contains]; now rewrite H.
  - cbn [String.append Py.contains]. rewrite IH. apply orb_true_r.
Qed.

Section JsonProperties.
Import Dom Baseline.

Lemma lazy_group_here (group rest : string) :
  Py.startswith pattern_tail rest = true -> lazy_group group rest = Some group.
Proof. intros H. destruct rest; cbn [lazy_group]; now rewrite H. Qed.

Lemma lazy_group_finds (X : string) : forall group rest,
  Py.char_free Py.dquote X = true -> Py.char_free Py.newline X = true ->
  lazy_group group (X ++ pattern_tail ++ rest) = Some (group ++ X).
Proof.
  induction X as [|c X IH]; intros group rest Hq Hn.
  - rewrite append_nil_r. apply lazy_group_here.
    exact (startswith_app pattern_tail rest).
  - cbn [Py.char_free] in Hq, Hn.
    apply andb_prop in Hq as [Hq1 Hq2]. apply andb_prop in Hn as [Hn1 Hn2].
    cbn [String.append lazy_group].
    change pattern_tail with (String Py.dquote ("," ++ Py.char Py.dquote)).
    cbn [Py.startswith]. rewrite Ascii.eqb_sym.
    apply negb_true_iff in Hq1, Hn1. rewrite Hq1, Hn1. cbn [andb].
    change (String Py.dquote ("," ++ Py.char Py.dquote)) with pattern_tail.
    rewrite IH by assumption. now rewrite append_assoc.
Qed.

Lemma match_here_key (X rest : string) :
  X <> "" ->
  Py.char_free Py.dquote X = true -> Py.char_free Py.newline X = true ->
  match_here (articlebody_key ++ X ++ pattern_tail ++ rest) = Some X.
Proof.
  intros Hne Hq Hn. destruct X as [|c X]; [congruence|].
  unfold match_here.
  change (Py.istartswith pattern_head
            (articlebody_key ++ String c X ++ pattern_tail ++ rest))
    with true.
  change (Py.drop (String.length pattern_head)
            (articlebody_key ++ String c X ++ pattern_tail ++ rest))
    with (String c (X ++ pattern_tail ++ rest)).
  cbn [Py.char_free] in Hq, Hn.
  apply andb_prop in Hq as [Hq1 Hq2]. apply andb_prop in Hn as [Hn1 Hn2].
  apply negb_true_iff in Hn1. rewrite Hn1.
  now rewrite lazy_group_finds.
Qed.

Lemma lower_dquote (c : ascii) :
  Ascii.eqb (Py.lower Py.dquote) (Py.lower c) = Ascii.eqb Py.dquote c.
Proof.
  destruct c as [[] [] [] [] [] [] [] []]; reflexivity.
Qed.

Lemma match_here_other (c : ascii) (s : string) :
  Ascii.eqb c Py.dquote = false -> match_here (String c s) = None.
Proof.
  intros Hc. unfold match_here.
  change pattern_head
    with (String Py.dquote ("articlebody" ++ Py.char Py.dquote ++ ":"
                            ++ Py.char Py.dquote)).
  cbn [Py.istartswith]. rewrite lower_dquote, Ascii.eqb_sym, Hc. reflexivity.
Qed.

Lemma search_after_prefix (pre s : string) :
  Py.char_free Py.dquote pre = true ->
  search_articlebody (pre ++ s) = search_articlebody s.
Proof.
  induction pre as [|c pre IH]; intros Hq; [reflexivity|].
  cbn [Py.char_free] in Hq. apply andb_prop in Hq as [Hq1 Hq2].
  apply negb_true_iff in Hq1.
  cbn [String.append search_articlebody]. rewrite match_here_other by assumption.
  now apply IH.
Qed.

Lemma search_key (pre X rest : string) :
  X <> "" -> Py.char_free Py.dquote pre = true ->
  Py.char_free Py.dquote X = true -> Py.char_free Py.newline X = true ->
  search_articlebody (pre ++ articlebody_key ++ X ++ pattern_tail ++ rest)
  = Some X.
Proof.
  intros Hne Hp Hq Hn. rewrite search_after_prefix by assumption.
  pose proof (@match_here_key X rest Hne Hq Hn) as H.
  destruct (articlebody_key ++ X ++ pattern_tail ++ rest) eqn:E;
    cbn [search_articlebody]; now rewrite H.
Qed.

Lemma startswith_escaped (s : string) :
  Py.char_free Py.dquote s = true ->
  Py.startswith (String "\" (Py.char Py.dquote)) s = false.
Proof.
  destruct s as [|a [|b s]]; cbn [Py.startswith Py.char]; intros H.
  - reflexivity.
  - now rewrite andb_false_r.
  - cbn [Py.char_free] in H. apply andb_prop in H as [_ H].
    apply andb_prop in H as [H _]. apply negb_true_iff in H.
    rewrite (Ascii.eqb_sym Py.dquote b), H. cbn [andb].
    now rewrite andb_false_r.
Qed.

Lemma replace_fuel_free (fuel : nat) : forall s,
  Py.char_free Py.dquote s = true ->
  Py.replace_fuel fuel (String "\" (Py.char Py.dquote)) (Py.char Py.dquote) s
  = s.
Proof.
  induction fuel as [|fuel IH]; intros s H; [reflexivity|].
  destruct s as [|c s]; [reflexivity|].
  cbn [Py.replace_fuel]. rewrite startswith_escaped by assumption.
  cbn [Py.char_free] in H. apply andb_prop in H as [_ H].
  now rewrite IH.
Qed.

Lemma unescape_quotes_free (s : string) :
  Py.char_free Py.dquote s = true -> unescape_quotes s = s.
Proof. intros H. unfold unescape_quotes, Py.replace. now apply replace_fuel_free. Qed.

Variable trim : string -> string.

Lemma contains_cons sub c s :
  Py.contains sub s = true -> Py.contains sub (String c s) = true.
Proof. intros H. cbn [Py.contains]. rewrite H. apply orb_true_r. Qed.

Lemma lazy_group_needs_tail (rest : string) : forall group g,
  lazy_group group rest = Some g -> Py.contains pattern_tail rest = true.
Proof.
  induction rest as [|c rest IH]; intros group g; cbn [lazy_group].
  - change (Py.startswith pattern_tail "") with false. discriminate.
  - destruct (Py.startswith pattern_tail (String c rest)) eqn:E.
    + intros _. cbn [Py.contains]. now rewrite E.
    + destruct (Ascii.eqb c Py.newline); [discriminate|].
      intros H. apply contains_cons. eapply IH. exact H.
Qed.

Lemma contains_drop sub (n : nat) : forall s,
  Py.contains sub (Py.drop n s) = true -> Py.contains sub s = true.
Proof.
  induction n as [|n IH]; intros s; [now destruct s|].
  destruct s as [|c s]; cbn [Py.drop]; [auto|].
  intros H. apply contains_cons. now apply IH.
Qed.

Lemma match_here_needs_tail (s g : string) :
  match_here s = Some g -> Py.contains pattern_tail s = true.
Proof.
  unfold match_here. destruct (Py.istartswith pattern_head s); [|discriminate].
  destruct (Py.drop (String.length pattern_head) s) as [|c rest] eqn:E;
    [discriminate|].
  destruct (Ascii.eqb c Py.newline); [discriminate|].
  intros H. apply lazy_group_needs_tail in H.
  apply contains_drop with (n := String.length pattern_head).
  rewrite E. now apply contains_cons.
Qed.

Lemma search_needs_tail (s : string) :
  Py.contains pattern_tail s = false -> search_articlebody s = None.
Proof.
  induction s as [|c s IH]; intros H.
  - reflexivity.
  - cbn [search_articlebody].
    destruct (match_here (String c s)) as [g|] eqn:E.
    + apply match_here_needs_tail in E. congruence.
    + apply IH. cbn [Py.contains] in H. apply orb_false_elim in H. tauto.
Qed.

(** X8.  The JSON-LD scrape of [baseline] finds nothing in scripts
    whose text does not hold the three characters quote, comma, quote in
    a row, whatever [articleBody] they carry. *)
Theorem scrape_json_needs_separator (scripts : list element) :
  (forall elem t, In elem scripts -> text elem = Some t ->
                  Py.contains pattern_tail t = false) ->
  scrape_json trim scripts = None.
Proof.
  induction scripts as [|elem rest IH]; intros H; [reflexivity|].
  cbn [scrape_json]. destruct (text elem) as [t|] eqn:Ht.
  - rewrite search_needs_tail by (apply (H elem); [now left | exact Ht]).
    destruct (_ && _); apply IH; intros e t' Hin; apply H; now right.
  - apply IH. intros e t' Hin. apply H. now right.
Qed.

Variable load_html : string -> option element.

(** X7.  When the text of the first JSON-LD script of the document
    is some [pre] without double quote, then the key [articleBody] with
    the quote that opens its value, then [X], then quote, comma, quote
    and any [rest], and [X] is not empty and holds no double quote and
    no line feed, [baseline] returns a body with the one paragraph
    [trim(X)], that text and its length. *)
Theorem baseline_jsonld_roundtrip (filecontent pre X rest : string)
  (tree elem : element) (others : list element) :
  load_html filecontent = Some tree ->
  jsonld_scripts tree = elem :: others ->
  text elem = Some (pre ++ articlebody_key ++ X ++ pattern_tail ++ rest) ->
  X <> "" ->
  Py.char_free Py.dquote pre = true ->
  Py.char_free Py.dquote X = true ->
  Py.char_free Py.newline X = true ->
  baseline load_html trim filecontent =
  (Element "body" None None [] [Element "p" (Some (trim X)) None [] []],
   Py.Str (trim X), Py.Int (Z.of_nat (String.length (trim X)))).
Proof.
  intros Hload Hscripts Htext Hne Hp Hq Hn. unfold baseline.
  rewrite Hload, Hscripts. cbn [scrape_json]. rewrite Htext.
  assert (Htruthy : Py.truthy
            (Some (pre ++ articlebody_key ++ X ++ pattern_tail ++ rest))
          = true).
  { destruct pre; reflexivity. }
  rewrite Htruthy.
  replace (Py.contains (Py.char Py.dquote ++ "article")
             (pre ++ articlebody_key ++ X ++ pattern_tail ++ rest))
    with true.
  2:{ symmetry.
      change articlebody_key
        with ((Py.char Py.dquote ++ "article")
              ++ ("Body" ++ Py.char Py.dquote ++ ":" ++ Py.char Py.dquote)).
      rewrite append_assoc. apply contains_app. }
  cbn [andb]. rewrite search_key by assumption.
  rewrite unescape_quotes_free by assumption. reflexivity.
Qed.

End JsonProperties.

(** ** More on the arbiter *)

Ltac arbiter_unfold :=
  cbv beta iota zeta
      delta [Arbiter.compare_extraction Arbiter.after_selection Eff.run
             Eff.bind Eff.call Eff.emit Eff.ret fst snd].

Ltac arbiter_plain x :=
  lazymatch x with
  | context [let (_, _) := _ in _] => fail
  | context [if _ then _ else _] => fail
  | _ => idtac
  end.

Ltac arbiter_case :=
  match goal with
  | |- context [let (_, _) := ?x in _] => arbiter_plain x; destruct x eqn:?
  | |- context [if ?c then _ else _] => arbiter_plain c; destruct c eqn:?
  end.

Ltac arbiter_cases := arbiter_unfold; repeat (arbiter_case; arbiter_unfold).

Section ArbiterMore.
Import Dom Arbiter.
Local Open Scope Z_scope.

Variable try_readability : element -> option string -> element.
Variable justext_rescue :
  element -> option string -> option string -> element -> Z -> string ->
  element * string * Z * bool.
Variable sanitize_tree :
  element -> bool -> bool -> bool -> bool -> element * string * Z.
Variable matches_sanitized_xpath : element -> bool.
Variable trim : string -> string.

Variables (tree backup_tree : element) (url : option string)
  (body : element) (text : string) (len_text : Z)
  (target_language : option string)
  (favor_precision favor_recall include_formatting include_links
   include_images include_tables : bool) (config : config).

Let arbiter : Eff.P (element * string * Z) :=
  compare_extraction try_readability justext_rescue sanitize_tree
    matches_sanitized_xpath trim tree backup_tree url body text len_text
    target_language favor_precision favor_recall include_formatting
    include_links include_images include_tables config.

Let L2 : Z :=
  Z.of_nat (String.length
              (trim (Py.join " " (itertext (try_readability backup_tree url))))).

Lemma compare_extraction_record (tr : list Eff.event) :
  arbiter tr = (fst (Eff.run arbiter), (tr ++ snd (Eff.run arbiter))%list).
Proof.
  subst arbiter. arbiter_cases; cbn [app];
    rewrite <- ?app_assoc, ?app_nil_r; reflexivity.
Qed.

Lemma compare_extraction_ok :
  exists result, fst (Eff.run arbiter) = Eff.Ok result.
Proof. subst arbiter. arbiter_cases; eexists; reflexivity. Qed.

(** X9.  In one run of [compare_extraction] no extractor is called
    twice and no record is logged twice; [sanitize_tree] is called only
    when the decision table adopted the readability result, never on a
    custom extraction that was kept; and [justext_rescue] is called only
    in runs that called [try_readability]. *)
Theorem compare_extraction_calls :
  let record := snd (Eff.run arbiter) in
  NoDup record /\
  (In (Eff.Call "sanitize_tree") record ->
   algo_flag body len_text L2 config = true) /\
  (In (Eff.Call "justext_rescue") record ->
   In (Eff.Call "try_readability") record).
Proof.
  subst arbiter L2. arbiter_cases; cbn [app];
    (split; [repeat constructor; cbn; intuition discriminate|]);
    (split; [first [reflexivity | cbn; intuition discriminate]
            | cbn; intuition discriminate]).
Qed.

(** X10.  Without [favor_recall], when the decision table keeps
    the custom extraction, the body does not call for the override
    (no match of [SANITIZED_XPATH], or a text of at least ten times
    [MIN_EXTRACTED_SIZE]) and the text has at least [MIN_EXTRACTED_SIZE]
    characters, [compare_extraction] returns the custom body, text and
    length as they came, having consulted readability only. *)
Theorem compare_extraction_keeps_custom :
  favor_recall = false ->
  algo_flag body len_text L2 config = false ->
  matches_sanitized_xpath body && (len_text <? MIN_EXTRACTED_SIZE config * 10)
    = false ->
  MIN_EXTRACTED_SIZE config <= len_text ->
  Eff.run arbiter =
  (Eff.Ok (body, text, len_text),
   [Eff.Call "try_readability"; Eff.Log "using custom extraction"]).
Proof.
  intros -> Hflag Hsan Hmin. subst arbiter L2. arbiter_unfold.
  cbn [andb app]. rewrite Hflag. arbiter_unfold. rewrite Hsan.
  replace (len_text <? MIN_EXTRACTED_SIZE config) with false
    by (symmetry; apply Z.ltb_ge; lia).
  reflexivity.
Qed.

End ArbiterMore.

(** ** More on the entry points *)

Lemma run_bind_ok {A B} (m : Run.Run A) (k : A -> Run.Run B) w v w' :
  Run.bind m k w = (Eff.Ok v, w') ->
  exists a w1, m w = (Eff.Ok a, w1) /\ k a w1 = (Eff.Ok v, w').
Proof.
  unfold Run.bind. destruct (m w) as [[a|e] w1]; [|discriminate].
  intros H. now exists a, w1.
Qed.

Section PipelineMore.
Import Pipeline.
Local Open Scope Z_scope.

Variable M : Type.
Variable H : tree_helpers.
Variable X : fallbacks.
Variable S : services M.

(** X11.  When [no_fallback] is not set, the block that follows
    the content extraction always calls [compare_extraction], and it
    calls [baseline] exactly when the body that [compare_extraction]
    returned has no children; then the result of [baseline] replaces
    the one of the arbiter, otherwise the arbiter's result goes on. *)
Theorem compare_if_necessary_fallback (filecontent : string)
  (o : options) (config : config) (tree backup_tree postbody : Dom.element)
  (temp_text : string) (len_text : Z) (sure_thing : bool) (w : Run.world) :
  no_fallback o = false ->
  exists body text len record,
    Eff.run (Arbiter.compare_extraction (try_readability X)
               (justext_rescue X) (sanitize_tree X)
               (matches_sanitized_xpath X) (trim H) tree backup_tree
               (opt_url o) postbody temp_text len_text (target_language o)
               (favor_precision o) (favor_recall o) (include_formatting o)
               (include_links o) (include_images o) (include_tables o)
               config)
    = (Eff.Ok (body, text, len), record) /\
    compare_if_necessary H X S filecontent o config tree (Some backup_tree)
      postbody temp_text len_text sure_thing w
    = if Nat.eqb (Dom.len body) 0
      then (Eff.Ok (Baseline.baseline (load_html S) (trim H) filecontent),
            (fst w,
             (snd w ++ Eff.Call "compare_extraction" :: record
              ++ [Eff.Call "baseline"])%list))
      else (Eff.Ok (body, Py.Str text, Py.Int len),
            (fst w,
             (snd w ++ Eff.Call "compare_extraction" :: record)%list)).
Proof.
  intros Hno.
  destruct (compare_extraction_ok (try_readability X) (justext_rescue X)
              (sanitize_tree X) (matches_sanitized_xpath X) (trim H) tree
              backup_tree (opt_url o) postbody temp_text len_text
              (target_language o) (favor_precision o) (favor_recall o)
              (include_formatting o) (include_links o) (include_images o)
              (include_tables o) config) as [[[body text] len] Hok].
  cbv zeta in Hok.
  match type of Hok with fst (Eff.run ?m) = _ => set (arbiter := m) in * end.
  exists body, text, len, (snd (Eff.run arbiter)).
  split; [rewrite <- Hok; now destruct (Eff.run arbiter)|].
  unfold compare_if_necessary. rewrite Hno. cbn [negb].
  fold arbiter. destruct w as [st tr].
  unfold Run.bind, Run.emit, Run.on_record, Eff.emit at 1. cbn [fst snd].
  unfold arbiter at 1.
  rewrite compare_extraction_record. fold arbiter. rewrite Hok.
  destruct (Nat.eqb (Dom.len body) 0); unfold Run.ret, Eff.emit;
    cbn [fst snd]; rewrite <- ?app_assoc; reflexivity.
Qed.

(** X12.  When the loader cannot parse the input, [extract] returns
    [None], for every choice of options and format, after the two
    records of the empty tree and of the discarded data; no exception
    is raised and no extractor is called. *)
Theorem extract_unparseable (fuel : nat) (filecontent : string)
  (o : options) (format : output_format) (settingsfile : option string)
  (config : config) (w : Run.world) :
  load_html S filecontent = None ->
  extract H X S fuel filecontent o format settingsfile config w =
  (Eff.Ok None,
   (fst w,
    (snd w ++ [Eff.Log "empty HTML tree"; Eff.Log "discarding data"])%list)).
Proof.
  intros Hload. unfold extract, bare_extraction, bare_extraction_try.
  rewrite Hload. destruct w as [st tr].
  unfold Run.bind, Run.except_ValueError, Run.emit, Run.on_record, Run.raise,
    Run.ret, Eff.emit.
  cbn [fst snd]. now rewrite <- app_assoc.
Qed.

End PipelineMore.

Ltac run_steps Hrun :=
  repeat first
    [ apply run_bind_ok in Hrun as (? & ? & ? & Hrun)
    | match type of Hrun with
      | (let (_, _) := ?x in _) _ = _ => destruct x
      | (match ?x with (_, _) => _ end) _ = _ => destruct x
      end ].

Section PipelineGates.
Import Pipeline.
Local Open Scope Z_scope.

Variable M : Type.
Variable H : tree_helpers.
Variable X : fallbacks.
Variable S : services M.

Lemma raise_not_ok {A B} (m : Run.Run A) e w (v : B) w' :
  Run.bind m (fun _ => Run.raise e) w <> (Eff.Ok v, w').
Proof.
  unfold Run.bind, Run.raise. destruct (m w) as [[a|e'] w1]; discriminate.
Qed.

Lemma bare_extraction_try_accepts (fuel : nat) (filecontent : string)
  (o : options) (format : output_format) (config : config)
  (raw_tree : option string) (w w' : Run.world) document postbody temp_text
  commentsbody :
  bare_extraction_try H X S fuel filecontent o format config raw_tree w
  = (Eff.Ok (document, postbody, temp_text, commentsbody), w') ->
  (is_txt format = false ->
   match url document with
   | Some u => Lx.mem u (url_blacklist o)
   | None => false
   end = false /\
   (with_metadata o = true \/ only_with_metadata o = true ->
    date document <> None /\ title document <> None /\
    url document <> None)) /\
  (forall max, max_tree_size o = Some max ->
               Z.of_nat (Dom.len postbody) <= max) /\
  (deduplicate o = true -> duplicate_test S postbody config = false).
Proof.
  intros Hrun. unfold bare_extraction_try in Hrun.
  destruct (load_html S filecontent) as [loaded|].
  2:{ now apply raise_not_ok in Hrun. }
  run_steps Hrun.
  unfold Run.ret in Hrun. injection Hrun as -> -> -> -> ->.
  repeat match goal with
         | Hx : _ = (Eff.Ok _, _) |- _ =>
             lazymatch type of Hx with
             | context [extract_metadata] => fail
             | context [max_tree_size] => fail
             | context [duplicate_test] => fail
             | _ => clear Hx
             end
         end.
  match goal with
  | Hm : context [extract_metadata] |- _ => rename Hm into Hmeta
  end.
  match goal with
  | Hm : context [max_tree_size] |- _ => rename Hm into Hsize
  end.
  match goal with
  | Hm : context [duplicate_test] |- _ => rename Hm into Hdup
  end.
  split; [|split].
  - intros Htxt.
    rewrite Htxt in Hmeta. cbn [negb] in Hmeta.
    apply run_bind_ok in Hmeta as (d & w1 & _ & Hmeta).
    destruct (match url d with
              | Some u => Lx.mem u (url_blacklist o)
              | None => false
              end) eqn:Hurl.
    { now apply raise_not_ok in Hmeta. }
    destruct ((if with_metadata o then with_metadata o
               else only_with_metadata o) && _) eqn:Honly.
    { now apply raise_not_ok in Hmeta. }
    unfold Run.ret in Hmeta. injection Hmeta as <- <-.
    split; [exact Hurl|]. intros Hflag.
    assert (Hon : (if with_metadata o then with_metadata o
                   else only_with_metadata o) = true).
    { destruct (with_metadata o); [reflexivity|].
      destruct Hflag; [discriminate | assumption]. }
    rewrite Hon in Honly. cbn [andb] in Honly.
    destruct (date d); [|discriminate].
    destruct (title d); [|discriminate].
    destruct (url d); [|discriminate].
    repeat split; discriminate.
  - intros max Hmax. rewrite Hmax in Hsize.
    match type of Hsize with
    | (if max <? Z.of_nat (Dom.len ?b) then _ else _) _ = _ =>
        destruct (Z.ltb_spec max (Z.of_nat (Dom.len b))) as [Hlt|Hle]
    end.
    { now apply raise_not_ok in Hsize. }
    unfold Run.ret in Hsize. injection Hsize as <- _. exact Hle.
  - intros Hdedup. rewrite Hdedup in Hdup. cbn [andb] in Hdup.
    destruct (duplicate_test S postbody config); [|reflexivity].
    now apply raise_not_ok in Hdup.
Qed.

Lemma bare_extraction_accepted (fuel : nat) (filecontent : string)
  (o : options) (format : output_format) (config : config)
  (raw_tree : option string) (w w' : Run.world) (doc : docmeta M) :
  bare_extraction H X S fuel filecontent o format config raw_tree w
  = (Eff.Ok (Some doc), w') ->
  exists document postbody temp_text commentsbody w1,
    bare_extraction_try H X S fuel filecontent o format config raw_tree w
    = (Eff.Ok (document, postbody, temp_text, commentsbody), w1) /\
    title doc = title document /\ date doc = date document /\
    url doc = url document /\
    (format <> python -> body doc = Some postbody).
Proof.
  unfold bare_extraction. intros Hrun.
  apply run_bind_ok in Hrun as (extracted & w1 & Htry & Hrun).
  unfold Run.except_ValueError in Htry.
  destruct (Run.bind (bare_extraction_try H X S fuel filecontent o format
                        config raw_tree) _ w) as [[x|e] w2] eqn:Hbody.
  2:{ destruct e; try discriminate.
      apply run_bind_ok in Htry as (? & ? & _ & Htry).
      unfold Run.ret in Htry. injection Htry as <- _. discriminate. }
  injection Htry as <- <-.
  apply run_bind_ok in Hbody as ([[[document postbody] temp_text] cb]
                                 & w3 & Htry & Hret).
  unfold Run.ret in Hret. injection Hret as <- <-.
  exists document, postbody, temp_text, cb, w3. split; [exact Htry|].
  destruct format; unfold Run.ret in Hrun; injection Hrun as <- _;
    cbn; repeat split; try reflexivity; intros Hn;
    first [reflexivity | now contradiction Hn].
Qed.

(** X14.  A document that [bare_extraction] returns in a format
    other than [txt] has no URL that is in [url_blacklist], and with
    [only_with_metadata] (or [with_metadata]) it has a date, a title and
    a URL. *)
Theorem bare_extraction_metadata_gate (fuel : nat) (filecontent : string)
  (o : options) (format : output_format) (config : config)
  (raw_tree : option string) (w w' : Run.world) (doc : docmeta M) :
  bare_extraction H X S fuel filecontent o format config raw_tree w
  = (Eff.Ok (Some doc), w') ->
  format <> txt ->
  (forall u, url doc = Some u -> ~ In u (url_blacklist o)) /\
  (with_metadata o = true \/ only_with_metadata o = true ->
   date doc <> None /\ title doc <> None /\ url doc <> None).
Proof.
  intros Hrun Hfmt.
  apply bare_extraction_accepted in Hrun
    as (document & postbody & temp_text & cb & w1 & Htry & Ht & Hd & Hu & _).
  apply bare_extraction_try_accepts in Htry as [Hmeta _].
  assert (Htxt : is_txt format = false) by (destruct format; try reflexivity; now contradiction Hfmt).
  destruct (Hmeta Htxt) as [Hbl Honly]. rewrite Ht, Hd, Hu. split.
  - intros u Hurl Hin. rewrite Hurl in Hbl.
    assert (Lx.mem u (url_blacklist o) = true); [|congruence].
    unfold Lx.mem. apply existsb_exists. exists u.
    split; [exact Hin | apply String.eqb_refl].
  - exact Honly.
Qed.

(** X15.  A document that [bare_extraction] returns in a format
    other than [python] carries its body; with [max_tree_size] set, the
    body has at most that many children, and with [deduplicate] set, the
    duplicate test on the body is negative. *)
Theorem bare_extraction_body_gate (fuel : nat) (filecontent : string)
  (o : options) (format : output_format) (config : config)
  (raw_tree : option string) (w w' : Run.world) (doc : docmeta M) :
  bare_extraction H X S fuel filecontent o format config raw_tree w
  = (Eff.Ok (Some doc), w') ->
  format <> python ->
  exists postbody,
    body doc = Some postbody /\
    (forall max, max_tree_size o = Some max ->
                 Z.of_nat (Dom.len postbody) <= max) /\
    (deduplicate o = true -> duplicate_test S postbody config = false).
Proof.
  intros Hrun Hfmt.
  apply bare_extraction_accepted in Hrun
    as (document & postbody & temp_text & cb & w1 & Htry & _ & _ & _ & Hb).
  apply bare_extraction_try_accepts in Htry as (_ & Hsize & Hdup).
  exists postbody. auto.
Qed.

End PipelineGates.

(** ** More on the element rewriter *)

Ltac closed_bool t :=
  let v := eval vm_compute in t in
  lazymatch v with
  | true => change t with true
  | false => change t with false
  end.

Ltac closed_tests :=
  repeat match goal with
         | |- context [String.eqb ?a ?b] => closed_bool (String.eqb a b)
         | |- context [Lx.mem ?a ?l] => closed_bool (Lx.mem a l)
         end;
  cbn [andb orb negb].

Section RewriterMore.
Import Lx StM Loop Rewriter.

Variable process_node : ref -> bool -> config -> St (option ref).
Variable handle_textnode :
  ref -> bool -> bool -> bool -> config -> St (option ref).
Variable clean_element_text :
  ref -> bool -> bool -> bool -> bool -> config -> St (option string).
Variable text_chars_test : option string -> bool.
Variable trim : string -> string.
Variable is_image_file : string -> bool.
Variable prune_unwanted_nodes : ref -> Rewriter.xpath_list -> St ref.
Variable link_density_test : ref -> St (bool * list string).
Variable link_density_test_tables : ref -> St bool.
Variable xpath : string -> ref -> St (list ref).
Variable BODY_XPATH : list string.
Variable COMMENTS_XPATH : list string.
Variable TAG_CATALOG : list string.

Lemma the_node_ok (r : ref) (st : store) (n : node) :
  node_of st r = Some n -> the_node r st = (Eff.Ok n, st).
Proof. intros H. unfold the_node. now rewrite H. Qed.

Lemma node_of_some_id (st : store) (r : ref) (n : node) :
  node_of st r = Some n -> id n = r.
Proof.
  unfold node_of. intros H. apply find_some in H as [_ H].
  now apply Nat.eqb_eq in H.
Qed.

Lemma getparent_node (st : store) (r p : ref) :
  getparent st r = Some p -> exists pn, node_of st p = Some pn.
Proof.
  unfold getparent. destruct (parent_node st r) as [pn|] eqn:Hp; [|discriminate].
  cbn. intros H. injection H as <-.
  unfold parent_node in Hp. apply find_some in Hp as [Hin _].
  unfold node_of. destruct (find (has_id (id pn)) (all_nodes st)) eqn:Hf;
    [eauto|].
  pose proof (@find_none _ _ _ Hf pn Hin) as Hn. unfold has_id in Hn.
  now rewrite Nat.eqb_refl in Hn.
Qed.

Lemma parent_or_previous_node (st : store) (r p : ref) :
  parent_or_previous st r = Some p -> exists pn, node_of st p = Some pn.
Proof.
  unfold parent_or_previous. destruct (getparent st r) as [q|] eqn:Hq.
  - intros H. injection H as <-. eapply getparent_node. exact Hq.
  - unfold getparent in Hq. unfold getprevious.
    destruct (parent_node st r); [discriminate | discriminate].
Qed.


Lemma bind_eval {A B} (m : St A) (k : A -> St B) st a st1 :
  m st = (Eff.Ok a, st1) -> bind m k st = k a st1.
Proof. intros H. unfold bind. now rewrite H. Qed.

Lemma bind_raise {A B} (m : St A) (k : A -> St B) st e st1 :
  m st = (Eff.Raise e, st1) -> bind m k st = (Eff.Raise e, st1).
Proof. intros H. unfold bind. now rewrite H. Qed.


Lemma protected_eval {B} (k : bool -> St B) (element : ref) (st : store) :
  (parent <- gets (fun st => getparent st element) ;;
   parent <- match parent with
             | None => gets (fun st => getprevious st element)
             | Some _ => ret parent
             end ;;
   protected <-
     match parent with
     | None => ret false
     | Some p => pn <- the_node p ;; ret (mem (ntag pn) FORMATTING_PROTECTED)
     end ;;
   k protected)%st st = k (formatting_protected st element) st.
Proof.
  unfold formatting_protected.
  destruct (parent_or_previous st element) as [p|] eqn:Hpar.
  - destruct (@parent_or_previous_node _ _ _ Hpar) as [pn Hpn]. rewrite Hpn.
    unfold parent_or_previous in Hpar. unfold bind, gets, ret.
    destruct (getparent st element) as [q|].
    + injection Hpar as ->. now rewrite (@the_node_ok _ _ _ Hpn).
    + rewrite Hpar. now rewrite (@the_node_ok _ _ _ Hpn).
  - unfold parent_or_previous in Hpar. unfold bind, gets, ret.
    destruct (getparent st element) as [q|]; [discriminate|].
    now rewrite Hpar.
Qed.

(** X16.  With [formatting] what [process_node] returned for the
    element: [handle_formatting] raises [TypeError] when [formatting]
    is [None], the element has a child and its parent (or previous
    sibling, if it has no parent) is missing or not tagged with one of
    [FORMATTING_PROTECTED]; in every other case it returns without an
    exception. *)
Theorem handle_formatting_TypeError (element : ref) (dedupbool : bool)
  (config : config) (st st1 : store) (formatting : option ref) (e : node) :
  process_node element dedupbool config st = (Eff.Ok formatting, st1) ->
  node_of st1 element = Some e ->
  let run := handle_formatting process_node element dedupbool config st in
  (formatting = None /\ kids e <> [] /\
   formatting_protected st1 element = false ->
   fst run = Eff.Raise Eff.TypeError) /\
  (~ (formatting = None /\ kids e <> [] /\
      formatting_protected st1 element = false) ->
   exists result, fst run = Eff.Ok result).
Proof.
  intros Hp He. cbv zeta. unfold handle_formatting.
  rewrite (@bind_eval _ _ _ _ _ _ _ Hp). unfold len.
  rewrite (@bind_eval _ _ _ _ _ _ _
             (@bind_eval _ _ _ _ _ _ _ (@the_node_ok _ _ _ He))).
  unfold ret at 1.
  split.
  - intros (-> & Hk & Hf).
    replace (Nat.eqb (List.length (kids e)) 0) with false
      by (destruct (kids e); [congruence | reflexivity]).
    cbn [andb]. rewrite protected_eval, Hf. reflexivity.
  - intros Hn.
    destruct (Nat.eqb (List.length (kids e)) 0
              && match formatting with None => true | Some _ => false end)
      eqn:Hguard; [eexists; reflexivity|].
    rewrite protected_eval.
    destruct (formatting_protected st1 element) eqn:Hf; cbn [negb].
    + eexists. reflexivity.
    + destruct formatting as [f|]; [eexists; reflexivity|].
      exfalso. apply Hn. split; [reflexivity|]. split; [|reflexivity].
      rewrite andb_true_r in Hguard. apply Nat.eqb_neq in Hguard.
      intros Hk. rewrite Hk in Hguard. now apply Hguard.
Qed.


(** X17.  [handle_other_elements] returns [None], and changes
    nothing, for every element whose tag is not [div]; and an element it
    returns is never tagged [div], has no attributes and has a text that
    passes [text_chars_test], whatever [handle_textnode] does. *)
Theorem handle_other_elements_result (element : ref)
  (potential_tags : list string) (dedupbool : bool) (config : config)
  (st st' : store) (e : node) :
  node_of st element = Some e ->
  let run := handle_other_elements handle_textnode text_chars_test element
               potential_tags dedupbool config st in
  (ntag e <> "div" -> run = (Eff.Ok None, st)) /\
  (forall pe, run = (Eff.Ok (Some pe), st') ->
     exists n, node_of st' pe = Some n /\ ntag n <> "div" /\
               nattrib n = [] /\ text_chars_test (ntext n) = true).
Proof.
  intros He. cbv zeta. unfold handle_other_elements.
  rewrite (@bind_eval _ _ _ _ _ _ _ (@the_node_ok _ _ _ He)). split.
  - intros Hne. destruct (negb (mem (ntag e) potential_tags)); [reflexivity|].
    apply String.eqb_neq in Hne. now rewrite Hne.
  - intros pe. destruct (negb (mem (ntag e) potential_tags)); [discriminate|].
    destruct (String.eqb (ntag e) "div"); [|discriminate].
    intros Hrun. apply bind_ok in Hrun as ([pe'|] & s1 & _ & Hrun);
      [|discriminate].
    apply bind_ok in Hrun as (pn & s2 & Hpn & Hrun).
    unfold the_node in Hpn.
    destruct (node_of s1 pe') as [pn'|] eqn:Hnode; [|discriminate].
    injection Hpn as -> ->.
    destruct (text_chars_test (ntext pn)) eqn:Htest; [|discriminate].
    apply bind_ok in Hrun as ([] & s3 & Hclear & Hrun).
    apply bind_ok in Hrun as ([] & s4 & Htag & Hrun).
    unfold ret in Hrun. injection Hrun as -> ->.
    unfold modify in Hclear. injection Hclear as <-.
    assert (Hcleared :
      node_of (clear_attrib pe s2) pe =
      Some (Node (id pn) (ntag pn) (ntext pn) (ntail pn) [] (kids pn))).
    { unfold clear_attrib. rewrite node_of_update by reflexivity.
      now rewrite Hnode. }
    destruct (String.eqb (ntag pn) "div") eqn:Hdiv.
    + unfold modify in Htag. injection Htag as <-.
      unfold set_tag. rewrite node_of_update by reflexivity.
      rewrite Hcleared. cbn. eexists. split; [reflexivity|].
      cbn. repeat split; [discriminate | exact Htest].
    + unfold ret in Htag. injection Htag as <-. rewrite Hcleared.
      eexists. split; [reflexivity|]. cbn.
      apply String.eqb_neq in Hdiv. repeat split; assumption.
Qed.

Lemma flat_text_ok (body : ref) (st st' : store) (t : string) :
  flat_text trim body st = (Eff.Ok t, st') ->
  st' = st /\
  exists n, node_of st body = Some n /\
            t = trim (Py.join " " (Dom.itertext (reify n))).
Proof.
  unfold flat_text, bind, the_node.
  destruct (node_of st body) as [n|]; [|discriminate].
  unfold ret. intros H. injection H as <- <-. eauto.
Qed.

(** X19.  When [extract_content] returns, the body is the
    element it made at its start, the length it returns is the length
    of the text it returns, and [sure_thing] is true only if that length
    is at least [MIN_EXTRACTED_SIZE]. *)
Theorem extract_content_sure_thing (fuel : nat) (tree : ref)
  (favor_precision favor_recall include_tables include_images include_links
   deduplicate : bool) (config : config) (raw_tree : option ref)
  (st st' : store) (result_body : ref) (temp_text : string) (len_text : nat)
  (sure_thing : bool) :
  Rewriter.extract_content process_node handle_textnode clean_element_text
    text_chars_test trim is_image_file prune_unwanted_nodes link_density_test
    link_density_test_tables xpath BODY_XPATH TAG_CATALOG fuel tree
    favor_precision favor_recall include_tables include_images include_links
    deduplicate config raw_tree st
  = (Eff.Ok (result_body, temp_text, len_text, sure_thing), st') ->
  result_body = fresh st /\
  len_text = String.length temp_text /\
  (sure_thing = true ->
   (MIN_EXTRACTED_SIZE config <= Z.of_nat len_text)%Z).
Proof.
  unfold Rewriter.extract_content. intros Hrun.
  apply bind_ok in Hrun as (rb0 & s1 & Hnew & Hrun).
  apply bind_ok in Hrun as (tags & s2 & _ & Hrun).
  apply bind_ok in Hrun as (text0 & s3 & Htext & Hrun).
  apply bind_ok in Hrun as (n0 & s4 & _ & Hrun).
  apply bind_ok in Hrun as ([[rb text1] sure] & s5 & Hif & Hrun).
  apply bind_ok in Hrun as ([] & s6 & _ & Hrun).
  apply bind_ok in Hrun as ([] & s7 & _ & Hrun).
  unfold ret in Hrun. injection Hrun as <- <- <- <- <-.
  unfold state, new_element in Hnew. injection Hnew as <- <-.
  split; [|split; [reflexivity|]].
  - destruct (_ || _) in Hif.
    + apply bind_ok in Hif as (rb' & s8 & Hrec & Hif).
      apply bind_ok in Hif as (t' & s9 & _ & Hif).
      unfold ret in Hif. injection Hif as <- _ _ _.
      unfold recover_wild_text in Hrec.
      apply bind_ok in Hrec as (? & ? & _ & Hrec).
      apply bind_ok in Hrec as (? & ? & _ & Hrec).
      apply bind_ok in Hrec as (? & ? & _ & Hrec).
      apply bind_ok in Hrec as (? & ? & _ & Hrec).
      apply bind_ok in Hrec as (? & ? & _ & Hrec).
      unfold ret in Hrec. now injection Hrec as <- _.
    + unfold ret in Hif. now injection Hif as <- _ _ _.
  - intros ->.
    destruct (Nat.eqb n0 0) in Hif; cbn [orb] in Hif.
    { apply bind_ok in Hif as (? & ? & _ & Hif).
      apply bind_ok in Hif as (? & ? & _ & Hif).
      unfold ret in Hif. discriminate. }
    destruct (Z.ltb_spec (Z.of_nat (String.length text0))
                (MIN_EXTRACTED_SIZE config)) as [Hlt|Hge].
    { apply bind_ok in Hif as (? & ? & _ & Hif).
      apply bind_ok in Hif as (? & ? & _ & Hif).
      unfold ret in Hif. discriminate. }
    unfold ret in Hif. injection Hif as _ <- _. exact Hge.
Qed.


Lemma following_incl (r : ref) (l : list node) : incl (following r l) l.
Proof.
  induction l as [|n rest IH]; cbn [following]; [apply incl_refl|].
  destruct (has_id r n).
  - apply incl_tl, incl_refl.
  - apply incl_tl, IH.
Qed.

Lemma find_none_forall {A} (f : A -> bool) (l : list A) :
  (forall x, In x l -> f x = false) -> find f l = None.
Proof.
  induction l as [|x rest IH]; intros H; [reflexivity|].
  cbn [find]. rewrite (H x (or_introl eq_refl)). apply IH.
  intros y Hy. apply H. now right.
Qed.

Lemma iter_first_none (top : ref) (tags : list string) (st : store)
  (n : node) :
  node_of st top = Some n ->
  (forall d, In d (subnodes n) -> matches tags d = false) ->
  iter_first top tags st = None.
Proof.
  intros Hn Hno. unfold iter_first. rewrite Hn.
  rewrite (Hno n) by (destruct n; now left).
  unfold iter_next. rewrite Hn.
  assert (Hself : existsb (has_id top) (subnodes n) = true).
  { destruct n as [i t x y a ks]. cbn [subnodes existsb].
    apply node_of_some_id in Hn. cbn in Hn. subst.
    unfold has_id at 1. cbn [id]. now rewrite Nat.eqb_refl. }
  rewrite Hself.
  rewrite find_none_forall; [reflexivity|].
  intros d Hd. apply Hno. eapply following_incl. exact Hd.
Qed.

(** X4.  On a subtree that holds no element of the target tag,
    [delete_by_link_density] returns the subtree and leaves every tree
    as it is, with or without backtracking and for every behaviour of
    the link density test (which is not called). *)
Theorem delete_by_link_density_no_target (fuel : nat) (subtree : ref)
  (tagname : string) (backtracking : bool) (st : store) (n : node) :
  node_of st subtree = Some n ->
  (forall d, In d (subnodes n) -> ntag d <> tagname) ->
  delete_by_link_density trim link_density_test fuel subtree tagname
    backtracking st
  = (Eff.Ok subtree, st).
Proof.
  intros Hn Hno. unfold delete_by_link_density, map_iter.
  assert (Hfirst : iter_first subtree [tagname] st = None).
  { eapply iter_first_none; [exact Hn|]. intros d Hd.
    unfold matches, mem. cbn [existsb]. rewrite orb_false_r.
    apply String.eqb_neq. now apply Hno. }
  unfold bind at 1. unfold bind at 1. unfold gets at 1. rewrite Hfirst.
  destruct fuel; cbn [walk_with]; unfold ret at 1;
    destruct backtracking; reflexivity.
Qed.

(** X18.  For a [table] or a [graphic] element whose tag is not
    among the potential tags, [handle_textelem] returns [None] and
    leaves every tree as it is. *)
Theorem handle_textelem_unwanted (fuel : nat) (element : ref)
  (potential_tags tags_to_enumerate : list string) (dedupbool : bool)
  (config : config) (st : store) (e : node) :
  node_of st element = Some e ->
  ntag e = "table" \/ ntag e = "graphic" ->
  mem (ntag e) potential_tags = false ->
  handle_textelem process_node handle_textnode clean_element_text
    text_chars_test trim is_image_file (S fuel) element potential_tags
    tags_to_enumerate dedupbool config st
  = (Eff.Ok None, st).
Proof.
  intros He Htag Hmem. unfold handle_textelem. cbn [rewriter].
  destruct (rewriter process_node handle_textnode clean_element_text
              text_chars_test trim is_image_file fuel) as [[pc tb] te].
  cbn [snd]. unfold handle_textelem_body.
  rewrite (@bind_eval _ _ _ _ _ _ _ (@the_node_ok _ _ _ He)).
  unfold handle_other_elements.
  destruct Htag as [Ht|Ht]; rewrite Ht in *; closed_tests;
    rewrite ?Hmem; cbn [andb];
    rewrite (@bind_eval _ _ _ _ _ _ _ (@the_node_ok _ _ _ He));
    rewrite Ht, Hmem; reflexivity.
Qed.

Lemma try_comments_none (exprs : list string) (tree comments_body : ref)
  (potential_tags : list string) (dedupbool : bool) (config : config)
  (st : store) :
  (forall expr, In expr exprs -> xpath expr tree st = (Eff.Ok [], st)) ->
  try_comments_xpaths handle_textnode prune_unwanted_nodes xpath exprs tree
    comments_body potential_tags dedupbool config st
  = (Eff.Ok tt, st).
Proof.
  induction exprs as [|expr rest IH]; intros H; [reflexivity|].
  cbn [try_comments_xpaths].
  rewrite (@bind_eval _ _ _ _ _ _ _ (H expr (or_introl eq_refl))).
  apply IH. intros e He. apply H. now right.
Qed.

(** X21.  In a store whose next reference is not in use: when none
    of the expressions of [COMMENTS_XPATH] finds an element,
    [extract_comments] returns a new, empty body, [trim('')] as text
    with its length, and the tree it was given; apart from the new body
    the trees stay as they are. *)
Theorem extract_comments_none (tree : ref) (dedupbool : bool)
  (config : config) (st : store) :
  node_of st (fresh st) = None ->
  (forall expr st', In expr COMMENTS_XPATH ->
                    xpath expr tree st' = (Eff.Ok [], st')) ->
  extract_comments handle_textnode trim prune_unwanted_nodes xpath
    COMMENTS_XPATH TAG_CATALOG tree dedupbool config st
  = (Eff.Ok (fresh st, trim "", String.length (trim ""), tree),
     snd (new_element "body" st)).
Proof.
  intros Hfresh Hx. unfold extract_comments.
  unfold bind at 1. unfold state at 1. cbn [new_element].
  rewrite (@bind_eval _ _ _ _ _ _ _
             (@try_comments_none COMMENTS_XPATH tree (fresh st) TAG_CATALOG
                dedupbool config _ (fun e He => Hx e _ He))).
  unfold flat_text.
  assert (Hnode :
    node_of (Store (roots st ++ [Node (fresh st) "body" None None [] []])
                   (S (fresh st))) (fresh st)
    = Some (Node (fresh st) "body" None None [] [])).
  { unfold node_of, all_nodes in *. cbn [roots].
    rewrite flat_map_app, find_app, Hfresh. cbn.
    unfold has_id. cbn [id]. now rewrite Nat.eqb_refl. }
  rewrite (@bind_eval _ _ _ _ _ _ _
             (@bind_eval _ _ _ _ _ _ _ (@the_node_ok _ _ _ Hnode))).
  reflexivity.
Qed.

End RewriterMore.

Section RewriterResults.
Import Lx StM Loop Rewriter.

Variable process_node : ref -> bool -> config -> St (option ref).
Variable handle_textnode :
  ref -> bool -> bool -> bool -> config -> St (option ref).
Variable clean_element_text :
  ref -> bool -> bool -> bool -> bool -> config -> St (option string).
Variable text_chars_test : option string -> bool.
Variable trim : string -> string.
Variable is_image_file : string -> bool.

Lemma the_node_inv (r : ref) (st st' : store) (n : node) :
  the_node r st = (Eff.Ok n, st') -> st' = st /\ node_of st r = Some n.
Proof.
  unfold the_node. destruct (node_of st r); [|discriminate].
  intros H. now injection H as <- <-.
Qed.

Lemma len_inv (r : ref) (st st' : store) (k : nat) :
  len r st = (Eff.Ok k, st') ->
  st' = st /\ exists n, node_of st r = Some n /\ k = List.length (kids n).
Proof.
  unfold len. intros H. apply bind_ok in H as (n & s1 & Hn & H).
  apply the_node_inv in Hn as [-> Hn]. unfold ret in H.
  injection H as <- <-. eauto.
Qed.

Lemma text_content_inv (r : ref) (st st' : store) (t : string) :
  text_content r st = (Eff.Ok t, st') ->
  st' = st /\
  exists n, node_of st r = Some n /\ t = Dom.text_content (reify n).
Proof.
  unfold text_content. intros H. apply bind_ok in H as (n & s1 & Hn & H).
  apply the_node_inv in Hn as [-> Hn]. unfold ret in H.
  injection H as <- <-. eauto.
Qed.

(** X20.  When the loop that removes the trailing titles of
    [extract_content] is over, the body has no child left or its last
    child is not tagged [fw] or [head]. *)
Theorem remove_trailing_titles_result (fuel : nat) :
  forall (result_body : ref) (st st' : store),
  remove_trailing_titles fuel result_body st = (Eff.Ok tt, st') ->
  exists n, node_of st' result_body = Some n /\
            forall last, hd_error (rev (kids n)) = Some last ->
                         mem (ntag last) HEADINGS = false.
Proof.
  induction fuel as [|fuel IH]; intros rb st st' Hrun; [discriminate|].
  cbn [remove_trailing_titles] in Hrun.
  apply bind_ok in Hrun as (n & s1 & Hn & Hrun).
  apply the_node_inv in Hn as [-> Hn].
  destruct (rev (kids n)) as [|last rest] eqn:Hrev.
  - unfold ret in Hrun. injection Hrun as <-. exists n.
    split; [exact Hn|]. rewrite Hrev. discriminate.
  - destruct (mem (ntag last) HEADINGS) eqn:Hm.
    + apply bind_ok in Hrun as ([] & s2 & _ & Hrun). now apply IH in Hrun.
    + unfold ret in Hrun. injection Hrun as <-. exists n.
      split; [exact Hn|]. rewrite Hrev. cbn. intros l Hl.
      now injection Hl as <-.
Qed.

(** X23.  An element that [handle_lists] returns has at least one
    child, and the concatenation of its texts passes
    [text_chars_test]. *)
Theorem handle_lists_result (handle_paragraphs_child : paragraphs_child_t)
  (fuel : nat) (element : ref) (potential_tags : list string)
  (dedupbool : bool) (config : config) (tags_to_enumerate : list string)
  (st st' : store) (result : ref) :
  handle_lists text_chars_test handle_paragraphs_child fuel element
    potential_tags dedupbool config tags_to_enumerate st
  = (Eff.Ok (Some result), st') ->
  exists n, node_of st' result = Some n /\ kids n <> [] /\
            text_chars_test (Some (Dom.text_content (reify n))) = true.
Proof.
  unfold handle_lists. intros Hrun.
  apply bind_ok in Hrun as (e & s1 & _ & Hrun).
  apply bind_ok in Hrun as (pe & s2 & _ & Hrun).
  apply bind_ok in Hrun as ([] & s3 & _ & Hrun).
  apply bind_ok in Hrun as ([] & s4 & _ & Hrun).
  apply bind_ok in Hrun as (k & s5 & Hlen & Hrun).
  apply bind_ok in Hrun as (joined & s6 & Htext & Hrun).
  apply len_inv in Hlen as [-> (n & Hn & ->)].
  apply text_content_inv in Htext as [-> (n' & Hn' & ->)].
  rewrite Hn in Hn'. injection Hn' as <-.
  destruct (Nat.ltb 0 (List.length (kids n))) eqn:Hk; [|discriminate].
  destruct (text_chars_test _) eqn:Ht; [|discriminate].
  unfold ret in Hrun. injection Hrun as <- <-.
  exists n. split; [exact Hn|]. split; [|exact Ht].
  apply Nat.ltb_lt in Hk. destruct (kids n); [cbn in Hk; lia | discriminate].
Qed.

(** X24.  A table that [handle_table] returns is the element made
    at the start of the call, and it has at least one child. *)
Theorem handle_table_result (fuel : nat) (table_elem : ref)
  (potential_tags : list string) (dedupbool : bool) (config : config)
  (tags_to_enumerate : list string) (st st' : store) (result : ref) :
  handle_table process_node handle_textnode clean_element_text
    text_chars_test trim is_image_file fuel table_elem potential_tags
    dedupbool config tags_to_enumerate st
  = (Eff.Ok (Some result), st') ->
  result = fresh st /\
  exists n, node_of st' result = Some n /\ kids n <> [].
Proof.
  unfold handle_table. destruct fuel as [|fuel]; [discriminate|].
  cbn [rewriter].
  destruct (rewriter process_node handle_textnode clean_element_text
              text_chars_test trim is_image_file fuel) as [[pc tb] te].
  cbn [fst snd]. unfold handle_table_body. intros Hrun.
  apply bind_ok in Hrun as (newtable & s1 & Hnew & Hrun).
  apply bind_ok in Hrun as (newrow & s2 & _ & Hrun).
  apply bind_ok in Hrun as ([] & s3 & _ & Hrun).
  apply bind_ok in Hrun as (first & s4 & _ & Hrun).
  apply bind_ok in Hrun as ([newrow' i] & s5 & _ & Hrun).
  apply bind_ok in Hrun as (k & s6 & _ & Hrun).
  apply bind_ok in Hrun as ([] & s7 & _ & Hrun).
  apply bind_ok in Hrun as (k' & s8 & Hlen & Hrun).
  apply len_inv in Hlen as [-> (n & Hn & ->)].
  destruct (Nat.ltb 0 (List.length (kids n))) eqn:Hk; [|discriminate].
  unfold ret in Hrun. injection Hrun as <- <-.
  unfold state, new_element in Hnew. injection Hnew as <- _.
  split; [reflexivity|]. exists n. split; [exact Hn|].
  apply Nat.ltb_lt in Hk. destruct (kids n); [cbn in Hk; lia | discriminate].
Qed.

End RewriterResults.

Section QuoteResults.
Import Lx StM Loop Rewriter.

Variable process_node : ref -> bool -> config -> St (option ref).
Variable handle_textnode :
  ref -> bool -> bool -> bool -> config -> St (option ref).
Variable text_chars_test : option string -> bool.

(** X25.  In an element that [handle_quotes] returns, no element
    under the root is tagged [quote]. *)
Theorem handle_quotes_result (fuel : nat) (element : ref) (dedupbool : bool)
  (config : config) (st st' : store) (result : ref) :
  handle_quotes process_node text_chars_test fuel element dedupbool config st
  = (Eff.Ok (Some result), st') ->
  exists n, node_of st' result = Some n /\
            forall d, In d (flat_map subnodes (kids n)) ->
                      ntag d <> "quote".
Proof.
  unfold handle_quotes. intros Hrun.
  apply bind_ok in Hrun as (e & s1 & _ & Hrun).
  apply bind_ok in Hrun as (pe & s2 & _ & Hrun).
  apply bind_ok in Hrun as ([] & s3 & _ & Hrun).
  apply bind_ok in Hrun as (k & s4 & Hlen & Hrun).
  apply bind_ok in Hrun as (joined & s5 & Htext & Hrun).
  apply len_inv in Hlen as [-> (n & Hn & ->)].
  apply text_content_inv in Htext as [-> _].
  destruct (_ && _); [|discriminate].
  apply bind_ok in Hrun as ([] & s6 & Hstrip & Hrun).
  unfold ret in Hrun. injection Hrun as <- <-.
  unfold modify in Hstrip. injection Hstrip as <-.
  exists (strip_tags_node ["quote"] n). split.
  - unfold strip_tags. rewrite node_of_update by apply strip_tags_node_id.
    now rewrite Hn.
  - assert (Htrue : Forall (all_tags (fun _ => True)) (kids n)).
    { apply descendants_all_tags. auto. }
    pose proof (@strip_tags_clean ["quote"] _ _ Htrue) as Hclean.
    rewrite descendants_all_tags in Hclean.
    intros d Hd Heq. destruct (Hclean d Hd) as [_ Hm].
    rewrite Heq in Hm. discriminate.
Qed.

(** X26.  An element that [handle_titles] returns has a text that
    passes [text_chars_test]. *)
Theorem handle_titles_result (element : ref) (dedupbool : bool)
  (config : config) (st st' : store) (result : ref) :
  handle_titles process_node handle_textnode text_chars_test element
    dedupbool config st
  = (Eff.Ok (Some result), st') ->
  exists n, node_of st' result = Some n /\
            text_chars_test (ntext n) = true.
Proof.
  unfold handle_titles. intros Hrun.
  apply bind_ok in Hrun as (k & s1 & _ & Hrun).
  apply bind_ok in Hrun as ([t|] & s2 & _ & Hrun); [|discriminate].
  apply bind_ok in Hrun as (tn & s3 & Htn & Hrun).
  apply the_node_inv in Htn as [-> Htn].
  destruct (text_chars_test (ntext tn)) eqn:Ht; [|discriminate].
  unfold ret in Hrun. injection Hrun as <- <-. eauto.
Qed.

End QuoteResults.

Lemma raise_other {A B} (e : Eff.exn) :
  @Eff.Raise A e <> Eff.Raise Eff.ValueError ->
  @Eff.Raise B e <> Eff.Raise Eff.ValueError.
Proof. intros Hne Heq. injection Heq as ->. now apply Hne. Qed.

Section NoValueError.
Import Pipeline.

Variable M : Type.
Variable H : tree_helpers.
Variable X : fallbacks.
Variable S : services M.

Lemma walk_no_ValueError (fuel : nat) (next : Lx.ref -> Lx.store -> option Lx.ref)
  (body : Lx.ref -> StM.St unit) :
  (forall c st, fst (body c st) <> Eff.Raise Eff.ValueError) ->
  forall cur st, fst (Loop.walk fuel next cur body st) <> Eff.Raise Eff.ValueError.
Proof.
  intros Hbody. induction fuel as [|fuel IH]; intros [c|] st; cbn [Loop.walk];
    try discriminate.
  unfold StM.bind at 1. unfold StM.gets. unfold StM.bind.
  specialize (Hbody c st).
  destruct (body c st) as [[[]|e] s1]; cbn [fst] in *; [apply IH|].
  exact Hbody.
Qed.

Lemma last_cleaning_no_ValueError (fuel : nat) (b : Dom.element)
  (w : Run.world) :
  fst (last_cleaning fuel b w) <> Eff.Raise Eff.ValueError.
Proof.
  unfold last_cleaning, Run.on_store.
  destruct w as [st tr]. cbn [fst snd].
  match goal with
  | |- fst (let (r, st') := ?m st in _) <> _ =>
      assert (Hm : fst (m st) <> Eff.Raise Eff.ValueError);
      [|destruct (m st); exact Hm]
  end.
  unfold StM.bind at 1. unfold StM.state.
  destruct (Lx.alloc b st) as [root s1].
  unfold StM.bind at 1. unfold Loop.for_iter. unfold StM.bind at 1.
  unfold StM.gets at 1.
  match goal with
  | |- fst (match Loop.walk ?f ?n ?c ?bd ?s with _ => _ end) <> _ =>
      pose proof (@walk_no_ValueError f n bd) as Hw;
      specialize (fun Hb => Hw Hb c s);
      destruct (Loop.walk f n c bd s) as [[[]|e] s2]
  end.
  - unfold StM.bind, Loop.the_node.
    destruct (Lx.node_of s2 root); discriminate.
  - cbn [fst] in *. intros Heq. injection Heq as ->.
    apply Hw; [|reflexivity]. intros c st0.
    unfold StM.bind, Loop.the_node.
    destruct (Lx.node_of st0 c) as [n|]; [|discriminate].
    destruct (_ && _); [|discriminate].
    unfold StM.gets. destruct (Lx.getparent st0 c); discriminate.
Qed.

Lemma bare_extraction_no_ValueError (fuel : nat) (filecontent : string)
  (o : options) (format : output_format) (config : config)
  (raw_tree : option string) (w : Run.world) :
  fst (bare_extraction H X S fuel filecontent o format config raw_tree w)
  <> Eff.Raise Eff.ValueError.
Proof.
  unfold bare_extraction. unfold Run.bind at 1.
  unfold Run.except_ValueError.
  match goal with
  | |- context [match ?m w with _ => _ end] => destruct (m w) as [[x|e] w1]
  end.
  - destruct x as [[[[document postbody] temp_text] cb]|];
      [destruct format|]; discriminate.
  - destruct e; discriminate.
Qed.

(** X13.  [extract] never raises [ValueError], whatever the
    document, the options and the behaviour of the helpers that work on
    the tree: every [ValueError] raised in the body of [bare_extraction],
    by its own checks or by a helper, is caught there, and the core
    raises none after it (the functions that format the output are
    taken to return). *)
Theorem extract_no_ValueError (fuel : nat) (filecontent : string)
  (o : options) (format : output_format) (settingsfile : option string)
  (config : config) (w : Run.world) :
  fst (extract H X S fuel filecontent o format settingsfile config w)
  <> Eff.Raise Eff.ValueError.
Proof.
  unfold extract. unfold Run.bind at 1.
  pose proof (bare_extraction_no_ValueError fuel filecontent o format
                (use_config S settingsfile config) None w) as Hbare.
  destruct (bare_extraction H X S fuel filecontent o format
              (use_config S settingsfile config) None w)
    as [[[document|]|e] w1]; cbn [fst] in *;
    [|discriminate|exact (raise_other Hbare)].
  unfold Run.bind at 1. unfold determine_returnstring.
  destruct (is_xml format).
  - match goal with
    | |- context [body ?d] => destruct (body d) as [b|]
    end; [|discriminate].
    unfold Run.bind at 1. pose proof (last_cleaning_no_ValueError fuel b w1).
    destruct (last_cleaning fuel b w1) as [[b'|e] w2]; cbn [fst] in *;
      [discriminate | eapply raise_other; eassumption].
  - destruct format; try discriminate;
      match goal with
      | |- context [commentsbody ?d] => destruct (commentsbody d)
      end; discriminate.
Qed.

End NoValueError.

Section CommentResults.
Import Lx StM Loop Rewriter.

Variable handle_textnode :
  ref -> bool -> bool -> bool -> config -> St (option ref).

(** X22.  [process_comments_node] returns [None], and changes
    nothing, for an element whose tag is not among the potential tags;
    an element it returns comes from an element with such a tag and has
    no attributes, whatever [handle_textnode] does. *)
Theorem process_comments_node_result (elem : ref)
  (potential_tags : list string) (dedupbool : bool) (config : config)
  (st st' : store) (e : node) :
  node_of st elem = Some e ->
  let run := process_comments_node handle_textnode elem potential_tags
               dedupbool config st in
  (mem (ntag e) potential_tags = false -> run = (Eff.Ok None, st)) /\
  (forall pe, run = (Eff.Ok (Some pe), st') ->
     mem (ntag e) potential_tags = true /\
     forall n, node_of st' pe = Some n -> nattrib n = []).
Proof.
  intros He. cbv zeta. unfold process_comments_node.
  rewrite (@bind_eval _ _ _ _ _ _ _ (@the_node_ok _ _ _ He)). split.
  - intros ->. reflexivity.
  - intros pe. destruct (mem (ntag e) potential_tags); [|discriminate].
    intros Hrun. split; [reflexivity|].
    apply bind_ok in Hrun as ([pe'|] & s1 & _ & Hrun); [|discriminate].
    apply bind_ok in Hrun as ([] & s2 & Hclear & Hrun).
    unfold ret in Hrun. injection Hrun as -> ->.
    unfold modify in Hclear. injection Hclear as <-.
    intros n Hn. unfold clear_attrib in Hn.
    rewrite node_of_update in Hn by reflexivity.
    destruct (node_of s1 pe); [|discriminate].
    cbn in Hn. now injection Hn as <-.
Qed.

End CommentResults.

(** ** Updates of one element leave the others as they are *)

Section StoreFrames.
Import Lx.

Lemma map_node_absent (f : node -> node) (r : ref) :
  forall n, (forall d, In d (subnodes n) -> has_id r d = false) ->
            map_node f r n = n.
Proof.
  induction n as [i t x y a ks IH] using node_induction. intros Habs.
  cbn [map_node]. rewrite (Habs _ (or_introl eq_refl)).
  cbn [id ntag ntext ntail nattrib kids]. f_equal.
  assert (Hall : forall k, In k ks -> map_node f r k = k).
  { intros k Hk. rewrite Forall_forall in IH. apply IH; [exact Hk|].
    intros d Hd. apply Habs. right. cbn [kids]. apply in_flat_map. eauto. }
  rewrite <- (map_id ks) at 2. apply map_ext_in. exact Hall.
Qed.

Lemma Forall2_same {A} (R : A -> A -> Prop) (l : list A) :
  (forall x, R x x) -> Forall2 R l l.
Proof. intros H. induction l; constructor; auto. Qed.

Lemma subnodes_map_node (f : node -> node) (p : ref) :
  (forall n, id (f n) = id n) -> (forall n, kids (f n) = kids n) ->
  forall n, Forall2 (touched f p) (subnodes (map_node f p n)) (subnodes n).
Proof.
  intros Hid Hkids.
  induction n as [i t x y a ks IH] using node_induction.
  cbn [map_node]. destruct (has_id p (Node i t x y a ks)) eqn:Hp.
  - destruct (f (Node i t x y a ks)) as [i' t' x' y' a' ks'] eqn:Hf.
    assert (Hk : ks' = ks).
    { pose proof (Hkids (Node i t x y a ks)) as H. rewrite Hf in H. exact H. }
    subst ks'. cbn [subnodes kids]. constructor.
    + right. cbn [map_node]. rewrite Hp. now rewrite Hf.
    + apply Forall2_same. intros d. now left.
  - cbn [subnodes kids id ntag ntext ntail nattrib]. constructor.
    + right. cbn [map_node]. rewrite Hp. reflexivity.
    + clear Hp. induction IH as [|k rest Hk _ IHrest]; [constructor|].
      cbn [map flat_map]. apply Forall2_app; [exact Hk | exact IHrest].
Qed.

Lemma all_nodes_update (f : node -> node) (p : ref) (st : store) :
  (forall n, id (f n) = id n) -> (forall n, kids (f n) = kids n) ->
  Forall2 (touched f p) (all_nodes (update f p st)) (all_nodes st).
Proof.
  intros Hid Hkids. unfold all_nodes, update. cbn [roots].
  induction (roots st) as [|root rest IH]; [constructor|].
  cbn [map flat_map]. apply Forall2_app; [|exact IH].
  now apply subnodes_map_node.
Qed.

Lemma map_node_id (f : node -> node) (p : ref) (n : node) :
  (forall n, id (f n) = id n) -> id (map_node f p n) = id n.
Proof.
  intros Hid. destruct n as [i t x y a ks]. cbn [map_node].
  destruct (has_id p (Node i t x y a ks)); [apply Hid | reflexivity].
Qed.

Lemma find_touched (f : node -> node) (p r : ref) (l' l : list node) :
  (forall n, id (f n) = id n) ->
  Forall2 (touched f p) l' l ->
  match find (has_id r) l with
  | Some d => exists d', find (has_id r) l' = Some d' /\ touched f p d' d
  | None => find (has_id r) l' = None
  end.
Proof.
  intros Hid H. induction H as [|new old l' l Ht _ IH]; [reflexivity|].
  cbn [find].
  assert (Hsame : has_id r new = has_id r old).
  { unfold has_id. destruct Ht as [->| ->]; [reflexivity|].
    now rewrite map_node_id. }
  rewrite Hsame. destruct (has_id r old); [eauto | exact IH].
Qed.

Lemma node_of_update_other (f : node -> node) (p r : ref) (st : store)
  (d : node) :
  (forall n, id (f n) = id n) -> (forall n, kids (f n) = kids n) ->
  node_of st r = Some d ->
  (forall x, In x (subnodes d) -> has_id p x = false) ->
  node_of (update f p st) r = Some d.
Proof.
  intros Hid Hkids Hd Habs. unfold node_of in *.
  pose proof (@find_touched f p r _ _ Hid
                (@all_nodes_update f p st Hid Hkids)) as H.
  rewrite Hd in H. destruct H as (d' & Hfind & [->| ->]); [exact Hfind|].
  now rewrite map_node_absent in Hfind.
Qed.

Lemma node_of_new_element (t : string) (st : store) :
  node_of st (fresh st) = None ->
  node_of (snd (new_element t st)) (fresh st)
  = Some (Node (fresh st) t None None [] []).
Proof.
  intros Hfresh. unfold node_of, all_nodes in *. cbn [new_element snd roots].
  rewrite flat_map_app, find_app, Hfresh. cbn.
  unfold has_id. cbn [id]. now rewrite Nat.eqb_refl.
Qed.

Lemma node_of_new_element_other (t : string) (st : store) (r : ref)
  (d : node) :
  node_of st r = Some d -> node_of (snd (new_element t st)) r = Some d.
Proof.
  intros Hd. unfold node_of, all_nodes in *. cbn [new_element snd roots].
  now rewrite flat_map_app, find_app, Hd.
Qed.

Lemma leaf_absent (p : ref) (n : node) :
  kids n = [] -> id n <> p ->
  forall x, In x (subnodes n) -> has_id p x = false.
Proof.
  intros Hk Hne x Hx. destruct n as [i t a b c ks]. cbn in Hk. subst ks.
  cbn in Hx. destruct Hx as [<-|[]]. unfold has_id. cbn [id] in *.
  now apply Nat.eqb_neq.
Qed.

Lemma holds_update_first (f : node -> node) st pe child pn cn :
  (forall n, id (f n) = id n) -> (forall n, kids (f n) = kids n) ->
  holds st pe child pn cn -> holds (update f pe st) pe child (f pn) cn.
Proof.
  intros Hid Hkids (Hp & Hc & Hkp & Hkc & Hne). repeat split.
  - rewrite node_of_update by exact Hid. now rewrite Hp.
  - apply node_of_update_other; try assumption.
    apply leaf_absent; [exact Hkc|]. apply node_of_some_id in Hc.
    congruence.
  - now rewrite Hkids.
  - exact Hkc.
  - exact Hne.
Qed.

Lemma holds_update_second (f : node -> node) st pe child pn cn :
  (forall n, id (f n) = id n) -> (forall n, kids (f n) = kids n) ->
  holds st pe child pn cn -> holds (update f child st) pe child pn (f cn).
Proof.
  intros Hid Hkids (Hp & Hc & Hkp & Hkc & Hne). repeat split.
  - apply node_of_update_other; try assumption.
    apply leaf_absent; [exact Hkp|]. apply node_of_some_id in Hp.
    congruence.
  - rewrite node_of_update by exact Hid. now rewrite Hc.
  - exact Hkp.
  - now rewrite Hkids.
  - exact Hne.
Qed.

End StoreFrames.

(** ** A paragraph without children *)

Section LeafParagraph.
Import Lx StM Loop Rewriter.

Variable process_node : ref -> bool -> config -> St (option ref).
Variable handle_textnode :
  ref -> bool -> bool -> bool -> config -> St (option ref).
Variable clean_element_text :
  ref -> bool -> bool -> bool -> bool -> config -> St (option string).
Variable text_chars_test : option string -> bool.
Variable trim : string -> string.
Variable is_image_file : string -> bool.

(** [clean_element_text] reads an element of the tree, returns, and
    leaves the tree as it is. *)
Hypothesis clean_reads :
  forall r from_tail comments_fix deduplicate preserve_spaces config st n,
    node_of st r = Some n ->
    exists x,
      clean_element_text r from_tail comments_fix deduplicate preserve_spaces
        config st = (Eff.Ok x, st).

Lemma modify_eval {B} (f : store -> store) (k : unit -> St B) st :
  bind (modify f) k st = k tt (f st).
Proof. reflexivity. Qed.

Lemma state_eval {A B} (f : store -> A * store) (k : A -> St B) st :
  bind (state f) k st = k (fst (f st)) (snd (f st)).
Proof. unfold bind, state. now destruct (f st). Qed.

Lemma ret_eval {A B} (a : A) (k : A -> St B) st :
  bind (ret a) k st = k a st.
Proof. reflexivity. Qed.

Lemma bind_assoc {A B C} (m : St A) (k : A -> St B) (g : B -> St C) st :
  bind (bind m k) g st = bind m (fun x => bind (k x) g) st.
Proof. unfold bind. destruct (m st) as [[a|e] s1]; reflexivity. Qed.

Lemma holds_set_text st pe child pn cn x :
  holds st pe child pn cn ->
  holds (set_text x pe st) pe child
    (Node (id pn) (ntag pn) x (ntail pn) (nattrib pn) (kids pn)) cn.
Proof.
  intros H. unfold set_text.
  exact (@holds_update_first
           (fun n => Node (id n) (ntag n) x (ntail n) (nattrib n) (kids n))
           st pe child pn cn (fun _ => eq_refl) (fun _ => eq_refl) H).
Qed.

Lemma holds_set_tail st pe child pn cn x :
  holds st pe child pn cn ->
  holds (set_tail x pe st) pe child
    (Node (id pn) (ntag pn) (ntext pn) x (nattrib pn) (kids pn)) cn.
Proof.
  intros H. unfold set_tail.
  exact (@holds_update_first
           (fun n => Node (id n) (ntag n) (ntext n) x (nattrib n) (kids n))
           st pe child pn cn (fun _ => eq_refl) (fun _ => eq_refl) H).
Qed.

Lemma holds_set_tag st pe child pn cn t :
  holds st pe child pn cn ->
  holds (set_tag t child st) pe child pn
    (Node (id cn) t (ntext cn) (ntail cn) (nattrib cn) (kids cn)).
Proof.
  intros H. unfold set_tag.
  exact (@holds_update_second
           (fun n => Node (id n) t (ntext n) (ntail n) (nattrib n) (kids n))
           st pe child pn cn (fun _ => eq_refl) (fun _ => eq_refl) H).
Qed.

Lemma truthy_nonempty (s : string) : s <> "" -> Py.truthy (Some s) = true.
Proof. destruct s; [congruence | reflexivity]. Qed.

Ltac st_step :=
  rewrite ?bind_assoc;
  first [rewrite ret_eval | rewrite modify_eval | rewrite state_eval].

Ltac st_node H :=
  rewrite ?bind_assoc; rewrite (@bind_eval _ _ _ _ _ _ _ (@the_node_ok _ _ _ H)).

Lemma leaf_finish (pe child : ref) (s : store) (pn cn : node)
  (x : option string) :
  holds s pe child pn cn -> Py.truthy x = true ->
  let s' := set_tail None pe (set_text x pe s) in
  (modify (set_text x pe) ;;;
   modify (set_tail None pe) ;;;
   empty <- element_is_empty (Some pe) ;;
   if empty then ret None else ret (Some pe))%st s
  = (Eff.Ok (Some pe), s') /\
  holds s' pe child (Node (id pn) (ntag pn) x None (nattrib pn) (kids pn)) cn.
Proof.
  intros H Hx. cbv zeta.
  apply (@holds_set_text _ _ _ _ _ x) in H.
  apply (@holds_set_tail _ _ _ _ _ None) in H.
  cbn [id ntag ntext nattrib kids] in H.
  split; [|exact H].
  st_step. st_step. unfold element_is_empty at 1. st_node (proj1 H). st_step.
  unfold node_is_empty. cbn [ntext]. rewrite Hx. cbn [negb].
  now rewrite andb_false_r.
Qed.

(** X27.  [handle_paragraphs_child] on an element without children and
    without tail, whose tag is [p], [del], [span] or [fw] and whose text
    [t] is not empty and not blank after [trim]: if [clean_element_text]
    only reads the tree and the next reference of the store is unused,
    the call returns a new element of the same tag, without tail,
    attributes and children, whose text is [trim t], followed by one
    blank exactly when [has_tail], [is_root] and [is_last_of_root] are
    all false and [should_have_space_next] accepts [trim t]; the source
    element is left in the tree with the tag [done] and its text. *)
Theorem handle_paragraphs_child_leaf (fuel : nat) (child : ref)
  (potential_tags : list string) (dedupbool : bool) (config : config)
  (is_root is_last_of_root has_tail : bool) (next_text : option string)
  (tags_to_enumerate : list string) (parent_tag : option string)
  (st : store) (c : node) (t : string) :
  node_of st (fresh st) = None ->
  node_of st child = Some c ->
  In (ntag c) ["p"; "del"; "span"; "fw"] ->
  kids c = [] -> ntext c = Some t -> ntail c = None ->
  t <> "" -> trim t <> "" ->
  let text :=
    if negb has_tail && negb is_root && negb is_last_of_root
       && Spacing.should_have_space_next (Some (trim t))
    then trim t ++ " " else trim t in
  exists st',
    handle_paragraphs_child process_node handle_textnode clean_element_text
      text_chars_test trim is_image_file (S fuel) child potential_tags
      dedupbool config is_root is_last_of_root has_tail next_text
      tags_to_enumerate parent_tag st
    = (Eff.Ok (Some (fresh st)), st') /\
    node_of st' (fresh st)
    = Some (Node (fresh st) (ntag c) (Some text) None [] []) /\
    node_of st' child
    = Some (Node (id c) "done" (ntext c) (ntail c) (nattrib c) []).
Proof.
  intros Hfresh Hc Htag Hkids Htext Htail Ht Htrim. cbv zeta.
  unfold handle_paragraphs_child. cbn [rewriter].
  destruct (rewriter process_node handle_textnode clean_element_text
              text_chars_test trim is_image_file fuel) as [[pc tb] te].
  cbn [fst]. unfold handle_paragraphs_child_body.
  set (pe := fresh st).
  assert (Hne : pe <> child).
  { intros Heq. subst pe. rewrite Heq in Hfresh. congruence. }
  rewrite (@bind_eval _ _ _ _ _ _ _ (@the_node_ok _ _ _ Hc)).
  rewrite state_eval. cbn [new_element fst]. fold pe.
  assert (H1 : holds (snd (new_element (ntag c) st)) pe child
                 (Node pe (ntag c) None None [] []) c).
  { repeat split; [now apply node_of_new_element
                  | now apply node_of_new_element_other
                  | exact Hkids | exact Hne]. }
  cbn [new_element snd] in H1.
  set (s1 := Store _ _) in *.
  destruct (clean_reads child false false dedupbool false config s1
              (proj1 (proj2 H1))) as [x1 Hx1].
  rewrite (@bind_eval _ _ _ _ _ _ _ Hx1). rewrite modify_eval.
  apply (@holds_set_text _ _ _ _ _ x1) in H1.
  cbn [id ntag ntail nattrib kids] in H1.
  set (s2 := set_text x1 pe s1) in *.
  destruct (clean_reads child true false dedupbool false config s2
              (proj1 (proj2 H1))) as [x2 Hx2].
  rewrite (@bind_eval _ _ _ _ _ _ _ Hx2). rewrite modify_eval.
  apply (@holds_set_tail _ _ _ _ _ x2) in H1.
  cbn [id ntag ntext nattrib kids] in H1.
  set (s3 := set_tail x2 pe s2) in *.
  st_node (proj1 (proj2 H1)).
  assert (Hce : node_is_empty c = false).
  { unfold node_is_empty. rewrite Htext, (truthy_nonempty Ht). cbn.
    now rewrite andb_false_r. }
  set (tag := ntag c) in *.
  assert (Hdispatch :
    String.eqb tag "table" = false /\ mem tag paragraph_level = true /\
    mem tag ["hi"; "head"] = false /\ String.eqb tag "ref" = false /\
    String.eqb tag "div" = false).
  { destruct Htag as [<-|[<-|[<-|[<-|[]]]]]; repeat split; reflexivity. }
  destruct Hdispatch as (D1 & D2 & D3 & D4 & D5).
  rewrite D1, D2, D3, D4. cbn [andb].
  st_step. st_step.
  apply (@holds_set_text _ _ _ _ _ (ntext c)) in H1.
  cbn [id ntag ntail nattrib kids] in H1.
  set (s4 := set_text (ntext c) pe s3) in *.
  st_step.
  apply (@holds_set_tail _ _ _ _ _ (ntail c)) in H1.
  cbn [id ntag ntext nattrib kids] in H1.
  set (s5 := set_tail (ntail c) pe s4) in *.
  st_step.
  st_node (proj1 H1). cbn [ntag ntext]. rewrite D5. cbn [andb].
  st_step.
  unfold element_is_empty at 1. st_node (proj1 (proj2 H1)). st_step.
  rewrite Hce. st_step.
  apply (@holds_set_tag _ _ _ _ _ "done") in H1.
  set (s6 := set_tag "done" child s5) in *.
  unfold len at 1. st_node (proj1 (proj2 H1)). st_step.
  cbn [kids]. rewrite Hkids. cbn [List.length Nat.eqb andb].
  unfold for_now_next. st_node (proj1 (proj2 H1)).
  cbn [kids]. rewrite Hkids. st_step.
  st_node (proj1 H1). cbn [ntext ntail kids]. rewrite Htext, Htail.
  unfold trim_opt.
  cbn [option_map List.length Nat.eqb negb andb orb].
  change (Py.truthy None) with false. cbn [andb negb].
  assert (Htr : Py.truthy (Some (trim t)) = true)
    by now apply truthy_nonempty.
  assert (Htr' : Py.truthy (Some (trim t ++ " ")) = true).
  { apply truthy_nonempty. destruct (trim t); [congruence | discriminate]. }
  change (Py.or_empty (Some (trim t))) with (trim t).
  rewrite Htr.
  match goal with
  | |- context [if _ && ?X then (Some (_ ++ " "), None) else _] =>
      change X with (Spacing.should_have_space_next (Some (trim t)))
  end.
  destruct has_tail, is_root, is_last_of_root;
    try destruct (Spacing.should_have_space_next (Some (trim t)));
    change (negb false) with true; change (negb true) with false;
    change (Py.truthy None) with false;
    repeat first [ rewrite Htr | rewrite andb_true_l | rewrite andb_false_l
                 | rewrite andb_true_r | rewrite andb_false_r
                 | rewrite orb_false_r ];
    cbv beta iota;
    (first
      [ destruct (@leaf_finish pe child s6 _ _ (Some (trim t)) H1 Htr)
          as [Hrun Hfin];
        eexists; (split; [exact Hrun|])
      | destruct (@leaf_finish pe child s6 _ _ (Some (trim t ++ " ")) H1 Htr')
          as [Hrun Hfin];
        eexists; (split; [exact Hrun|]) ];
    destruct Hfin as (Hp & Hcn & _); split;
      [rewrite Hp | rewrite Hcn, Htext, Htail, Hkids]; reflexivity).
Qed.
End LeafParagraph.

(** ** What [delete_by_link_density] removes *)

Section DensityRun.
Import Lx StM Loop Rewriter Density.
Local Open Scope st_scope.

Variable trim : string -> string.
Variable link_density_test : ref -> St (bool * list string).

Lemma walk_with_static_run {B} (f : ref -> St B) (g : ref -> B)
  (next : ref -> store -> option ref) (st : store) :
  forall fuel cur acc,
    (forall c, In c (steps_from fuel next cur st) ->
               f c st = (Eff.Ok (g c), st)) ->
    List.length (steps_from fuel next cur st) < fuel ->
    walk_with fuel next cur acc
      (fun acc c => y <- f c ;; ret ((acc ++ [y])%list, true)) st
    = (Eff.Ok (acc ++ map g (steps_from fuel next cur st))%list, st).
Proof.
  induction fuel as [|fuel IH]; intros cur acc Hf Hlen; [inversion Hlen|].
  destruct cur as [c|]; cbn [walk_with steps_from map] in *.
  - unfold bind at 1, gets. unfold bind at 1. unfold bind at 1.
    rewrite (Hf c (or_introl eq_refl)). unfold ret at 1.
    rewrite IH.
    + now rewrite <- app_assoc.
    + intros c' Hc'. apply Hf. now right.
    + cbn [List.length] in Hlen. lia.
  - unfold ret. now rewrite app_nil_r.
Qed.

Lemma subnodes_incl (n : node) :
  forall d, In d (subnodes n) -> incl (subnodes d) (subnodes n).
Proof.
  induction n as [i t x y a ks IH] using node_induction.
  intros d [<-|Hd]; [apply incl_refl|].
  cbn [subnodes kids] in *. apply in_flat_map in Hd as (k & Hk & Hd).
  rewrite Forall_forall in IH. intros z Hz. right.
  apply in_flat_map. exists k. split; [exact Hk|].
  exact (IH k Hk d Hd z Hz).
Qed.

Lemma in_all_nodes_subnodes (st : store) (n d : node) :
  In n (all_nodes st) -> In d (subnodes n) -> In d (all_nodes st).
Proof.
  unfold all_nodes. intros Hn Hd.
  apply in_flat_map in Hn as (root & Hroot & Hn).
  apply in_flat_map. exists root. split; [exact Hroot|].
  exact (subnodes_incl _ _ Hn d Hd).
Qed.

Lemma in_all_nodes_node_of (st : store) (n : node) :
  In n (all_nodes st) -> exists n', node_of st (id n) = Some n'.
Proof.
  intros Hn. unfold node_of.
  destruct (find (has_id (id n)) (all_nodes st)) as [n'|] eqn:E; [eauto|].
  pose proof (find_none _ _ E n Hn) as H. unfold has_id in H.
  now rewrite Nat.eqb_refl in H.
Qed.

Lemma iter_next_in_store (top : ref) (tags : list string) (cur r : ref)
  (st : store) :
  iter_next top tags cur st = Some r -> exists n, node_of st r = Some n.
Proof.
  unfold iter_next.
  set (scope := match node_of st top with Some t => _ | None => _ end).
  intros H.
  destruct (find (matches tags) (following cur scope)) as [n|] eqn:E;
    [|discriminate H].
  cbn in H. injection H as <-.
  apply find_some in E as [Hin _]. apply following_incl in Hin.
  apply in_all_nodes_node_of.
  assert (Hroot : forall root, root_of st cur = Some root ->
                               In n (subnodes root) -> In n (all_nodes st)).
  { intros root Hr Hn. unfold root_of in Hr. apply find_some in Hr as [Hr _].
    unfold all_nodes. apply in_flat_map. eauto. }
  subst scope. destruct (node_of st top) as [t|] eqn:Ht.
  - destruct (existsb (has_id cur) (subnodes t)).
    + unfold node_of in Ht. apply find_some in Ht as [Ht _].
      exact (in_all_nodes_subnodes _ _ _ Ht Hin).
    + destruct (root_of st cur) as [root|] eqn:Hr; [eauto | destruct Hin].
  - destruct (root_of st cur) as [root|] eqn:Hr; [eauto | destruct Hin].
Qed.

Lemma iter_list_in_store (top : ref) (tags : list string) (st : store) :
  forall fuel e, In e (iter_list fuel top tags st) ->
                 exists n, node_of st e = Some n.
Proof.
  unfold iter_list. intros fuel.
  assert (Hfirst : forall r, iter_first top tags st = Some r ->
                             exists n, node_of st r = Some n).
  { unfold iter_first. intros r H. destruct (node_of st top) as [t|] eqn:Ht;
      [|discriminate H].
    destruct (matches tags t).
    - injection H as <-. eauto.
    - now apply iter_next_in_store in H. }
  revert Hfirst. generalize (iter_first top tags st) as cur.
  induction fuel as [|fuel IH]; intros cur Hcur e He;
    destruct cur as [c|]; cbn [steps_from] in He; try destruct He.
  - subst e. now apply Hcur.
  - apply (IH (iter_next top tags c st)); [|assumption].
    intros r Hr. now apply iter_next_in_store in Hr.
Qed.

Lemma for_each_remove (l : list ref) : forall s s',
  for_each l remove_from_parent s = (Eff.Ok tt, s') ->
  s' = fold_left (fun s e => detach e s) l s.
Proof.
  induction l as [|e rest IH]; intros s s' H; cbn [for_each fold_left] in *.
  - unfold ret in H. now injection H as <-.
  - apply bind_ok in H as (u & s1 & He & Hrest).
    unfold remove_from_parent in He.
    apply bind_ok in He as (parent & s2 & Hp & He).
    unfold gets in Hp. injection Hp as <- <-.
    destruct (getparent s e); [|discriminate He].
    unfold modify in He. injection He as _ <-.
    now apply IH.
Qed.


Lemma first_loop_static (fuel : nat) (subtree : ref) (tagname : string)
  (backtracking : bool) (st : store)
  (density : ref -> bool * list string) :
  (forall e, In e (iter_list fuel subtree [tagname] st) ->
             link_density_test e st = (Eff.Ok (density e), st)) ->
  List.length (iter_list fuel subtree [tagname] st) < fuel ->
  map_iter fuel subtree [tagname]
    (fun elem =>
       '(result, templist) <- link_density_test elem ;;
       if (result : bool) then ret (elem, Flagged)
       else if backtracking && Nat.ltb 0 (List.length templist) then
         text <- text_content elem ;;
         ret (elem, Candidate (trim text))
       else ret (elem, Kept)) st
  = (Eff.Ok (map (fun e => (e, verdict_of trim backtracking st density e))
                 (iter_list fuel subtree [tagname] st)), st).
Proof.
  intros Htest Hlen. unfold map_iter. unfold bind at 1, gets.
  unfold iter_list in *.
  rewrite (@walk_with_static_run _ _
             (fun e => (e, verdict_of trim backtracking st density e)));
    [reflexivity| |exact Hlen].
  intros e He. rewrite (@bind_eval _ _ _ _ _ _ _ (Htest e He)).
  destruct (@iter_list_in_store subtree [tagname] st fuel e He) as [n Hn].
  unfold verdict_of. destruct (density e) as [result templist].
  cbn [fst snd]. destruct result; [reflexivity|].
  destruct (backtracking && Nat.ltb 0 (List.length templist));
    [|reflexivity].
  unfold text_content, text_of, the_node, bind, ret. now rewrite Hn.
Qed.

Lemma delete_by_link_density_static (fuel : nat) (subtree : ref)
  (tagname : string) (backtracking : bool) (st : store)
  (density : ref -> bool * list string) :
  (forall e, In e (iter_list fuel subtree [tagname] st) ->
             link_density_test e st = (Eff.Ok (density e), st)) ->
  List.length (iter_list fuel subtree [tagname] st) < fuel ->
  delete_by_link_density trim link_density_test fuel subtree tagname
    backtracking st
  = (for_each
       (uniquify_list
          (deletions_of backtracking
             (map (fun e => (e, verdict_of trim backtracking st density e))
                  (iter_list fuel subtree [tagname] st))))
       remove_from_parent ;;;
     ret subtree) st.
Proof.
  intros Htest Hlen. unfold delete_by_link_density.
  now rewrite (@bind_eval _ _ _ _ _ _ _
                 (@first_loop_static _ _ _ backtracking _ _ Htest Hlen)).
Qed.

Lemma removal_result (l : list ref) (subtree r : ref) (st st' : store) :
  (for_each l remove_from_parent ;;; ret subtree) st = (Eff.Ok r, st') ->
  r = subtree /\ st' = fold_left (fun s e => detach e s) l st.
Proof.
  intros H. apply bind_ok in H as (u & s1 & Hdel & Hret).
  unfold ret in Hret. injection Hret as <- <-.
  destruct u. apply for_each_remove in Hdel. now split.
Qed.

Lemma in_seen_flagged (backtracking : bool) (st : store)
  (density : ref -> bool * list string) (elems : list ref) (e : ref) :
  In (e, Flagged)
     (map (fun e => (e, verdict_of trim backtracking st density e)) elems) <->
  In e elems /\ fst (density e) = true.
Proof.
  rewrite in_map_iff. unfold verdict_of. split.
  - intros (x & Hx & Hin). injection Hx as -> Hv. split; [exact Hin|].
    destruct (fst (density e)); [reflexivity|].
    destruct (backtracking && Nat.ltb 0 (List.length (snd (density e))));
      discriminate Hv.
  - intros [Hin Hf]. exists e. now rewrite Hf.
Qed.

Lemma in_seen_candidate (st : store)
  (density : ref -> bool * list string) (elems : list ref) (e : ref)
  (t : string) :
  In (e, Candidate t)
     (map (fun e => (e, verdict_of trim true st density e)) elems) <->
  In e elems /\
  negb (fst (density e)) && Nat.ltb 0 (List.length (snd (density e))) = true
  /\ t = text_of trim st e.
Proof.
  rewrite in_map_iff. unfold verdict_of. cbn [andb]. split.
  - intros (x & Hx & Hin). injection Hx as -> Hv. split; [exact Hin|].
    destruct (fst (density e)); [discriminate Hv|]. cbn [negb andb].
    destruct (Nat.ltb 0 (List.length (snd (density e))));
      [|discriminate Hv].
    injection Hv as <-. now split.
  - intros (Hin & Hc & ->). exists e. split; [|exact Hin].
    destruct (fst (density e)); [discriminate Hc|]. cbn [negb andb] in Hc.
    now rewrite Hc.
Qed.

Lemma group_of_seen (st : store) (density : ref -> bool * list string)
  (t : string) (elems : list ref) :
  group_of t (map (fun e => (e, verdict_of trim true st density e)) elems)
  = filter (fun x =>
              negb (fst (density x))
              && Nat.ltb 0 (List.length (snd (density x)))
              && String.eqb (text_of trim st x) t) elems.
Proof.
  unfold group_of, verdict_of. cbn [andb].
  induction elems as [|x rest IH]; [reflexivity|].
  cbn [map flat_map filter fst snd]. rewrite IH.
  destruct (fst (density x)); [reflexivity|]. cbn [negb andb].
  destruct (Nat.ltb 0 (List.length (snd (density x)))); [|reflexivity].
  cbn [andb]. now destruct (String.eqb (text_of trim st x) t).
Qed.

Lemma flagged_seen (st : store) (density : ref -> bool * list string)
  (elems : list ref) :
  flagged (map (fun e => (e, verdict_of trim false st density e)) elems)
  = filter (fun e => fst (density e)) elems.
Proof.
  unfold flagged, verdict_of. cbn [andb].
  induction elems as [|x rest IH]; [reflexivity|].
  cbn [map flat_map filter fst snd]. rewrite IH.
  now destruct (fst (density x)).
Qed.

Lemma uniquify_from_fresh (l : list ref) : forall seen,
  NoDup l -> (forall x, In x l -> ~ In x seen) ->
  uniquify_from seen l = l.
Proof.
  induction l as [|a rest IH]; intros seen Hnd Hfresh; [reflexivity|].
  cbn [uniquify_from].
  assert (Ha : existsb (Nat.eqb a) seen = false).
  { destruct (existsb (Nat.eqb a) seen) eqn:E; [|reflexivity].
    apply existsb_exists in E as (y & Hy & Heq).
    apply Nat.eqb_eq in Heq. subst y.
    now destruct (Hfresh a (or_introl eq_refl)). }
  rewrite Ha. f_equal. inversion Hnd as [|? ? Hnot Hrest]; subst.
  apply IH; [exact Hrest|].
  intros x Hx [<-|Hin]; [contradiction|].
  exact (Hfresh x (or_intror Hx) Hin).
Qed.

(** C8.  [delete_by_link_density] with backtracking, for a link
    density test that answers and leaves the tree as it is (it gives
    [density e] for the element [e]) and a walk that comes to its end:
    of the elements that [subtree.iter(tagname)] hands out, those whose
    test is negative with a list that is not empty are grouped by their
    trimmed text content; an element is deleted exactly when its test is
    positive, or when it is in such a group of at least 3 elements
    (counted as they are handed out) whose text has a length strictly
    between 0 and 100; the list of the deletions is without repetitions
    when the removal starts; the call does
    [elem.getparent().remove(elem)] for each of them in turn and returns
    the subtree. *)
Theorem delete_by_link_density_backtracking (fuel : nat) (subtree : ref)
  (tagname : string) (st : store) (density : ref -> bool * list string) :
  let elems := iter_list fuel subtree [tagname] st in
  let text e :=
    match node_of st e with
    | Some n => trim (Dom.text_content (reify n))
    | None => ""
    end in
  let candidate e :=
    negb (fst (density e)) && Nat.ltb 0 (List.length (snd (density e))) in
  let group e :=
    filter (fun x => candidate x && String.eqb (text x) (text e)) elems in
  (forall e, In e elems ->
             link_density_test e st = (Eff.Ok (density e), st)) ->
  List.length elems < fuel ->
  exists deletions,
    (forall e,
        In e deletions <->
        In e elems /\
        (fst (density e) = true \/
         (candidate e = true /\
          3 <= List.length (group e) /\
          0 < String.length (text e) < 100))) /\
    NoDup deletions /\
    delete_by_link_density trim link_density_test fuel subtree tagname true
      st
    = (for_each deletions remove_from_parent ;;; ret subtree) st /\
    (forall r st',
        delete_by_link_density trim link_density_test fuel subtree tagname
          true st = (Eff.Ok r, st') ->
        r = subtree /\
        st' = fold_left (fun s e => detach e s) deletions st).
Proof.
  intros elems text candidate group Htest Hlen.
  pose proof (@delete_by_link_density_static _ _ _ true _ _ Htest Hlen)
    as Hrun.
  fold elems in Hrun.
  set (seen := map (fun e => (e, verdict_of trim true st density e)) elems) in *.
  exists (uniquify_list (deletions_of true seen)).
  destruct (deletions_of_backtracking seen) as (Hin & Hnd & Huniq).
  split; [|split; [exact Hnd | split; [exact Hrun|]]].
  - intros e. rewrite Huniq, Hin. subst seen.
    rewrite in_seen_flagged. split.
    + intros [[He Hf]|(t & Hc & H3 & Hl)]; [split; [exact He | now left]|].
      apply in_seen_candidate in Hc as (He & Hc & ->).
      rewrite group_of_seen in H3.
      split; [exact He|]. right. split; [exact Hc|]. split; [exact H3|].
      exact Hl.
    + intros [He [Hf|(Hc & H3 & Hl)]]; [now left|]. right.
      exists (text e). split; [|split; [|exact Hl]].
      * apply in_seen_candidate. now split.
      * rewrite group_of_seen. exact H3.
  - intros r st' H. rewrite Hrun in H. now apply removal_result in H.
Qed.

(** X3.  [delete_by_link_density] without backtracking, for a link
    density test that answers and leaves the tree as it is and a walk
    that comes to its end: the elements deleted are the elements handed
    out by [subtree.iter(tagname)] whose test is positive, whatever
    lists the tests gave, each of them once and, when the walk hands out
    no element twice, in the order of the walk; the call does
    [elem.getparent().remove(elem)] for each of them in turn and returns
    the subtree. *)
Theorem delete_by_link_density_without_backtracking (fuel : nat)
  (subtree : ref) (tagname : string) (st : store)
  (density : ref -> bool * list string) :
  let elems := iter_list fuel subtree [tagname] st in
  (forall e, In e elems ->
             link_density_test e st = (Eff.Ok (density e), st)) ->
  List.length elems < fuel ->
  exists deletions,
    (forall e, In e deletions <-> In e elems /\ fst (density e) = true) /\
    NoDup deletions /\
    (NoDup elems -> deletions = filter (fun e => fst (density e)) elems) /\
    delete_by_link_density trim link_density_test fuel subtree tagname false
      st
    = (for_each deletions remove_from_parent ;;; ret subtree) st /\
    (forall r st',
        delete_by_link_density trim link_density_test fuel subtree tagname
          false st = (Eff.Ok r, st') ->
        r = subtree /\
        st' = fold_left (fun s e => detach e s) deletions st).
Proof.
  intros elems Htest Hlen.
  pose proof (@delete_by_link_density_static _ _ _ false _ _ Htest Hlen)
    as Hrun.
  fold elems in Hrun.
  rewrite deletions_without_backtracking, flagged_seen in Hrun.
  set (l := filter (fun e => fst (density e)) elems) in *.
  exists (uniquify_list l). unfold uniquify_list in *.
  destruct (uniquify_from_spec l []) as [Hnd Hin].
  split; [|split; [exact Hnd | split; [|split; [exact Hrun|]]]].
  - intros e. rewrite Hin. subst l. rewrite filter_In. cbn. tauto.
  - intros Hel. apply uniquify_from_fresh; [|intros x _ []].
    subst l. now apply NoDup_filter.
  - intros r st' H. rewrite Hrun in H. now apply removal_result in H.
Qed.

End DensityRun.

(** The three short divisions with the same text are deleted, the long
    one stays. *)
Example shares_deleted :
  let st := Samples.store_of Samples.body_with_shares in
  let run :=
    Rewriter.delete_by_link_density Samples.trim
      Samples.link_density_test_short 50 0 "div" true st in
  fst run = Eff.Ok 0 /\
  option_map Lx.reify (Lx.node_of (snd run) 0)
  = Some (Dom.Element "body" None None []
            [Dom.Element "div" (Some "A longer text") None [] []]) /\
  map (Lx.getparent (snd run)) [1; 2; 3; 4] = [None; None; None; Some 0].
Proof. repeat split; vm_compute; reflexivity. Qed.

(** The paragraph that holds nothing but a link is deleted. *)
Example link_paragraph_deleted :
  let st := Samples.store_of Samples.body_with_link_paragraph in
  let run :=
    Rewriter.delete_by_link_density Samples.trim Samples.link_density_test
      50 0 "p" false st in
  fst run = Eff.Ok 0 /\
  option_map Lx.reify (Lx.node_of (snd run) 0)
  = Some (Dom.Element "body" None None [] [Samples.p_of "Some text"]) /\
  map (Lx.getparent (snd run)) [1; 2] = [Some 0; None].
Proof. repeat split; vm_compute; reflexivity. Qed.

(** ** Runs that meet the hypotheses above *)

Lemma concat_with_space_junction_witness :
  Py.truthy (Some "a") = true /\ Py.truthy (Some "b") = true /\
  Rewriter.concat_with_space Samples.trim (Some "a") (Some "b")
  = Some "a b".
Proof.
  split; [reflexivity|]. split; [reflexivity|].
  destruct (proj2 (proj2 (@concat_with_space_junction Samples.trim
                            (Some "a") (Some "b")))
              "a" "b" eq_refl eq_refl eq_refl eq_refl)
    as [[H _]|[H _]]; [exact H|].
  vm_compute in H. discriminate H.
Defined.

Lemma baseline_jsonld_roundtrip_witness :
  Baseline.baseline
    (fun _ => Some (Samples.script_only (Samples.jsonld_followed "X")))
    Samples.trim ""
  = (Dom.Element "body" None None []
       [Dom.Element "p" (Some (Samples.trim "X")) None [] []],
     Py.Str (Samples.trim "X"),
     Py.Int (Z.of_nat (String.length (Samples.trim "X")))).
Proof.
  apply baseline_jsonld_roundtrip
    with (pre := "{")
         (rest := "author" ++ Py.char Py.dquote ++ ":" ++ Py.char Py.dquote
                  ++ "A" ++ Py.char Py.dquote ++ "}")
         (tree := Samples.script_only (Samples.jsonld_followed "X"))
         (elem := Dom.Element "script" (Some (Samples.jsonld_followed "X"))
                    None [("type", "application/ld+json")] [])
         (others := []);
    try reflexivity. discriminate.
Defined.

Lemma scrape_json_needs_separator_witness :
  Baseline.scrape_json Samples.trim
    (Baseline.jsonld_scripts (Samples.script_only (Samples.jsonld_single "X")))
  = None.
Proof.
  apply scrape_json_needs_separator.
  intros elem t [<-|[]] Ht. injection Ht as <-. reflexivity.
Defined.

Lemma compare_extraction_calls_witness :
  let record :=
    snd (Eff.run (Arbiter.compare_extraction
                    (Samples.readability_answers Samples.long_body)
                    Samples.justext_finds_nothing Samples.sanitize_keeps
                    Samples.never_sanitized Samples.trim
                    Samples.short_body Samples.short_body None
                    Samples.short_body "elevenchars" 11 None
                    false false false false false false
                    (Samples.config_all 1))) in
  In (Eff.Call "sanitize_tree") record /\
  Arbiter.algo_flag Samples.short_body 11 25 (Samples.config_all 1) = true.
Proof.
  assert (Hin :
    In (Eff.Call "sanitize_tree")
       (snd (Eff.run (Arbiter.compare_extraction
                    (Samples.readability_answers Samples.long_body)
                    Samples.justext_finds_nothing Samples.sanitize_keeps
                    Samples.never_sanitized Samples.trim
                    Samples.short_body Samples.short_body None
                    Samples.short_body "elevenchars" 11 None
                    false false false false false false
                    (Samples.config_all 1)))))
    by (vm_compute; auto).
  split; [exact Hin|].
  exact (proj1 (proj2 (@compare_extraction_calls
                  (Samples.readability_answers Samples.long_body)
                  Samples.justext_finds_nothing Samples.sanitize_keeps
                  Samples.never_sanitized Samples.trim
                  Samples.short_body Samples.short_body None
                  Samples.short_body "elevenchars" 11%Z None
                  false false false false false false
                  (Samples.config_all 1))) Hin).
Defined.

Lemma compare_extraction_keeps_custom_witness :
  Eff.run (Arbiter.compare_extraction
             (Samples.readability_answers Samples.short_body)
             Samples.justext_finds_nothing Samples.sanitize_keeps
             Samples.never_sanitized Samples.trim
             Samples.short_body Samples.short_body None
             Samples.short_body "elevenchars" 11 None
             false false false false false false (Samples.config_all 1))
  = (Eff.Ok (Samples.short_body, "elevenchars", 11%Z),
     [Eff.Call "try_readability"; Eff.Log "using custom extraction"]).
Proof.
  apply (@compare_extraction_keeps_custom
           (Samples.readability_answers Samples.short_body)
           Samples.justext_finds_nothing Samples.sanitize_keeps
           Samples.never_sanitized Samples.trim
           Samples.short_body Samples.short_body None
           Samples.short_body "elevenchars" 11%Z None
           false false false false false false (Samples.config_all 1));
    [reflexivity | reflexivity | reflexivity | vm_compute; discriminate].
Defined.

Lemma compare_if_necessary_fallback_witness :
  Pipeline.no_fallback (Pipeline.flags false false false false) = false /\
  exists body text len record,
    Eff.run (Arbiter.compare_extraction
               (Samples.readability_answers Samples.long_body)
               Samples.justext_finds_nothing Samples.sanitize_keeps
               Samples.never_sanitized Samples.trim
               Samples.doc_eleven Samples.doc_eleven None
               Samples.short_body "elevenchars" 11 None
               false false false false false true (Samples.config_all 1))
    = (Eff.Ok (body, text, len), record) /\
    Pipeline.compare_if_necessary Samples.helpers
      (Samples.fallbacks_answering Samples.long_body)
      (Samples.services_for Samples.doc_eleven) "x"
      (Pipeline.flags false false false false) (Samples.config_all 1)
      Samples.doc_eleven (Some Samples.doc_eleven) Samples.short_body
      "elevenchars" 11 false Run.start
    = if Nat.eqb (Dom.len body) 0
      then (Eff.Ok (Baseline.baseline
                      (Pipeline.load_html
                         (Samples.services_for Samples.doc_eleven))
                      Samples.trim "x"),
            (fst Run.start,
             (snd Run.start ++ Eff.Call "compare_extraction" :: record
              ++ [Eff.Call "baseline"])%list))
      else (Eff.Ok (body, Py.Str text, Py.Int len),
            (fst Run.start,
             (snd Run.start ++ Eff.Call "compare_extraction" :: record)%list)).
Proof.
  split; [reflexivity|].
  apply (@compare_if_necessary_fallback unit Samples.helpers
           (Samples.fallbacks_answering Samples.long_body)
           (Samples.services_for Samples.doc_eleven) "x"
           (Pipeline.flags false false false false) (Samples.config_all 1)
           Samples.doc_eleven Samples.doc_eleven Samples.short_body
           "elevenchars" 11%Z false Run.start).
  reflexivity.
Defined.

Lemma extract_unparseable_witness :
  Pipeline.extract Samples.helpers
    (Samples.fallbacks_answering Samples.long_body) Samples.services_failing 50
    "not a document" Pipeline.defaults Pipeline.txt None
    (Samples.config_all 1) Run.start
  = (Eff.Ok None,
     (fst Run.start,
      (snd Run.start
       ++ [Eff.Log "empty HTML tree"; Eff.Log "discarding data"])%list)).
Proof.
  apply (@extract_unparseable unit Samples.helpers
           (Samples.fallbacks_answering Samples.long_body) Samples.services_failing
           50 "not a document" Pipeline.defaults Pipeline.txt None
           (Samples.config_all 1) Run.start).
  reflexivity.
Defined.

Lemma bare_extraction_metadata_gate_witness :
  let run :=
    Pipeline.bare_extraction Samples.helpers
      (Samples.fallbacks_answering Samples.long_body)
      (Samples.services_with_metadata Samples.doc_hello
         "http://site.example/a")
      50 "" Samples.options_with_metadata Pipeline.xml
      (Samples.config_all 1) None Run.start in
  exists doc,
    run = (Eff.Ok (Some doc), snd run) /\
    Pipeline.xml <> Pipeline.txt /\
    Pipeline.url doc = Some "http://site.example/a" /\
    Pipeline.url_blacklist Samples.options_with_metadata
    = ["http://blocked.example/"] /\
    Pipeline.only_with_metadata Samples.options_with_metadata = true /\
    (forall u, Pipeline.url doc = Some u ->
               ~ In u (Pipeline.url_blacklist Samples.options_with_metadata))
    /\
    (Pipeline.with_metadata Samples.options_with_metadata = true \/
     Pipeline.only_with_metadata Samples.options_with_metadata = true ->
     Pipeline.date doc <> None /\ Pipeline.title doc <> None /\
     Pipeline.url doc <> None).
Proof.
  cbv zeta.
  exists (Pipeline.Docmeta (Some "A title") (Some "2020-01-01")
            (Some "http://site.example/a") tt None None
            (Some (Py.Str "Hello world ."))
            (Some (Samples.body_of
                     [Dom.Element "p" (Some "Hello ") None []
                        [Dom.Element "hi" (Some "world") (Some ".")
                           [("rend", "#b")] []]]))
            None None None).
  assert (Hrun :
    Pipeline.bare_extraction Samples.helpers
      (Samples.fallbacks_answering Samples.long_body)
      (Samples.services_with_metadata Samples.doc_hello
         "http://site.example/a")
      50 "" Samples.options_with_metadata Pipeline.xml
      (Samples.config_all 1) None Run.start
    = (Eff.Ok (Some (Pipeline.Docmeta (Some "A title") (Some "2020-01-01")
            (Some "http://site.example/a") tt None None
            (Some (Py.Str "Hello world ."))
            (Some (Samples.body_of
                     [Dom.Element "p" (Some "Hello ") None []
                        [Dom.Element "hi" (Some "world") (Some ".")
                           [("rend", "#b")] []]]))
            None None None)),
       snd (Pipeline.bare_extraction Samples.helpers
              (Samples.fallbacks_answering Samples.long_body)
              (Samples.services_with_metadata Samples.doc_hello
                 "http://site.example/a")
              50 "" Samples.options_with_metadata Pipeline.xml
              (Samples.config_all 1) None Run.start)))
    by (vm_compute; reflexivity).
  assert (Hfmt : Pipeline.xml <> Pipeline.txt) by discriminate.
  split; [exact Hrun|]. split; [exact Hfmt|].
  split; [reflexivity|]. split; [reflexivity|]. split; [reflexivity|].
  eapply bare_extraction_metadata_gate; [exact Hrun | exact Hfmt].
Defined.

Lemma bare_extraction_body_gate_witness :
  let run :=
    Pipeline.bare_extraction Samples.helpers
      (Samples.fallbacks_answering Samples.long_body)
      (Samples.services_for Samples.doc_hello) 50 "" Samples.options_limited
      Pipeline.xml (Samples.config_all 1) None Run.start in
  exists doc,
    run = (Eff.Ok (Some doc), snd run) /\
    Pipeline.xml <> Pipeline.python /\
    exists postbody,
      Pipeline.body doc = Some postbody /\
      (forall max, Pipeline.max_tree_size Samples.options_limited = Some max ->
                   (Z.of_nat (Dom.len postbody) <= max)%Z) /\
      (Pipeline.deduplicate Samples.options_limited = true ->
       Pipeline.duplicate_test (Samples.services_for Samples.doc_hello)
         postbody (Samples.config_all 1) = false).
Proof.
  cbv zeta.
  exists (Pipeline.Docmeta None None None tt None None
            (Some (Py.Str "Hello world ."))
            (Some (Samples.body_of
                     [Dom.Element "p" (Some "Hello ") None []
                        [Dom.Element "hi" (Some "world") (Some ".")
                           [("rend", "#b")] []]]))
            None None None).
  assert (Hrun :
    Pipeline.bare_extraction Samples.helpers
      (Samples.fallbacks_answering Samples.long_body)
      (Samples.services_for Samples.doc_hello) 50 "" Samples.options_limited
      Pipeline.xml (Samples.config_all 1) None Run.start
    = (Eff.Ok (Some (Pipeline.Docmeta None None None tt None None
                       (Some (Py.Str "Hello world ."))
                       (Some (Samples.body_of
                                [Dom.Element "p" (Some "Hello ") None []
                                   [Dom.Element "hi" (Some "world") (Some ".")
                                      [("rend", "#b")] []]]))
                       None None None)),
       snd (Pipeline.bare_extraction Samples.helpers
              (Samples.fallbacks_answering Samples.long_body)
              (Samples.services_for Samples.doc_hello) 50 ""
              Samples.options_limited Pipeline.xml (Samples.config_all 1) None
              Run.start)))
    by (vm_compute; reflexivity).
  assert (Hfmt : Pipeline.xml <> Pipeline.python) by discriminate.
  split; [exact Hrun|]. split; [exact Hfmt|].
  eapply bare_extraction_body_gate; [exact Hrun | exact Hfmt].
Defined.

Lemma handle_formatting_TypeError_witness :
  fst (Rewriter.handle_formatting Samples.process_node 0 false
         (Samples.config_all 1) (Samples.store_of Samples.link_with_child))
  = Eff.Raise Eff.TypeError.
Proof.
  assert (Hp : Samples.process_node 0 false (Samples.config_all 1)
                 (Samples.store_of Samples.link_with_child)
               = (Eff.Ok None, Samples.store_of Samples.link_with_child))
    by (vm_compute; reflexivity).
  assert (He : Lx.node_of (Samples.store_of Samples.link_with_child) 0
               = Some (fst (Lx.number Samples.link_with_child 0)))
    by (vm_compute; reflexivity).
  apply (proj1 (@handle_formatting_TypeError _ _ _ _ _ _ _ _ Hp He)).
  split; [reflexivity|]. split; [discriminate | reflexivity].
Defined.

Lemma handle_other_elements_result_witness :
  Rewriter.handle_other_elements Samples.handle_textnode
    Samples.text_chars_test 0 ["p"; "div"] false (Samples.config_all 1)
    (Samples.store_of (Samples.p_of "a"))
  = (Eff.Ok None, Samples.store_of (Samples.p_of "a")).
Proof.
  assert (He : Lx.node_of (Samples.store_of (Samples.p_of "a")) 0
               = Some (fst (Lx.number (Samples.p_of "a") 0)))
    by (vm_compute; reflexivity).
  apply (proj1 (@handle_other_elements_result Samples.handle_textnode
                  Samples.text_chars_test 0 ["p"; "div"] false
                  (Samples.config_all 1) _ (Samples.store_of (Samples.p_of "a")) _
                  He)).
  discriminate.
Defined.

Lemma extract_content_sure_thing_witness :
  let st := Samples.store_of Samples.doc_hello in
  let run :=
    Rewriter.extract_content Samples.process_node Samples.handle_textnode
      Samples.clean_element_text Samples.text_chars_test Samples.trim
      Samples.image_suffix (fun r _ => StM.ret r)
      (fun _ => StM.ret (false, [])) (fun _ => StM.ret false)
      Samples.xpath_first ["article"; "main"]
      (Pipeline.TAG_CATALOG Samples.helpers) 50 0 false false true false
      false false (Samples.config_all 1) None st in
  run = (Eff.Ok (5, "Hello world .", 13, true), snd run) /\
  5 = Lx.fresh st /\
  13 = String.length "Hello world ." /\
  (true = true ->
   (MIN_EXTRACTED_SIZE (Samples.config_all 1) <= Z.of_nat 13)%Z).
Proof.
  cbv zeta.
  assert (Hrun :
    Rewriter.extract_content Samples.process_node Samples.handle_textnode
      Samples.clean_element_text Samples.text_chars_test Samples.trim
      Samples.image_suffix (fun r _ => StM.ret r)
      (fun _ => StM.ret (false, [])) (fun _ => StM.ret false)
      Samples.xpath_first ["article"; "main"]
      (Pipeline.TAG_CATALOG Samples.helpers) 50 0 false false true false
      false false (Samples.config_all 1) None (Samples.store_of Samples.doc_hello)
    = (Eff.Ok (5, "Hello world .", 13, true),
       snd (Rewriter.extract_content Samples.process_node
              Samples.handle_textnode Samples.clean_element_text
              Samples.text_chars_test Samples.trim Samples.image_suffix
              (fun r _ => StM.ret r) (fun _ => StM.ret (false, []))
              (fun _ => StM.ret false) Samples.xpath_first
              ["article"; "main"] (Pipeline.TAG_CATALOG Samples.helpers) 50
              0 false false true false false false (Samples.config_all 1)
              None (Samples.store_of Samples.doc_hello))))
    by (vm_compute; reflexivity).
  split; [exact Hrun|].
  eapply extract_content_sure_thing. exact Hrun.
Defined.

Lemma delete_by_link_density_no_target_witness :
  Rewriter.delete_by_link_density Samples.trim
    (fun _ => StM.ret (false, [])) 50 0 "div" true
    (Samples.store_of Samples.doc_hello)
  = (Eff.Ok 0, Samples.store_of Samples.doc_hello).
Proof.
  assert (Hn : Lx.node_of (Samples.store_of Samples.doc_hello) 0
               = Some (fst (Lx.number Samples.doc_hello 0)))
    by (vm_compute; reflexivity).
  eapply delete_by_link_density_no_target; [exact Hn|].
  intros d Hd. vm_compute in Hd.
  repeat (destruct Hd as [<-|Hd]; [discriminate|]). destruct Hd.
Defined.

Lemma handle_textelem_unwanted_witness :
  Rewriter.handle_textelem Samples.process_node Samples.handle_textnode
    Samples.clean_element_text Samples.text_chars_test Samples.trim
    Samples.image_suffix 20 0 ["p"; "hi"] [] false (Samples.config_all 1)
    (Samples.store_of Samples.table_of_one)
  = (Eff.Ok None, Samples.store_of Samples.table_of_one).
Proof.
  assert (He : Lx.node_of (Samples.store_of Samples.table_of_one) 0
               = Some (fst (Lx.number Samples.table_of_one 0)))
    by (vm_compute; reflexivity).
  eapply handle_textelem_unwanted;
    [exact He | left; reflexivity | reflexivity].
Defined.

Lemma extract_comments_none_witness :
  let st := Samples.store_of Samples.doc_hello in
  Rewriter.extract_comments Samples.handle_textnode Samples.trim
    (fun r _ => StM.ret r) (fun _ _ => StM.ret []) ["comments"]
    (Pipeline.TAG_CATALOG Samples.helpers) 0 false (Samples.config_all 1) st
  = (Eff.Ok (Lx.fresh st, Samples.trim "",
             String.length (Samples.trim ""), 0),
     snd (Lx.new_element "body" st)).
Proof.
  cbv zeta. apply extract_comments_none; [reflexivity|].
  intros expr st' _. reflexivity.
Defined.

Lemma remove_trailing_titles_result_witness :
  let run := Rewriter.remove_trailing_titles 5 0 (Samples.store_of Samples.titled_body) in
  run = (Eff.Ok tt, snd run) /\
  exists n, Lx.node_of (snd run) 0 = Some n /\
            forall last, hd_error (rev (Lx.kids n)) = Some last ->
                         Lx.mem (Lx.ntag last) Rewriter.HEADINGS = false.
Proof.
  cbv zeta.
  assert (Hrun :
    Rewriter.remove_trailing_titles 5 0 (Samples.store_of Samples.titled_body)
    = (Eff.Ok tt,
       snd (Rewriter.remove_trailing_titles 5 0 (Samples.store_of Samples.titled_body))))
    by (vm_compute; reflexivity).
  split; [exact Hrun|].
  eapply remove_trailing_titles_result. exact Hrun.
Defined.

Lemma handle_lists_result_witness :
  let run :=
    Rewriter.handle_lists Samples.text_chars_test
      (Rewriter.handle_paragraphs_child Samples.process_node
         Samples.handle_textnode Samples.clean_element_text
         Samples.text_chars_test Samples.trim Samples.image_suffix 20)
      20 0 ["p"; "item"; "hi"] false (Samples.config_all 1) []
      (Samples.store_of Samples.list_of_one) in
  run = (Eff.Ok (Some 2), snd run) /\
  exists n, Lx.node_of (snd run) 2 = Some n /\ Lx.kids n <> [] /\
            Samples.text_chars_test
              (Some (Dom.text_content (Lx.reify n))) = true.
Proof.
  cbv zeta.
  assert (Hrun :
    Rewriter.handle_lists Samples.text_chars_test
      (Rewriter.handle_paragraphs_child Samples.process_node
         Samples.handle_textnode Samples.clean_element_text
         Samples.text_chars_test Samples.trim Samples.image_suffix 20)
      20 0 ["p"; "item"; "hi"] false (Samples.config_all 1) []
      (Samples.store_of Samples.list_of_one)
    = (Eff.Ok (Some 2),
       snd (Rewriter.handle_lists Samples.text_chars_test
              (Rewriter.handle_paragraphs_child Samples.process_node
                 Samples.handle_textnode Samples.clean_element_text
                 Samples.text_chars_test Samples.trim Samples.image_suffix 20)
              20 0 ["p"; "item"; "hi"] false (Samples.config_all 1) []
              (Samples.store_of Samples.list_of_one))))
    by (vm_compute; reflexivity).
  split; [exact Hrun|].
  eapply handle_lists_result. exact Hrun.
Defined.

Lemma handle_table_result_witness :
  let run :=
    Rewriter.handle_table Samples.process_node Samples.handle_textnode
      Samples.clean_element_text Samples.text_chars_test Samples.trim
      Samples.image_suffix 20 0 ["p"; "table"] false (Samples.config_all 1)
      [] (Samples.store_of Samples.table_of_one) in
  run = (Eff.Ok (Some 3), snd run) /\
  3 = Lx.fresh (Samples.store_of Samples.table_of_one) /\
  exists n, Lx.node_of (snd run) 3 = Some n /\ Lx.kids n <> [].
Proof.
  cbv zeta.
  assert (Hrun :
    Rewriter.handle_table Samples.process_node Samples.handle_textnode
      Samples.clean_element_text Samples.text_chars_test Samples.trim
      Samples.image_suffix 20 0 ["p"; "table"] false (Samples.config_all 1)
      [] (Samples.store_of Samples.table_of_one)
    = (Eff.Ok (Some 3),
       snd (Rewriter.handle_table Samples.process_node
              Samples.handle_textnode Samples.clean_element_text
              Samples.text_chars_test Samples.trim Samples.image_suffix 20 0
              ["p"; "table"] false (Samples.config_all 1) []
              (Samples.store_of Samples.table_of_one))))
    by (vm_compute; reflexivity).
  split; [exact Hrun|].
  eapply handle_table_result. exact Hrun.
Defined.

Lemma handle_quotes_result_witness :
  let run :=
    Rewriter.handle_quotes Samples.process_node Samples.text_chars_test 20 0
      false (Samples.config_all 1)
      (Samples.store_of Samples.quote_with_formatting) in
  run = (Eff.Ok (Some 2), snd run) /\
  exists n, Lx.node_of (snd run) 2 = Some n /\
            forall d, In d (flat_map Lx.subnodes (Lx.kids n)) ->
                      Lx.ntag d <> "quote".
Proof.
  cbv zeta.
  assert (Hrun :
    Rewriter.handle_quotes Samples.process_node Samples.text_chars_test 20 0
      false (Samples.config_all 1)
      (Samples.store_of Samples.quote_with_formatting)
    = (Eff.Ok (Some 2),
       snd (Rewriter.handle_quotes Samples.process_node
              Samples.text_chars_test 20 0 false (Samples.config_all 1)
              (Samples.store_of Samples.quote_with_formatting))))
    by (vm_compute; reflexivity).
  split; [exact Hrun|].
  eapply handle_quotes_result. exact Hrun.
Defined.

Lemma handle_titles_result_witness :
  let run :=
    Rewriter.handle_titles Samples.process_node Samples.handle_textnode
      Samples.text_chars_test 2 false (Samples.config_all 1)
      (Samples.store_of Samples.titled_body) in
  run = (Eff.Ok (Some 2), snd run) /\
  exists n, Lx.node_of (snd run) 2 = Some n /\
            Samples.text_chars_test (Lx.ntext n) = true.
Proof.
  cbv zeta.
  assert (Hrun :
    Rewriter.handle_titles Samples.process_node Samples.handle_textnode
      Samples.text_chars_test 2 false (Samples.config_all 1)
      (Samples.store_of Samples.titled_body)
    = (Eff.Ok (Some 2),
       snd (Rewriter.handle_titles Samples.process_node
              Samples.handle_textnode Samples.text_chars_test 2 false
              (Samples.config_all 1)
              (Samples.store_of Samples.titled_body))))
    by (vm_compute; reflexivity).
  split; [exact Hrun|].
  eapply handle_titles_result. exact Hrun.
Defined.

Lemma process_comments_node_result_witness :
  Rewriter.process_comments_node Samples.handle_textnode 0 ["p"; "hi"] false
    (Samples.config_all 1) (Samples.store_of Samples.table_of_one)
  = (Eff.Ok None, Samples.store_of Samples.table_of_one).
Proof.
  assert (He : Lx.node_of (Samples.store_of Samples.table_of_one) 0
               = Some (fst (Lx.number Samples.table_of_one 0)))
    by (vm_compute; reflexivity).
  apply (proj1 (@process_comments_node_result Samples.handle_textnode 0
                  ["p"; "hi"] false (Samples.config_all 1) _
                  (Samples.store_of Samples.table_of_one) _ He)).
  reflexivity.
Defined.

Lemma handle_paragraphs_child_leaf_witness :
  exists st',
    Rewriter.handle_paragraphs_child Samples.process_node
      Samples.handle_textnode Samples.clean_element_text
      Samples.text_chars_test Samples.trim Samples.image_suffix 1 0 []
      false (Samples.config_all 0) false false false None [] None
      (Samples.store_of (Samples.p_of " a  b "))
    = (Eff.Ok (Some 1), st') /\
    Lx.node_of st' 1 = Some (Lx.Node 1 "p" (Some "a b ") None [] []) /\
    Lx.node_of st' 0
    = Some (Lx.Node 0 "done" (Some " a  b ") None [] []).
Proof.
  refine (@handle_paragraphs_child_leaf Samples.process_node
            Samples.handle_textnode Samples.clean_element_text
            Samples.text_chars_test Samples.trim Samples.image_suffix _
            0 0 [] false (Samples.config_all 0) false false false None []
            None (Samples.store_of (Samples.p_of " a  b "))
            (Lx.Node 0 "p" (Some " a  b ") None [] []) " a  b "
            eq_refl eq_refl _ eq_refl eq_refl eq_refl _ _).
  - intros r from_tail comments_fix deduplicate preserve_spaces c st n Hn.
    exists (option_map Samples.trim
              (if from_tail then Lx.ntail n else Lx.ntext n)).
    unfold Samples.clean_element_text.
    now rewrite (@bind_eval _ _ _ _ _ _ _ (@the_node_ok _ _ _ Hn)).
  - left. reflexivity.
  - discriminate.
  - vm_compute. discriminate.
Defined.

Lemma delete_by_link_density_backtracking_witness :
  let st := Samples.store_of Samples.body_with_shares in
  let density e :=
    match Lx.node_of st e with
    | Some n => (false, Samples.short_text n)
    | None => (false, [])
    end in
  (forall e, In e (Lx.iter_list 50 0 ["div"] st) ->
             Samples.link_density_test_short e st
             = (Eff.Ok (density e), st)) /\
  List.length (Lx.iter_list 50 0 ["div"] st) < 50 /\
  exists deletions,
    (In 1 deletions /\ In 2 deletions /\ In 3 deletions /\
     ~ In 4 deletions) /\
    NoDup deletions /\
    Rewriter.delete_by_link_density Samples.trim
      Samples.link_density_test_short 50 0 "div" true st
    = (Eff.Ok 0, fold_left (fun s e => Lx.detach e s) deletions st).
Proof.
  cbv zeta.
  set (st := Samples.store_of Samples.body_with_shares).
  set (density := fun e =>
    match Lx.node_of st e with
    | Some n => (false, Samples.short_text n)
    | None => (false, [])
    end).
  assert (Htest : forall e, In e (Lx.iter_list 50 0 ["div"] st) ->
             Samples.link_density_test_short e st
             = (Eff.Ok (density e), st)).
  { intros e He. vm_compute in He.
    destruct He as [<-|[<-|[<-|[<-|[]]]]]; vm_compute; reflexivity. }
  assert (Hlen : List.length (Lx.iter_list 50 0 ["div"] st) < 50)
    by (vm_compute; lia).
  assert (Hrun :
    Rewriter.delete_by_link_density Samples.trim
      Samples.link_density_test_short 50 0 "div" true st
    = (Eff.Ok 0,
       snd (Rewriter.delete_by_link_density Samples.trim
              Samples.link_density_test_short 50 0 "div" true st)))
    by (vm_compute; reflexivity).
  split; [exact Htest|]. split; [exact Hlen|].
  destruct (@delete_by_link_density_backtracking Samples.trim
              Samples.link_density_test_short 50 0 "div" st density
              Htest Hlen) as (deletions & Hin & Hnd & _ & Hres).
  exists deletions. split; [|split; [exact Hnd|]].
  - repeat split.
    + apply Hin. split; [vm_compute; tauto|]. right.
      split; [vm_compute; reflexivity|]. vm_compute. lia.
    + apply Hin. split; [vm_compute; tauto|]. right.
      split; [vm_compute; reflexivity|]. vm_compute. lia.
    + apply Hin. split; [vm_compute; tauto|]. right.
      split; [vm_compute; reflexivity|]. vm_compute. lia.
    + intros H. apply Hin in H as [_ [Hf|[Hc _]]].
      * vm_compute in Hf. discriminate Hf.
      * vm_compute in Hc. discriminate Hc.
  - destruct (Hres _ _ Hrun) as [_ Hst]. rewrite <- Hst. exact Hrun.
Defined.

Lemma delete_by_link_density_without_backtracking_witness :
  let st := Samples.store_of Samples.body_with_link_paragraph in
  let density e :=
    match Lx.node_of st e with
    | Some n => (Samples.links_only n, @nil string)
    | None => (false, [])
    end in
  (forall e, In e (Lx.iter_list 50 0 ["p"] st) ->
             Samples.link_density_test e st = (Eff.Ok (density e), st)) /\
  List.length (Lx.iter_list 50 0 ["p"] st) < 50 /\
  Rewriter.delete_by_link_density Samples.trim Samples.link_density_test
    50 0 "p" false st
  = (Eff.Ok 0, fold_left (fun s e => Lx.detach e s) [2] st).
Proof.
  cbv zeta.
  set (st := Samples.store_of Samples.body_with_link_paragraph).
  set (density := fun e =>
    match Lx.node_of st e with
    | Some n => (Samples.links_only n, @nil string)
    | None => (false, [])
    end).
  assert (Htest : forall e, In e (Lx.iter_list 50 0 ["p"] st) ->
             Samples.link_density_test e st = (Eff.Ok (density e), st)).
  { intros e He. vm_compute in He.
    destruct He as [<-|[<-|[]]]; vm_compute; reflexivity. }
  assert (Hlen : List.length (Lx.iter_list 50 0 ["p"] st) < 50)
    by (vm_compute; lia).
  assert (Hrun :
    Rewriter.delete_by_link_density Samples.trim Samples.link_density_test
      50 0 "p" false st
    = (Eff.Ok 0,
       snd (Rewriter.delete_by_link_density Samples.trim
              Samples.link_density_test 50 0 "p" false st)))
    by (vm_compute; reflexivity).
  split; [exact Htest|]. split; [exact Hlen|].
  destruct (@delete_by_link_density_without_backtracking Samples.trim
              Samples.link_density_test 50 0 "p" st density
              Htest Hlen) as (deletions & _ & _ & Horder & _ & Hres).
  destruct (Hres _ _ Hrun) as [_ Hst].
  rewrite Horder in Hst.
  - rewrite Hrun, Hst. reflexivity.
  - vm_compute. repeat constructor; cbn; intuition discriminate.
Defined.
